(** * TemperatureControl: gaussmeter protocol, power-supply limits, oven loop

    A shallow embedding of the instrument classes of [device_models.py],
    [device_type.py] and [connection_type.py], followed by the properties
    established about them.

    - [Py]        exceptions and the error monad used for fallible Python code
    - [Hex]       [bytes.hex], [bytes.fromhex], [int(s, 16)]
    - [Num]       Python numbers: unbounded integers and binary64 floats
    - [GM3]       the gaussmeter: [query], [command], [get_instantenous_data]
    - [SPD3303X]  the power supply: [_query], [_command], the setters,
                  [reset_channels] and the channel states
    - [Oven]      [Heater], the PID object and [Oven.update_supply]
    - [MCC_Device], [MCC_Device_Linux]  the temperature DAQs
    - [SocketEthernetDevice]            the Ethernet connection
    - [PowerSupply]                     the power-supply base class

    The modules [DecoderFacts], [ProtocolFacts], [SupplyFacts] and
    [OvenFacts] that follow hold the lemmas and theorems; [MeterFacts],
    [ChannelFacts], [ControllerFacts], [DaqFacts], [LinuxFacts],
    [PlatformFacts], [EthernetFacts] and [BaseSupplyFacts] hold further
    properties of the same code. *)

From Stdlib Require Import ZArith QArith Qminmax List Bool Lia.
From Stdlib Require Import Strings.Ascii Strings.String Strings.Byte.
From Stdlib Require Import DecimalString.
From Stdlib Require Import Floats.PrimFloat Floats.FloatOps Floats.SpecFloat Uint63.
Import ListNotations.

Close Scope Q_scope.
Set Implicit Arguments.

(* ================================================================== *)
(** ** Python exceptions and results *)
(* ================================================================== *)

Module Py.

Inductive exn : Set :=
| KeyError
| ValueError
| TypeError
| AttributeError.

(** Outcome of a pure but fallible expression. *)
Inductive result (A : Type) : Type :=
| Ok (a : A)
| Err (e : exn).
Arguments Ok {A} a.
Arguments Err {A} e.

Definition bind {A B} (r : result A) (k : A -> result B) : result B :=
  match r with
  | Ok a => k a
  | Err e => Err e
  end.

Definition of_option {A} (e : exn) (o : option A) : result A :=
  match o with
  | Some a => Ok a
  | None => Err e
  end.

(** Python text: a sequence of characters. *)
Definition str : Set := list ascii.

Definition lit (s : string) : str := list_ascii_of_string s.

Definition str_eqb (a b : str) : bool :=
  if list_eq_dec ascii_dec a b then true else false.

(** [s * n] on text. *)
Fixpoint str_repeat (s : str) (n : nat) : str :=
  match n with
  | O => []
  | S n' => s ++ str_repeat s n'
  end.

(** [s[a:b]] for [0 <= a], [0 <= b]; out-of-range ends are clamped. *)
Definition slice (a b : nat) (s : str) : str := firstn (b - a) (skipn a s).

(** [d[key]] on a dict written as an association list; [None] stands for
    the [KeyError] of a missing key. *)
Fixpoint lookup {V} (key : str) (d : list (str * V)) : option V :=
  match d with
  | [] => None
  | (k, v) :: d' => if str_eqb key k then Some v else lookup key d'
  end.

(** Exceptions raised by the code beyond those of [exn]. *)
Inductive error : Set :=
| Exn (e : exn)
| IndexError
| OSError
| ULError.

(** Outcome of a call that may raise any of them. *)
Inductive attempt (A : Type) : Type :=
| Gives (a : A)
| Fails (e : error).
Arguments Gives {A} a.
Arguments Fails {A} e.

(** [s.upper()] and [s.lower()] on ASCII text. *)
Definition upper_char (c : ascii) : ascii :=
  let n := nat_of_ascii c in
  if Nat.leb 97 n && Nat.leb n 122 then ascii_of_nat (n - 32) else c.

Definition upper (s : str) : str := map upper_char s.

Definition lower_char (c : ascii) : ascii :=
  let n := nat_of_ascii c in
  if Nat.leb 65 n && Nat.leb n 90 then ascii_of_nat (n + 32) else c.

Definition lower (s : str) : str := map lower_char s.

(** [str(n)] for an [int]. *)
Definition int_text (n : Z) : str := lit (NilZero.string_of_int (Z.to_int n)).

(** [key in d.keys()] *)
Definition has_key {V} (key : str) (d : list (str * V)) : bool :=
  match lookup key d with
  | Some _ => true
  | None => false
  end.

(** [range(low, stop)] *)
Definition range (low stop : Z) : list Z :=
  map (fun i => (low + Z.of_nat i)%Z) (seq 0 (Z.to_nat (stop - low))).

End Py.

Notation "x <- r ;; k" := (Py.bind r (fun x => k))
  (at level 61, r at next level, right associativity).

(* ================================================================== *)
(** ** Hexadecimal text *)
(* ================================================================== *)

Module Hex.
Import Py.

Definition bytes : Set := list byte.

Definition byte_Z (b : byte) : Z := Z.of_N (Byte.to_N b).

Definition hex_char (n : N) : ascii :=
  nth (N.to_nat n) (lit "0123456789abcdef") "0"%char.

Definition hex_of_byte (b : byte) : str :=
  [hex_char (Byte.to_N b / 16); hex_char (Byte.to_N b mod 16)].

(** [bytes.hex()] *)
Definition hex (bs : bytes) : str := flat_map hex_of_byte bs.

Definition digit_val (c : ascii) : option Z :=
  let n := nat_of_ascii c in
  if (48 <=? n) && (n <=? 57) then Some (Z.of_nat (n - 48))
  else if (97 <=? n) && (n <=? 102) then Some (Z.of_nat (n - 87))
  else if (65 <=? n) && (n <=? 70) then Some (Z.of_nat (n - 55))
  else None.

Fixpoint int16_acc (acc : Z) (s : str) : option Z :=
  match s with
  | [] => Some acc
  | c :: s' =>
      match digit_val c with
      | Some d => int16_acc (16 * acc + d) s'
      | None => None
      end
  end.

(** [int(s, 16)] on a string of hexadecimal digits.  The empty string and
    any other character raise [ValueError]; the sign, prefix, underscore
    and blank forms that Python also accepts never come out of
    [bytes.hex()] and are not modelled. *)
Definition int16 (s : str) : result Z :=
  match s with
  | [] => Err ValueError
  | _ => of_option ValueError (int16_acc 0 s)
  end.

(** [bytes.fromhex(s)] on a string of digit pairs (the blanks Python
    skips between pairs are not modelled: the opcodes have none). *)
Fixpoint fromhex (s : str) : result bytes :=
  match s with
  | [] => Ok []
  | [_] => Err ValueError
  | c1 :: c2 :: s' =>
      match digit_val c1, digit_val c2 with
      | Some h, Some l =>
          match Byte.of_N (Z.to_N (16 * h + l)) with
          | Some b => bs <- fromhex s' ;; Ok (b :: bs)
          | None => Err ValueError
          end
      | _, _ => Err ValueError
      end
  end.

(** The unsigned integer a byte string spells, most significant byte
    first, continuing from [acc]. *)
Fixpoint big_endian (acc : Z) (bs : bytes) : Z :=
  match bs with
  | [] => acc
  | b :: bs' => big_endian (256 * acc + byte_Z b) bs'
  end.

End Hex.

(* ================================================================== *)
(** ** Numbers produced by the gaussmeter decoder *)
(* ================================================================== *)

Module Num.

(** A Python number: an unbounded [int] or a binary64 [float]. *)
Inductive pynum : Set :=
| PyInt (z : Z)
| PyFloat (f : float).

(** [float(z)], exact for [|z| < 2^53]. *)
Definition float_of_int (z : Z) : float :=
  if (z <? 0)%Z then PrimFloat.opp (PrimFloat.of_uint63 (Uint63.of_Z (- z)))
  else PrimFloat.of_uint63 (Uint63.of_Z z).

(** [10 ** e] for an [int] exponent.  A non-negative exponent stays an
    [int]; for a negative one CPython evaluates [pow(10.0, e)] on doubles,
    taken here as the correctly rounded quotient [1 / 10^(-e)]. *)
Definition pow10 (e : Z) : pynum :=
  if (0 <=? e)%Z then PyInt (10 ^ e)
  else PyFloat (PrimFloat.div PrimFloat.one (float_of_int (10 ^ (- e)))).

(** [a * b] *)
Definition mul (a b : pynum) : pynum :=
  match a, b with
  | PyInt x, PyInt y => PyInt (x * y)
  | PyInt x, PyFloat g => PyFloat (PrimFloat.mul (float_of_int x) g)
  | PyFloat f, PyInt y => PyFloat (PrimFloat.mul f (float_of_int y))
  | PyFloat f, PyFloat g => PyFloat (PrimFloat.mul f g)
  end.

(** The exact rational a finite double denotes. *)
Definition float_Q (f : float) : option Q :=
  match Prim2SF f with
  | S754_zero _ => Some 0%Q
  | S754_finite s m e =>
      Some (inject_Z (if s then Z.neg m else Z.pos m) * Qpower 2 e)%Q
  | _ => None
  end.

(** The exact mathematical value of a number ([None] for NaN and the
    infinities). *)
Definition exact (v : pynum) : option Q :=
  match v with
  | PyInt z => Some (inject_Z z)
  | PyFloat f => float_Q f
  end.

End Num.

(* ================================================================== *)
(** ** The GM3 gaussmeter ([device_models.py]) *)
(* ================================================================== *)

Module GM3.
Import Py Hex Num.

(** The two primitives [GM3] inherits from [serial.Serial].  A read
    returns at most [size] bytes (fewer when the line times out). *)
Class Serial (port : Type) : Type := {
  serial_write : bytes -> port -> port;
  serial_read : nat -> port -> bytes * port
}.

(** I/O performed by an instance, in program order. *)
Inductive event : Set :=
| EvWrite (self : nat) (data : bytes)
| EvRead (self : nat) (size : nat) (data : bytes).

Definition bytes_eqb (a b : bytes) : bool :=
  if list_eq_dec Byte.byte_eq_dec a b then true else false.

Definition qry_dict : list (str * str) :=
  [ (lit "ID_METER_PROP", lit "01");
    (lit "ID_METER_SETT", lit "02");
    (lit "STREAM_DATA", lit "03");
    (lit "RESET_TIME", lit "04");
    (lit "01", lit "01");
    (lit "02", lit "02");
    (lit "03", lit "03");
    (lit "04", lit "04");
    (lit "0x01", lit "01");
    (lit "0x02", lit "02");
    (lit "0x03", lit "03");
    (lit "0x04", lit "04") ].

Definition number_of_bytes_dict : list (str * nat) :=
  [ (lit "01", 20); (lit "02", 20); (lit "03", 30); (lit "04", 31) ].

Definition cmd_dict : list (str * str) :=
  [ (lit "KILL_ALL_PROCESS", lit "FF");
    (lit "FF", lit "FF");
    (lit "0xFF", lit "FF") ].

(** The opcode of the second loop of [query], [bytes.fromhex('08' * 6)]. *)
Definition continue_opcode : bytes := [x08; x08; x08; x08; x08; x08].

(** The exchanges of a trace that are requests (their opcode is not the
    continue opcode) and were not acknowledged with [08]. *)
Fixpoint failed_requests (evs : list event) : Z :=
  match evs with
  | EvWrite _ opcode :: EvRead _ _ _ :: EvRead _ _ ack :: rest =>
      (if negb (bytes_eqb opcode continue_opcode) && negb (bytes_eqb ack [x08])
       then 1 else 0) + failed_requests rest
  | _ => 0
  end.

(** The events of one exchange. *)
Definition exchange_events (self : nat) (opcode : bytes) (size : nat)
    (payload ack : bytes) : list event :=
  [EvWrite self opcode; EvRead self size payload; EvRead self 1 ack].

(** Traces made of whole exchanges. *)
Inductive exchanges : list event -> Prop :=
| exchanges_nil : exchanges []
| exchanges_cons : forall self opcode size payload ack rest,
    exchanges rest ->
    exchanges (exchange_events self opcode size payload ack ++ rest).

Section Device.
Context {port : Type} {line : Serial port}.

(** The module state: every instance's serial line, indexed by the
    instance, and the one module-level [error_count] they all update.
    [trace] records the I/O done so far. *)
Record world : Type := {
  ports : nat -> port;
  error_count : Z;
  trace : list event
}.

Inductive outcome (A : Type) : Type :=
| Returned (a : A) (w : world)
| Raised (e : exn) (w : world)
| Diverged (w : world).
Arguments Returned {A} a w.
Arguments Raised {A} e w.
Arguments Diverged {A} w.

Definition final {A} (o : outcome A) : world :=
  match o with
  | Returned _ w => w
  | Raised _ w => w
  | Diverged w => w
  end.

Definition set_port (self : nat) (p : port) (f : nat -> port) : nat -> port :=
  fun i => if Nat.eqb i self then p else f i.

(** [self.write(data)] *)
Definition write (self : nat) (data : bytes) (w : world) : world :=
  {| ports := set_port self (serial_write data (ports w self)) (ports w);
     error_count := error_count w;
     trace := trace w ++ [EvWrite self data] |}.

(** [self.read(size)] *)
Definition read (self : nat) (size : nat) (w : world) : bytes * world :=
  let (data, p) := serial_read size (ports w self) in
  (data, {| ports := set_port self p (ports w);
            error_count := error_count w;
            trace := trace w ++ [EvRead self size data] |}).

(** [error_count += 1] *)
Definition count_error (w : world) : world :=
  {| ports := ports w;
     error_count := error_count w + 1;
     trace := trace w |}.

(** First loop of [query]: [while ack != bytes.fromhex('08')].  The
    loop has no bound in the source; [fuel] bounds the iterations and
    [Diverged] is the outcome when it runs out. *)
Fixpoint request_loop (fuel : nat) (self : nat) (qry : str)
    (number_of_bytes : nat) (ack r : bytes) (w : world)
  : outcome (bytes * bytes) :=
  if negb (bytes_eqb ack [x08]) then
    match fuel with
    | O => Diverged w
    | S fuel' =>
        match fromhex (str_repeat qry 6) with
        | Err e => Raised e w
        | Ok opcode =>
            let w := write self opcode w in
            let (r, w) := read self number_of_bytes w in
            let (ack, w) := read self 1 w in
            let w := if negb (bytes_eqb ack [x08]) then count_error w else w in
            request_loop fuel' self qry number_of_bytes ack r w
        end
    end
  else Returned (r, ack) w.

(** Second loop of [query]: [while ack != bytes.fromhex('07')]. *)
Fixpoint continue_loop (fuel : nat) (self : nat) (number_of_bytes : nat)
    (ack r : bytes) (w : world) : outcome bytes :=
  if negb (bytes_eqb ack [x07]) then
    match fuel with
    | O => Diverged w
    | S fuel' =>
        match fromhex (str_repeat (lit "08") 6) with
        | Err e => Raised e w
        | Ok opcode =>
            let w := write self opcode w in
            let (chunk, w) := read self number_of_bytes w in
            let r := r ++ chunk in
            let (ack, w) := read self 1 w in
            continue_loop fuel' self number_of_bytes ack r w
        end
    end
  else Returned r w.

(** [GM3.query].  [ack = ''] and [r = None] before the first loop are
    both written [[]]: the empty text differs from [b'\x08'] just as
    the empty bytes do, and [r] is assigned before it is read. *)
Definition query (fuel : nat) (self : nat) (command : str) (w : world)
  : outcome bytes :=
  match lookup command qry_dict with
  | None => Raised KeyError w
  | Some qry =>
      match lookup qry number_of_bytes_dict with
      | None => Raised KeyError w
      | Some number_of_bytes =>
          match request_loop fuel self qry number_of_bytes [] [] w with
          | Returned (r, ack) w =>
              if str_eqb qry (lit "03") || str_eqb qry (lit "04")
              then Returned r w
              else continue_loop fuel self number_of_bytes ack r w
          | Raised e w => Raised e w
          | Diverged w => Diverged w
          end
      end
  end.

(** [GM3.command] *)
Definition command (self : nat) (command : str) (w : world) : outcome unit :=
  match lookup command cmd_dict with
  | None => Raised KeyError w
  | Some cmd =>
      match fromhex (str_repeat cmd 6) with
      | Err e => Raised e w
      | Ok opcode => Returned tt (write self opcode w)
      end
  end.

(** One request/acknowledge exchange as the two loops of [query] perform
    it: six opcode bytes out, [number_of_bytes] payload bytes and one
    acknowledgment byte in. *)
Definition exchange (self : nat) (opcode : bytes) (number_of_bytes : nat)
    (w : world) : bytes * bytes * world :=
  let w := write self opcode w in
  let (r, w) := read self number_of_bytes w in
  let (ack, w) := read self 1 w in
  (r, ack, w).

(** The chunks and acknowledgments of [k] successive continue exchanges. *)
Fixpoint continuation (k : nat) (self : nat) (number_of_bytes : nat)
    (w : world) : list (bytes * bytes) * world :=
  match k with
  | O => ([], w)
  | S k' =>
      let '(chunk, ack, w) := exchange self continue_opcode number_of_bytes w in
      let (rest, w) := continuation k' self number_of_bytes w in
      ((chunk, ack) :: rest, w)
  end.

(** A client calling [query] on any of the instances, one call after the
    other, until a call fails to return. *)
Fixpoint session (fuel : nat) (calls : list (nat * str)) (w : world) : world :=
  match calls with
  | [] => w
  | (self, command) :: calls' =>
      match query fuel self command w with
      | Diverged w' => w'
      | Returned _ w' => session fuel calls' w'
      | Raised _ w' => session fuel calls' w'
      end
  end.

(** [w'] comes after [w]: the trace grew by whole exchanges and the
    counter by the failed requests among them. *)
Definition accounted (w w' : world) : Prop :=
  exists evs, exchanges evs /\
    trace w' = trace w ++ evs /\
    error_count w' = (error_count w + failed_requests evs)%Z.

End Device.

Arguments world port : clear implicits.
Arguments outcome port A : clear implicits.
Arguments Returned {port A} a w.
Arguments Raised {port A} e w.
Arguments Diverged {port A} w.

(** Body of the [for measurable_i in range(...)] loop of
    [get_instantenous_data]: the value appended to [out]. *)
Definition decode_measurable (query_string : str) (measurable_i : nat)
  : result pynum :=
  let section_i := measurable_i * 12 in
  byte_2 <- int16 (slice (section_i + 2) (section_i + 4) query_string) ;;
  bytes_3456 <- int16 (slice (section_i + 4) (section_i + 12) query_string) ;;
  let sign := if (Z.land byte_2 8 =? 0)%Z then 1%Z else (-1)%Z in
  let digits := bytes_3456 in
  let magnitude := pow10 (-1 * Z.land byte_2 7) in
  Ok (mul (PyInt (sign * digits)) magnitude).

Fixpoint decode_loop (query_string : str) (measurable_i count : nat)
    (out : list pynum) : result (list pynum) :=
  match count with
  | O => Ok out
  | S count' =>
      v <- decode_measurable query_string measurable_i ;;
      decode_loop query_string (S measurable_i) count' (out ++ [v])
  end.

(** The decoding step of [get_instantenous_data], from [query_bytes.hex()]
    to [return out].  [int(len(query_string) / 2 / 6)] truncates a
    non-negative quotient, written here as integer division. *)
Definition decode (query_bytes : bytes) : result (list pynum) :=
  let query_string := hex query_bytes in
  let number_of_measurables := List.length query_string / 2 / 6 in
  decode_loop query_string 0 number_of_measurables [].

(** The fields of one 6-byte section as the specification words them:
    the sign from bit 3 of byte 1, the decimal exponent from bits 0-2 of
    byte 1, the digits from bytes 2-5 read big-endian, and the value
    [sign * digits * 10^(-exponent)] as an exact rational. *)
Definition section_sign (b1 : byte) : Z :=
  if Z.testbit (byte_Z b1) 3 then (-1)%Z else 1%Z.

Definition section_exponent (b1 : byte) : Z := Z.land (byte_Z b1) 7.

Definition section_digits (b2 b3 b4 b5 : byte) : Z :=
  (byte_Z b2 * 2 ^ 24 + byte_Z b3 * 2 ^ 16 + byte_Z b4 * 2 ^ 8 + byte_Z b5)%Z.

Definition section_value (b1 b2 b3 b4 b5 : byte) : Q :=
  (inject_Z (section_sign b1 * section_digits b2 b3 b4 b5)
   / inject_Z (10 ^ section_exponent b1))%Q.

(** The number the source computes from the same fields: an [int] when the
    exponent is 0, else the double product of [sign * digits] with
    [10 ** -exponent]. *)
Definition section_number (b1 b2 b3 b4 b5 : byte) : pynum :=
  let n := (section_sign b1 * section_digits b2 b3 b4 b5)%Z in
  if (section_exponent b1 =? 0)%Z then PyInt n
  else PyFloat (PrimFloat.mul (float_of_int n)
         (PrimFloat.div PrimFloat.one (float_of_int (10 ^ section_exponent b1)))).

(** The number decoded from section [i] of a payload. *)
Definition number_at (payload : bytes) (i : nat) : pynum :=
  match firstn 6 (skipn (6 * i) payload) with
  | [_; b1; b2; b3; b4; b5] => section_number b1 b2 b3 b4 b5
  | _ => PyInt 0
  end.

(** [GM3.get_instantenous_data] *)
Definition get_instantenous_data {port} {line : Serial port}
    (fuel : nat) (self : nat) (w : world port) : outcome port (list pynum) :=
  match query fuel self (lit "STREAM_DATA") w with
  | Returned query_bytes w =>
      match decode query_bytes with
      | Ok out => Returned out w
      | Err e => Raised e w
      end
  | Raised e w => Raised e w
  | Diverged w => Diverged w
  end.

(** A serial line whose pending input is known in advance: writes are
    ignored and a read takes what is there, up to [size] bytes. *)
#[export] Instance scripted_line : Serial bytes := {
  serial_write := fun _ pending => pending;
  serial_read := fun size pending => (firstn size pending, skipn size pending)
}.

Definition start {port} (p : nat -> port) : world port :=
  {| ports := p; error_count := 0; trace := [] |}.


(** Example lines.  A meter that answers a stream request at once; one
    that answers an identification request in three parts; and a bench
    with two meters, the first of which garbles its first acknowledgment. *)
Definition stream_meter : world bytes :=
  start (fun _ => repeat x01 30 ++ [x08]).

Definition properties_meter : world bytes :=
  start (fun _ => repeat x41 20 ++ [x08] ++ repeat x42 20 ++ [x08]
                    ++ repeat x43 20 ++ [x07]).

Definition two_meters : world bytes :=
  start (fun self =>
           if Nat.eqb self 0
           then repeat x01 30 ++ [x00] ++ repeat x02 30 ++ [x08]
           else repeat x03 30 ++ [x08]).

(** [GM3.get_instantenous_data_t0]: the same decoding after
    [query('RESET_TIME')]. *)
Definition get_instantenous_data_t0 {port} {line : Serial port}
    (fuel : nat) (self : nat) (w : world port) : outcome port (list pynum) :=
  match query fuel self (lit "RESET_TIME") w with
  | Returned query_bytes w =>
      match decode query_bytes with
      | Ok out => Returned out w
      | Err e => Raised e w
      end
  | Raised e w => Raised e w
  | Diverged w => Diverged w
  end.

(** The instance an event belongs to. *)
Definition event_self (ev : event) : nat :=
  match ev with
  | EvWrite self _ => self
  | EvRead self _ _ => self
  end.


(** What a method run by instance [self] may do to the world: write
    and read on its own line, and nothing on the others. *)
Definition by_self {port} (self : nat) (w w' : world port) : Prop :=
  (forall other, other <> self -> ports w' other = ports w other) /\
  exists evs, trace w' = trace w ++ evs /\
    Forall (fun ev => event_self ev = self) evs.

End GM3.

(* ================================================================== *)
(** ** The SPD3303X power supply ([device_models.py]) *)
(* ================================================================== *)

Module SPD3303X.
Import Py.

(** The Python values that reach the limit setters.  A number is kept as
    the rational it denotes: Python orders [int] and [float] values by
    their exact value. *)
Inductive value : Type :=
| VNone
| VNum (q : Q)
| VStr (s : str).

Definition qltb (x y : Q) : bool := negb (Qle_bool y x).

Fixpoint str_ltb (a b : str) : bool :=
  match a, b with
  | _, [] => false
  | [], _ :: _ => true
  | x :: a', y :: b' =>
      if Nat.ltb (nat_of_ascii x) (nat_of_ascii y) then true
      else if Nat.ltb (nat_of_ascii y) (nat_of_ascii x) then false
      else str_ltb a' b'
  end.

(** [a < b]: defined between two numbers and between two strings, a
    [TypeError] for every other pair. *)
Definition lt (a b : value) : result bool :=
  match a, b with
  | VNum x, VNum y => Ok (qltb x y)
  | VStr x, VStr y => Ok (str_ltb x y)
  | _, _ => Err TypeError
  end.

(** [a > b] *)
Definition gt (a b : value) : result bool := lt b a.

(** [a <= b] *)
Definition le (a b : value) : result bool :=
  match a, b with
  | VNum x, VNum y => Ok (Qle_bool x y)
  | VStr x, VStr y => Ok (negb (str_ltb y x))
  | _, _ => Err TypeError
  end.

Definition is_space (c : ascii) : bool :=
  let n := nat_of_ascii c in
  Nat.eqb n 32 || (Nat.leb 9 n && Nat.leb n 13) || (Nat.leb 28 n && Nat.leb n 31).

Fixpoint lstrip (s : str) : str :=
  match s with
  | c :: s' => if is_space c then lstrip s' else s
  | [] => []
  end.

(** [s.strip()] *)
Definition strip (s : str) : str := rev (lstrip (rev (lstrip s))).

(** The TCP socket held in [self._socket].  [None] is an [OSError]
    raised by the call.  Commands and replies are ASCII, so
    [encode('utf-8')] and [decode('utf-8')] are the identity and the
    socket is given text. *)
Class Socket (sock : Type) : Type := {
  sendall : str -> sock -> option sock;
  recv : nat -> sock -> option (str * sock)
}.

(** The double written [3.3]. *)
Definition float_3_3 : Q := 3715469692580659 # 1125899906842624.

Section Supply.
Context {sock : Type} {net : Socket sock}.

(** Instance attributes, with the text printed so far ([stdout]) and
    the text handed to [sendall] so far ([wire]). *)
Record state : Type := {
  _socket : sock;
  _ch1_voltage_limit : value;
  _ch1_current_limit : value;
  _ch2_voltage_limit : value;
  _ch2_current_limit : value;
  _MAX_voltage_limit : value;
  _MAX_current_limit : value;
  stdout : list str;
  wire : list str
}.

Inductive outcome : Type :=
| Return (v : value) (st : state)
| Raise (e : exn) (st : state).

Definition after (o : outcome) : state :=
  match o with
  | Return _ st => st
  | Raise _ st => st
  end.

(** The attributes stored by [__init__] with its default arguments
    ([connect] and [reset_channels] are not part of the model). *)
Definition init (s : sock) : state :=
  {| _socket := s;
     _ch1_voltage_limit := VNum (32 # 1);
     _ch1_current_limit := VNum float_3_3;
     _ch2_voltage_limit := VNum (32 # 1);
     _ch2_current_limit := VNum float_3_3;
     _MAX_voltage_limit := VNum (32 # 1);
     _MAX_current_limit := VNum float_3_3;
     stdout := [];
     wire := [] |}.

Definition print (msg : str) (st : state) : state :=
  {| _socket := _socket st;
     _ch1_voltage_limit := _ch1_voltage_limit st;
     _ch1_current_limit := _ch1_current_limit st;
     _ch2_voltage_limit := _ch2_voltage_limit st;
     _ch2_current_limit := _ch2_current_limit st;
     _MAX_voltage_limit := _MAX_voltage_limit st;
     _MAX_current_limit := _MAX_current_limit st;
     stdout := stdout st ++ [msg];
     wire := wire st |}.

Definition with_socket (s : sock) (sent : list str) (st : state) : state :=
  {| _socket := s;
     _ch1_voltage_limit := _ch1_voltage_limit st;
     _ch1_current_limit := _ch1_current_limit st;
     _ch2_voltage_limit := _ch2_voltage_limit st;
     _ch2_current_limit := _ch2_current_limit st;
     _MAX_voltage_limit := _MAX_voltage_limit st;
     _MAX_current_limit := _MAX_current_limit st;
     stdout := stdout st;
     wire := wire st ++ sent |}.

Definition set_ch1_voltage_limit (v : value) (st : state) : state :=
  {| _socket := _socket st;
     _ch1_voltage_limit := v;
     _ch1_current_limit := _ch1_current_limit st;
     _ch2_voltage_limit := _ch2_voltage_limit st;
     _ch2_current_limit := _ch2_current_limit st;
     _MAX_voltage_limit := _MAX_voltage_limit st;
     _MAX_current_limit := _MAX_current_limit st;
     stdout := stdout st;
     wire := wire st |}.

Definition set_ch1_current_limit (v : value) (st : state) : state :=
  {| _socket := _socket st;
     _ch1_voltage_limit := _ch1_voltage_limit st;
     _ch1_current_limit := v;
     _ch2_voltage_limit := _ch2_voltage_limit st;
     _ch2_current_limit := _ch2_current_limit st;
     _MAX_voltage_limit := _MAX_voltage_limit st;
     _MAX_current_limit := _MAX_current_limit st;
     stdout := stdout st;
     wire := wire st |}.

Definition set_ch2_current_limit (v : value) (st : state) : state :=
  {| _socket := _socket st;
     _ch1_voltage_limit := _ch1_voltage_limit st;
     _ch1_current_limit := _ch1_current_limit st;
     _ch2_voltage_limit := _ch2_voltage_limit st;
     _ch2_current_limit := v;
     _MAX_voltage_limit := _MAX_voltage_limit st;
     _MAX_current_limit := _MAX_current_limit st;
     stdout := stdout st;
     wire := wire st |}.

Definition socket_error : str := lit "ERROR: Socket not found".

(** [SPD3303X._query]: the [try] body, and the [except OSError] branch
    that prints and falls off the end of the method. *)
Definition _query (query : str) (st : state) : outcome :=
  match sendall query (_socket st) with
  | None => Return VNone (print socket_error (with_socket (_socket st) [query] st))
  | Some s1 =>
      match recv 4096 s1 with
      | None => Return VNone (print socket_error (with_socket s1 [query] st))
      | Some (reply_bytes, s2) =>
          let reply := strip reply_bytes in
          Return (VStr reply) (with_socket s2 [query] st)
      end
  end.

(** [SPD3303X._command]: [out] is what [sendall] returns, [None]. *)
Definition _command (cmd : str) (st : state) : outcome :=
  match sendall cmd (_socket st) with
  | None => Return VNone (print socket_error (with_socket (_socket st) [cmd] st))
  | Some s1 => Return VNone (with_socket s1 [cmd] st)
  end.

(** Property getters. *)
Definition ch1_set_voltage (st : state) : outcome := _query (lit "CH1:voltage?") st.
Definition ch2_set_voltage (st : state) : outcome := _query (lit "CH2:voltage?") st.
Definition ch1_set_current (st : state) : outcome := _query (lit "CH1:current?") st.
Definition ch2_set_current (st : state) : outcome := _query (lit "CH2:current?") st.

(** The common shape of the four limit setters:
    [if new > MAX or new <= 0: print(..) elif new < live: print(..)
     else: store = new].  Each setter below names the attribute and the
    getter its own source text names. *)
Definition limit_setter
    (MAX : state -> value) (live : state -> outcome)
    (store : value -> state -> state)
    (not_allowed too_low : str) (new : value) (st : state) : outcome :=
  match gt new (MAX st) with
  | Err e => Raise e st
  | Ok above =>
      match (if above then Ok true else le new (VNum 0)) with
      | Err e => Raise e st
      | Ok true => Return VNone (print not_allowed st)
      | Ok false =>
          match live st with
          | Raise e st1 => Raise e st1
          | Return present st1 =>
              match lt new present with
              | Err e => Raise e st1
              | Ok true => Return VNone (print too_low st1)
              | Ok false => Return VNone (store new st1)
              end
          end
      end
  end.

(** The messages, without the run of blanks that the continued string
    literals of the source carry. *)
Definition voltage_not_allowed : str :=
  lit "Voltage limit not set. New voltage limit is not allowed by the power supply".
Definition current_not_allowed : str :=
  lit "Current limit not set. New voltage limit is not allowed by the power supply".
Definition too_low (what chan : string) : str :=
  (lit what ++ lit " limit not set. New " ++ lit what
     ++ lit " limit is lower than present " ++ lit chan)%list.

(** [@ch1_voltage_limit.setter] *)
Definition ch1_voltage_limit_setter : value -> state -> outcome :=
  limit_setter _MAX_voltage_limit ch1_set_voltage set_ch1_voltage_limit
    voltage_not_allowed (too_low "Voltage" "ch1 voltage").

(** [@ch1_current_limit.setter] *)
Definition ch1_current_limit_setter : value -> state -> outcome :=
  limit_setter _MAX_current_limit ch1_set_current set_ch1_current_limit
    current_not_allowed (too_low "Current" "ch1 current").

(** [@ch2_voltage_limit.setter]: the [else] branch assigns
    [self._ch1_voltage_limit]. *)
Definition ch2_voltage_limit_setter : value -> state -> outcome :=
  limit_setter _MAX_voltage_limit ch2_set_voltage set_ch1_voltage_limit
    voltage_not_allowed (too_low "Voltage" "ch2 voltage").

(** [@ch2_current_limit.setter]: the [elif] reads
    [self.ch1_set_current]. *)
Definition ch2_current_limit_setter : value -> state -> outcome :=
  limit_setter _MAX_current_limit ch1_set_current set_ch2_current_limit
    current_not_allowed (too_low "Current" "ch2 current").

(** Two states that hold the same four channel limits. *)
Definition same_limits (st st' : state) : Prop :=
  _ch1_voltage_limit st' = _ch1_voltage_limit st /\
  _ch1_current_limit st' = _ch1_current_limit st /\
  _ch2_voltage_limit st' = _ch2_voltage_limit st /\
  _ch2_current_limit st' = _ch2_current_limit st.

End Supply.

Arguments state sock : clear implicits.
Arguments outcome sock : clear implicits.

(** A socket for examples: while [alive] it accepts everything sent and
    answers every [recv] with the line [answer]; otherwise every call on
    it raises [OSError]. *)
Record test_socket : Set := { alive : bool; answer : str }.

#[export] Instance test_socket_calls : Socket test_socket := {
  sendall := fun _ s => if alive s then Some s else None;
  recv := fun _ s => if alive s then Some (answer s, s) else None
}.

(** A supply whose channels are set to 10 V and that answers, and one
    whose connection is lost. *)
Definition live_supply : state test_socket :=
  init {| alive := true; answer := lit "10.000" |}.

Definition lost_supply : state test_socket :=
  init {| alive := false; answer := [] |}.

(** [int(s, 16)] as Python reads a text: blanks around it, one sign, an
    optional [0x] or [0X] prefix, and hexadecimal digits with single
    underscores between them (one may follow the prefix). *)
Fixpoint digits16 (acc : Z) (after_underscore : bool) (s : str) : option Z :=
  match s with
  | [] => if after_underscore then None else Some acc
  | c :: s' =>
      if Ascii.eqb c "_"
      then (if after_underscore then None else digits16 acc true s')
      else match Hex.digit_val c with
           | Some d => digits16 (16 * acc + d) false s'
           | None => None
           end
  end.

Definition body16 (s : str) : option Z :=
  match s with
  | [] => None
  | c :: _ => if Ascii.eqb c "_" then None else digits16 0 false s
  end.

Definition skip_prefix16 (s : str) : str :=
  match s with
  | z :: x :: rest =>
      if Ascii.eqb z "0" && (Ascii.eqb x "x" || Ascii.eqb x "X")
      then match rest with
           | u :: rest' => if Ascii.eqb u "_" then rest' else rest
           | [] => rest
           end
      else s
  | _ => s
  end.

Definition int_base16 (text : str) : result Z :=
  let s := strip text in
  let (negative, s) :=
    match s with
    | c :: s' =>
        if Ascii.eqb c "-" then (true, s')
        else if Ascii.eqb c "+" then (false, s')
        else (false, s)
    | [] => (false, s)
    end in
  match body16 (skip_prefix16 s) with
  | Some n => Ok (if negative then (- n)%Z else n)
  | None => Err ValueError
  end.

(** [int(c)] for a text of one character. *)
Definition int_of_char (c : ascii) : result Z :=
  let n := nat_of_ascii c in
  if Nat.leb 48 n && Nat.leb n 57 then Ok (Z.of_nat (n - 48)) else Err ValueError.

(** Binary digits, most significant first. *)
Fixpoint bin_pos (p : positive) : str :=
  match p with
  | xH => ["1"%char]
  | xO q => bin_pos q ++ ["0"%char]
  | xI q => bin_pos q ++ ["1"%char]
  end.

(** [format(n, 'b')] *)
Definition bin (n : Z) : str :=
  match n with
  | Z0 => ["0"%char]
  | Zpos p => bin_pos p
  | Zneg p => "-"%char :: bin_pos p
  end.

(** [f'{n:0>10b}']: right-aligned in ten columns, filled with [0]. *)
Definition format_0_10b (n : Z) : str :=
  let digits := bin n in
  repeat "0"%char (10 - List.length digits) ++ digits.

(** [s[-k]] for [k >= 1]. *)
Definition from_end (k : nat) (s : str) : option ascii :=
  if Nat.leb 1 k && Nat.leb k (List.length s)
  then nth_error s (List.length s - k)
  else None.

Section Channels.
Context {sock : Type} {net : Socket sock}.

(** Outcome of a getter that computes a value of type [A]. *)
Inductive response (A : Type) : Type :=
| Answer (a : A) (st : state sock)
| Failure (e : error) (st : state sock).
Arguments Answer {A} a st.
Arguments Failure {A} e st.

(** [SPD3303X.system_status] *)
Definition system_status (st : state sock) : response str :=
  match _query (lit "system:status?") st with
  | Return reply_hex_str st1 =>
      match reply_hex_str with
      | VStr s =>
          match int_base16 s with
          | Ok n => Answer (format_0_10b n) st1
          | Err e => Failure (Exn e) st1
          end
      | _ => Failure (Exn TypeError) st1
      end
  | Raise e st1 => Failure (Exn e) st1
  end.

(** [bool(int(self.system_status[-k]))] *)
Definition status_digit (k : nat) (st : state sock) : response bool :=
  match system_status st with
  | Answer status st1 =>
      match from_end k status with
      | None => Failure IndexError st1
      | Some c =>
          match int_of_char c with
          | Ok one_or_zero => Answer (negb (one_or_zero =? 0)%Z) st1
          | Err e => Failure (Exn e) st1
          end
      end
  | Failure e st1 => Failure e st1
  end.

(** [ch1_state] and [ch2_state] (getters) *)
Definition ch1_state (st : state sock) : response bool := status_digit 5 st.
Definition ch2_state (st : state sock) : response bool := status_digit 6 st.

(** [@ch1_state.setter], [@ch2_state.setter]:
    [cmd = 'Output CHn,' + state.upper()]. *)
Definition state_setter (prefix : str) (new_state : value) (st : state sock)
  : outcome sock :=
  match new_state with
  | VStr s => _command (prefix ++ upper s) st
  | _ => Raise AttributeError st
  end.

Definition ch1_state_setter : value -> state sock -> outcome sock :=
  state_setter (lit "Output CH1,").
Definition ch2_state_setter : value -> state sock -> outcome sock :=
  state_setter (lit "Output CH2,").

Section SetPoints.
(** [str(x)] for a number [x]: the decimal text of an [int], the [repr]
    of a [float].  [value] does not record which of the two a number is,
    and the setters only append the text to a command, so the text is a
    parameter. *)
Variable number_text : Q -> str.

(** [str(v)] *)
Definition py_str (v : value) : str :=
  match v with
  | VNone => lit "None"
  | VNum q => number_text q
  | VStr s => s
  end.

(** The common shape of the four set-point setters:
    [if new <= limit: self._command(prefix + str(new)) else: print(..)]. *)
Definition set_point_setter (limit : state sock -> value) (prefix refused : str)
    (new : value) (st : state sock) : outcome sock :=
  match le new (limit st) with
  | Err e => Raise e st
  | Ok true => _command (prefix ++ py_str new) st
  | Ok false => Return VNone (print refused st)
  end.

(** The refusals, without the run of blanks that the continued string
    literals of the source carry. *)
Definition not_set (chan what : string) : str :=
  (lit chan ++ lit " " ++ lit what
     ++ lit " not set. New voltage is higher than ch1 voltage limit.")%list.

(** [@ch1_set_voltage.setter] *)
Definition ch1_set_voltage_setter : value -> state sock -> outcome sock :=
  set_point_setter _ch1_voltage_limit (lit "CH1:voltage ") (not_set "CH1" "voltage").

(** [@ch2_set_voltage.setter] *)
Definition ch2_set_voltage_setter : value -> state sock -> outcome sock :=
  set_point_setter _ch2_voltage_limit (lit "CH2:voltage ") (not_set "CH2" "voltage").

(** [@ch1_set_current.setter] *)
Definition ch1_set_current_setter : value -> state sock -> outcome sock :=
  set_point_setter _ch1_current_limit (lit "CH1:current ") (not_set "CH1" "current").

(** [@ch2_set_current.setter] *)
Definition ch2_set_current_setter : value -> state sock -> outcome sock :=
  set_point_setter _ch2_current_limit (lit "CH2:current ") (not_set "CH2" "current").

(** One statement after another: an exception ends the method. *)
Definition and_then (o : outcome sock) (k : state sock -> outcome sock)
  : outcome sock :=
  match o with
  | Return _ st => k st
  | Raise e st => Raise e st
  end.

(** [SPD3303X.reset_channels] *)
Definition reset_channels (st : state sock) : outcome sock :=
  and_then (ch1_state_setter (VStr (lit "OFF")) st) (fun st =>
  and_then (ch2_state_setter (VStr (lit "OFF")) st) (fun st =>
  and_then (ch1_set_voltage_setter (VNum 0) st) (fun st =>
  and_then (ch2_set_voltage_setter (VNum 0) st) (fun st =>
  Return VNone (print (lit "Both channels set to 0 and turned off") st))))).

(** A set-point setter keeps to its ceiling: a number not above the
    limit is sent as one command, a number above it is refused with a
    message and nothing is sent; the limits stay as they are. *)
Definition keeps_to_ceiling (setter : value -> state sock -> outcome sock)
    (limit : state sock -> value) (prefix : str) : Prop :=
  forall (st : state sock) (q l : Q),
    limit st = VNum l ->
    ((q <= l)%Q ->
       exists st', setter (VNum q) st = Return VNone st' /\
         wire st' = wire st ++ [prefix ++ number_text q] /\
         same_limits st st') /\
    ((l < q)%Q ->
       exists msg, setter (VNum q) st = Return VNone (print msg st)).

End SetPoints.

End Channels.

Arguments response sock A : clear implicits.
Arguments Answer {sock A} a st.
Arguments Failure {sock A} e st.

(** The text of a whole number, for examples. *)
Definition whole_number_text (q : Q) : str := int_text (Qnum q).

(** A supply that reports status word [0x30]: both channels on. *)
Definition status_supply : state test_socket :=
  init {| alive := true; answer := lit "0x30" |}.

End SPD3303X.

(* ================================================================== *)
(** ** Heater, PID object and Oven ([device_type.py]) *)
(* ================================================================== *)

Module Oven.
Import Py.

Local Open Scope Q_scope.

(** Temperatures, voltages and times are finite numbers, kept as
    rationals; the bounds below rest only on the order of the values. *)
Definition qltb (x y : Q) : bool := negb (Qle_bool y x).

(** [min(a, b)]: [b] when [b < a], else [a]. *)
Definition py_min (a b : Q) : Q := if qltb b a then b else a.

(** [class Heater] ([idn] carries no behaviour and is left out). *)
Record Heater : Set := {
  MAX_temp : Q;
  MAX_volts : Q;
  MAX_current : Q;
  resistance : Q
}.

(** [Heater()] with its default arguments. *)
Definition default_heater : Heater :=
  {| MAX_temp := 9999; MAX_volts := 9999; MAX_current := 9999; resistance := 20 |}.

(** Modelled from the spec: the PID object [simple_pid.PID], which
    [device_type.py] imports and which is not part of the sources.  The
    attributes [Kp], [Ki], [Kd], [setpoint], [sample_time] and
    [output_limits] are the ones [Oven.configure_pid] assigns; the
    accumulator, the previous error, the last sample time and the previous
    output are the state of the specification's PIDLoop.  A bound that has
    not been assigned is [None]. *)
Record PID : Set := {
  Kp : Q;
  Ki : Q;
  Kd : Q;
  setpoint : Q;
  sample_time : Q;
  output_limits : option Q * option Q;
  integral_accumulator : Q;
  last_error : Q;
  last_sample_time : Q;
  last_output : option Q
}.

(** Modelled from the spec: a value clamped to [output_bounds]. *)
Definition clamp (x : Q) (limits : option Q * option Q) : Q :=
  let (lower, upper) := limits in
  let floor :=
    match lower with
    | Some l => if qltb x l then l else x
    | None => x
    end in
  match upper with
  | Some u => if qltb u x then u else floor
  | None => floor
  end.

(** Modelled from the spec: the initial state of the PIDLoop, accumulator,
    previous error and setpoint all 0, no output produced yet, created at
    time [now]; gains, sample period and bounds are those of a loop not
    yet configured. *)
Definition PID_new (now : Q) : PID :=
  {| Kp := 1; Ki := 0; Kd := 0; setpoint := 0; sample_time := 1 # 100;
     output_limits := (None, None);
     integral_accumulator := 0; last_error := 0;
     last_sample_time := now; last_output := None |}.

(** Modelled from the spec: the state update of [step],
    [output = Kp*error + Ki*integral + Kd*derivative] clamped to the
    bounds. *)
Definition PID_update (p : PID) (measurement now : Q) : Q * PID :=
  let dt := now - last_sample_time p in
  let error := setpoint p - measurement in
  let integral := integral_accumulator p + error * dt in
  let derivative := (error - last_error p) / dt in
  let output :=
    clamp (Kp p * error + Ki p * integral + Kd p * derivative) (output_limits p) in
  (output,
   {| Kp := Kp p; Ki := Ki p; Kd := Kd p; setpoint := setpoint p;
      sample_time := sample_time p; output_limits := output_limits p;
      integral_accumulator := integral; last_error := error;
      last_sample_time := now; last_output := Some output |}).

(** Modelled from the spec: [step(measurement, now)].  The state is only
    updated when [now - last_sample_time >= sample_period]; otherwise the
    previous output is returned unchanged.  Before any output exists the
    first call computes one. *)
Definition PID_step (p : PID) (measurement now : Q) : Q * PID :=
  match last_output p with
  | Some previous =>
      if qltb (now - last_sample_time p) (sample_time p) then (previous, p)
      else PID_update p measurement now
  | None => PID_update p measurement now
  end.

(** Attribute assignments [pid.Kp = v], [pid.Ki = v], ... *)
Definition assign_Kp (v : Q) (p : PID) : PID :=
  {| Kp := v; Ki := Ki p; Kd := Kd p; setpoint := setpoint p;
     sample_time := sample_time p; output_limits := output_limits p;
     integral_accumulator := integral_accumulator p; last_error := last_error p;
     last_sample_time := last_sample_time p; last_output := last_output p |}.

Definition assign_Ki (v : Q) (p : PID) : PID :=
  {| Kp := Kp p; Ki := v; Kd := Kd p; setpoint := setpoint p;
     sample_time := sample_time p; output_limits := output_limits p;
     integral_accumulator := integral_accumulator p; last_error := last_error p;
     last_sample_time := last_sample_time p; last_output := last_output p |}.

Definition assign_Kd (v : Q) (p : PID) : PID :=
  {| Kp := Kp p; Ki := Ki p; Kd := v; setpoint := setpoint p;
     sample_time := sample_time p; output_limits := output_limits p;
     integral_accumulator := integral_accumulator p; last_error := last_error p;
     last_sample_time := last_sample_time p; last_output := last_output p |}.

Definition assign_setpoint (v : Q) (p : PID) : PID :=
  {| Kp := Kp p; Ki := Ki p; Kd := Kd p; setpoint := v;
     sample_time := sample_time p; output_limits := output_limits p;
     integral_accumulator := integral_accumulator p; last_error := last_error p;
     last_sample_time := last_sample_time p; last_output := last_output p |}.

Definition assign_sample_time (v : Q) (p : PID) : PID :=
  {| Kp := Kp p; Ki := Ki p; Kd := Kd p; setpoint := setpoint p;
     sample_time := v; output_limits := output_limits p;
     integral_accumulator := integral_accumulator p; last_error := last_error p;
     last_sample_time := last_sample_time p; last_output := last_output p |}.

Definition assign_output_limits (v : option Q * option Q) (p : PID) : PID :=
  {| Kp := Kp p; Ki := Ki p; Kd := Kd p; setpoint := setpoint p;
     sample_time := sample_time p; output_limits := v;
     integral_accumulator := integral_accumulator p; last_error := last_error p;
     last_sample_time := last_sample_time p; last_output := last_output p |}.

(** A Python [float] as the oven meets it: a finite number, kept as the
    rational it denotes, or one of [inf], [-inf] and [nan]. *)
Inductive pyfloat : Set :=
| Finite (q : Q)
| Infinity
| MinusInfinity
| NotANumber.

(** The two calls [Oven] makes on [self._supply_and_channel[0]]. *)
Class PowerSupply (supply : Type) : Type := {
  get_voltage_limit : supply -> Z -> Q;
  set_set_voltage : Z -> pyfloat -> supply -> supply
}.

(** The temperature DAQ [self.daq_and_channel[0]]:
    [get_temp(channel_n=..)] gives a float or raises. *)
Class TemperatureDaq (daq : Type) : Type := {
  get_temp : Z -> daq -> attempt pyfloat * daq
}.

(** The call [self._pid(input)] of the PID object ([simple_pid.PID],
    which is not part of the sources), made when the clock reads [now]:
    from the object's attributes and state, and from whatever else it
    remembers, to its output and to what the object is afterwards. *)
Class PIDObject : Type := {
  memory : Type;
  pid_call : PID -> memory -> pyfloat -> Q -> pyfloat * PID * memory
}.

Section Controller.
Context {supply : Type} {bench : PowerSupply supply}.

(** [class Oven]: the attributes its setters use ([_ip4_address] and
    [_port] are only stored; [daq_and_channel] is kept beside the oven,
    in [assembly] below).  [written] records, in order, the arguments of
    every [ps.set_set_voltage] call made by [update_supply]. *)
Record oven : Type := {
  _supply_and_channel : supply * Z;
  _heater : Heater;
  _pid : PID;
  written : list (Z * pyfloat)
}.

Inductive outcome : Type :=
| Return (o : oven)
| Raise (e : exn) (o : oven).

Definition after (r : outcome) : oven :=
  match r with
  | Return o => o
  | Raise _ o => o
  end.

(** [Oven.configure_pid], run when the clock reads [now]. *)
Definition configure_pid (supply_and_channel : supply * Z) (heater : Heater)
    (now : Q) : PID :=
  let pid := PID_new now in
  let ps := fst supply_and_channel in
  let ch := snd supply_and_channel in
  let pid := assign_Kp 1 pid in
  let pid := assign_Ki (3 # 100) pid in
  let pid := assign_Kd 0 pid in
  let pid := assign_setpoint 0 pid in
  let pid := assign_sample_time 2 pid in
  let out_max := py_min (MAX_volts heater) (get_voltage_limit ps ch) in
  let pid := assign_output_limits (Some 0, Some out_max) pid in
  pid.

(** [Oven.__init__] *)
Definition __init__ (supply_and_channel : supply * Z)
    (heater : option Heater) (now : Q) : oven :=
  let h := match heater with Some h => h | None => default_heater end in
  {| _supply_and_channel := supply_and_channel;
     _heater := h;
     _pid := configure_pid supply_and_channel h now;
     written := [] |}.

(** [@set_temperature.setter] *)
Definition set_temperature_setter (new_temp : Q) (o : oven) : outcome :=
  if qltb (MAX_temp (_heater o)) new_temp then Raise ValueError o
  else
    Return {| _supply_and_channel := _supply_and_channel o;
              _heater := _heater o;
              _pid := assign_setpoint new_temp (_pid o);
              written := written o |}.

(** [@sample_time.setter] *)
Definition sample_time_setter (new_st : Q) (o : oven) : oven :=
  {| _supply_and_channel := _supply_and_channel o;
     _heater := _heater o;
     _pid := assign_sample_time new_st (_pid o);
     written := written o |}.

(** The bounds a PID object works within hold of every output it has
    kept. *)
Definition pid_bounded (M : Q) (p : PID) : Prop :=
  output_limits p = (Some 0, Some M) /\
  forall v, last_output p = Some v -> 0 <= v <= M.

(** The oven is within [M]: its PID object is, and every voltage written
    so far is a finite number from 0 to [M]. *)
Definition oven_bounded (M : Q) (o : oven) : Prop :=
  pid_bounded M (_pid o) /\
  Forall (fun cv => exists v, snd cv = Finite v /\ 0 <= v <= M) (written o).

End Controller.

Arguments oven supply : clear implicits.
Arguments outcome supply : clear implicits.

Section Assembly.
Context {supply : Type} {bench : PowerSupply supply}.
Context {daq : Type} {thermometer : TemperatureDaq daq}.
Context {controller : PIDObject}.

(** The oven together with the objects it refers to: the DAQ and its
    channel (the public attribute [daq_and_channel]) and what the PID
    object remembers.  [readings] records, in order, what every
    evaluation of [current_temp] gave. *)
Record assembly : Type := {
  self : oven supply;
  daq_and_channel : daq * Z;
  pid_memory : memory;
  readings : list (attempt pyfloat)
}.

(** The oven [o] as [Oven.__init__] leaves it, with its DAQ. *)
Definition assemble (o : oven supply) (daq_and_channel : daq * Z)
    (m : memory) : assembly :=
  {| self := o; daq_and_channel := daq_and_channel; pid_memory := m;
     readings := [] |}.

Definition with_oven (o : oven supply) (a : assembly) : assembly :=
  {| self := o; daq_and_channel := daq_and_channel a;
     pid_memory := pid_memory a; readings := readings a |}.

(** How a call of [update_supply] ends. *)
Inductive ending : Type :=
| Returned (new_ps_voltage : pyfloat) (a : assembly)
| Raised (e : error) (a : assembly).

Definition ended (r : ending) : assembly :=
  match r with
  | Returned _ a => a
  | Raised _ a => a
  end.

(** [Oven.current_temp]:
    [self.daq_and_channel[0].get_temp(channel_n=self.daq_and_channel[1])]. *)
Definition current_temp (a : assembly) : attempt pyfloat * assembly :=
  let (r, d) := get_temp (snd (daq_and_channel a)) (fst (daq_and_channel a)) in
  (r, {| self := self a;
         daq_and_channel := (d, snd (daq_and_channel a));
         pid_memory := pid_memory a;
         readings := readings a ++ [r] |}).

(** [Oven.update_supply], called when the clock reads [now]: the
    temperature is read inside the method, an exception of the DAQ leaves
    it before anything is written, and the output of the PID object goes
    to [ps.set_set_voltage] as it is. *)
Definition update_supply (now : Q) (a : assembly) : ending :=
  let ps := fst (_supply_and_channel (self a)) in
  let ch := snd (_supply_and_channel (self a)) in
  match current_temp a with
  | (Fails e, a1) => Raised e a1
  | (Gives t, a1) =>
      let '(new_ps_voltage, pid, m) :=
        pid_call (_pid (self a1)) (pid_memory a1) t now in
      let ps := set_set_voltage ch new_ps_voltage ps in
      Returned new_ps_voltage
        {| self := {| _supply_and_channel := (ps, ch);
                      _heater := _heater (self a1);
                      _pid := pid;
                      written := written (self a1) ++ [(ch, new_ps_voltage)] |};
           daq_and_channel := daq_and_channel a1;
           pid_memory := m;
           readings := readings a1 |}
  end.

(** What happens to an oven between construction and disposal: calls of
    [update_supply] and of the two setters by a client that catches what
    they raise, and changes that the owner of the supply makes to it (the
    oven refers to the supply object, it holds no copy). *)
Inductive action : Type :=
| Tick (now : Q)
| SetTemperature (new_temp : Q)
| SetSampleTime (new_st : Q)
| SupplyChanged (ps : supply).

Definition perform (act : action) (a : assembly) : assembly :=
  match act with
  | Tick now => ended (update_supply now a)
  | SetTemperature t => with_oven (after (set_temperature_setter t (self a))) a
  | SetSampleTime s => with_oven (sample_time_setter s (self a)) a
  | SupplyChanged ps =>
      with_oven {| _supply_and_channel := (ps, snd (_supply_and_channel (self a)));
                   _heater := _heater (self a);
                   _pid := _pid (self a);
                   written := written (self a) |} a
  end.

Definition run (acts : list action) (a : assembly) : assembly :=
  fold_left (fun a act => perform act a) acts a.

(** The calls of [update_supply] among the actions. *)
Definition is_tick (act : action) : bool :=
  match act with
  | Tick _ => true
  | _ => false
  end.

(** A reading that the DAQ delivered, and one that is a finite number. *)
Definition delivered (r : attempt pyfloat) : bool :=
  match r with
  | Gives _ => true
  | Fails _ => false
  end.

Definition finite_or_failed (r : attempt pyfloat) : Prop :=
  match r with
  | Gives (Finite _) => True
  | Gives _ => False
  | Fails _ => True
  end.

(** The PID object does, with a finite reading, what the spec's PIDLoop
    does. *)
Definition follows_PIDLoop : Prop :=
  forall p m t now,
    exists m',
      pid_call p m (Finite t) now
      = (Finite (fst (PID_step p t now)), snd (PID_step p t now), m').

End Assembly.

Arguments assembly supply daq {controller}.
Arguments ending supply daq {controller}.
Arguments action supply : clear implicits.

(** A bench supply that only remembers one voltage limit for all
    channels and the last voltage it was told to set. *)
Record bench_supply : Set := { limit : Q; setting : pyfloat }.

#[export] Instance bench_power_supply : PowerSupply bench_supply := {
  get_voltage_limit := fun ps _ => limit ps;
  set_set_voltage := fun _ volts ps => {| limit := limit ps; setting := volts |}
}.

(** A DAQ for examples: it answers with the scripted readings in turn,
    and raises [ULError] when none is left. *)
Record scripted_daq : Set := { script : list (attempt pyfloat) }.

#[export] Instance scripted_readings : TemperatureDaq scripted_daq := {
  get_temp := fun _ d =>
    match script d with
    | r :: rest => (r, {| script := rest |})
    | [] => (Fails ULError, d)
    end
}.

(** The spec's PIDLoop as the PID object; it remembers nothing beyond
    the state in [PID].  The spec does not say what the loop does with a
    reading that is not a finite number: the example gives [nan] and
    keeps its state. *)
#[export] Instance PIDLoop : PIDObject := {
  memory := unit;
  pid_call := fun p _ input now =>
    match input with
    | Finite t => let (v, p') := PID_step p t now in (Finite v, p', tt)
    | _ => (NotANumber, p, tt)
    end
}.

(** An example oven: a 24 V heater rated for 400 degrees on a supply
    channel limited to 12 V. *)
Definition example_heater : Heater :=
  {| MAX_temp := 400; MAX_volts := 24; MAX_current := 3; resistance := 20 |}.

Definition example_supply : bench_supply := {| limit := 12; setting := Finite 0 |}.

Definition example_oven : oven bench_supply :=
  __init__ (example_supply, 1%Z) (Some example_heater) 0.

(** The example oven with a DAQ on channel 0 that gives the readings
    [script]. *)
Definition example_assembly (script : list (attempt pyfloat))
  : assembly bench_supply scripted_daq :=
  assemble example_oven ({| script := script |}, 0%Z) tt.

(** The owner of the supply lowers its limit to 5 V after the oven was
    built, and a cold reading follows. *)
Definition stale_limit_run : assembly bench_supply scripted_daq :=
  run [SupplyChanged {| limit := 5; setting := Finite 0 |}; Tick 5]
      (example_assembly [Gives (Finite (-1000))]).

End Oven.

(* ================================================================== *)
(** ** Temperature DAQs ([device_type.py]) *)
(* ================================================================== *)

Module MCC_Device.
Import Py.

(** The items of [enums.BoardInfo] that the methods below ask for. *)
Inductive BoardInfo : Set :=
| NUMTEMPCHANS
| CHANTCTYPE.

(** The functions of [mcculw.ul] and of [auxiliary] that the class calls,
    on the state [lib] of the library and its boards.  A call that
    raises leaves that state as it was; reading the configuration does
    not change it. *)
Class UniversalLibrary (lib : Type) : Type := {
  descriptor : Type;
  reading : Type;
  scale : Type;
  ignore_instacal : lib -> lib;
  get_net_device_descriptor : option str -> option Z -> Z -> lib -> attempt descriptor;
  create_daq_device : Z -> descriptor -> lib -> attempt lib;
  release_daq_device : Z -> lib -> attempt lib;
  get_config : BoardInfo -> Z -> Z -> lib -> attempt Z;
  set_config : BoardInfo -> Z -> Z -> Z -> lib -> attempt lib;
  t_in : Z -> Z -> scale -> bool -> lib -> attempt reading * lib;
  get_TempScale_unit : str -> attempt scale
}.

(** The two dictionaries named [tc_type_dict]. *)
Definition tc_letter_dict : list (Z * str) :=
  [(1, lit "J"); (2, lit "K"); (3, lit "T"); (4, lit "E");
   (5, lit "R"); (6, lit "S"); (7, lit "B"); (8, lit "N")]%Z.

Definition tc_code_dict : list (str * Z) :=
  [(lit "J", 1); (lit "K", 2); (lit "T", 3); (lit "E", 4);
   (lit "R", 5); (lit "S", 6); (lit "B", 7); (lit "N", 8)]%Z.

(** [d[key]] for a dict with [int] keys. *)
Fixpoint lookup_int {V} (key : Z) (d : list (Z * V)) : option V :=
  match d with
  | [] => None
  | (k, v) :: d' => if (key =? k)%Z then Some v else lookup_int key d'
  end.

(** The number of [None] entries of a scan. *)
Definition missing {A} (out : list (option A)) : nat :=
  List.length (filter (fun r => match r with None => true | Some _ => false end) out).

(** Instance attributes. *)
Record device : Set := {
  _board_number : Z;
  _ip4_address : option str;
  _port : option Z;
  _default_units : option str;
  _is_connected : bool
}.

Section Device.
Context {lib : Type} {UL : UniversalLibrary lib}.

(** The instance, the library it talks to and the text printed so far. *)
Record world : Type := {
  self : device;
  ul : lib;
  stdout : list str
}.

Inductive outcome (A : Type) : Type :=
| Return (a : A) (w : world)
| Raise (e : error) (w : world).
Arguments Return {A} a w.
Arguments Raise {A} e w.

Definition after {A} (o : outcome A) : world :=
  match o with
  | Return _ w => w
  | Raise _ w => w
  end.

Definition with_ul (l : lib) (w : world) : world :=
  {| self := self w; ul := l; stdout := stdout w |}.

Definition with_self (d : device) (w : world) : world :=
  {| self := d; ul := ul w; stdout := stdout w |}.

Definition print (msg : str) (w : world) : world :=
  {| self := self w; ul := ul w; stdout := stdout w ++ [msg] |}.

Definition connected (d : device) : device :=
  {| _board_number := _board_number d; _ip4_address := _ip4_address d;
     _port := _port d; _default_units := _default_units d;
     _is_connected := true |}.

Definition disconnected (d : device) : device :=
  {| _board_number := _board_number d; _ip4_address := _ip4_address d;
     _port := _port d; _default_units := _default_units d;
     _is_connected := false |}.

(** [MCC_Device.__init__] *)
Definition __init__ (board_number : Z) (ip4_address : option str)
    (port : option Z) (default_units : option str) (l : lib) : outcome unit :=
  let d := {| _board_number := board_number; _ip4_address := ip4_address;
              _port := port; _default_units := default_units;
              _is_connected := false |} in
  let w := {| self := d; ul := l; stdout := [] |} in
  match ip4_address with
  | None => Return tt w
  | Some _ =>
      let w := with_ul (ignore_instacal l) w in
      match get_net_device_descriptor ip4_address port 2000 (ul w) with
      | Fails e => Raise e w
      | Gives dscrptr =>
          match create_daq_device board_number dscrptr (ul w) with
          | Fails e => Raise e w
          | Gives l' => Return tt (with_self (connected d) (with_ul l' w))
          end
      end
  end.

(** [MCC_Device.connect] *)
Definition connect (ip : option str) (port : option Z) (w : world) : outcome unit :=
  match _ip4_address (self w), ip with
  | None, None => Raise (Exn TypeError) w
  | _, _ =>
      let w := with_ul (ignore_instacal (ul w)) w in
      let found :=
        match get_net_device_descriptor ip port 2000 (ul w) with
        | Fails (Exn AttributeError) =>
            get_net_device_descriptor (_ip4_address (self w)) port 20000 (ul w)
        | r => r
        end in
      match found with
      | Fails e => Raise e w
      | Gives dscrptr =>
          match create_daq_device (_board_number (self w)) dscrptr (ul w) with
          | Fails e => Raise e w
          | Gives l' => Return tt (with_self (connected (self w)) (with_ul l' w))
          end
      end
  end.

(** [MCC_Device.disconnect] *)
Definition disconnect (w : world) : outcome unit :=
  match release_daq_device (_board_number (self w)) (ul w) with
  | Fails e => Raise e w
  | Gives l' => Return tt (with_self (disconnected (self w)) (with_ul l' w))
  end.

(** [@board_number.setter] *)
Definition board_number_setter (new_num : Z) (w : world) : outcome unit :=
  if negb (_is_connected (self w))
  then Return tt (with_self
         {| _board_number := new_num; _ip4_address := _ip4_address (self w);
            _port := _port (self w); _default_units := _default_units (self w);
            _is_connected := _is_connected (self w) |} w)
  else Raise (Exn AttributeError) w.

(** [@ip4_address.setter] *)
Definition ip4_address_setter (new_ip : option str) (w : world) : outcome unit :=
  if negb (_is_connected (self w))
  then Return tt (with_self
         {| _board_number := _board_number (self w); _ip4_address := new_ip;
            _port := _port (self w); _default_units := _default_units (self w);
            _is_connected := _is_connected (self w) |} w)
  else Raise (Exn AttributeError) w.

(** [@port.setter] *)
Definition port_setter (new_port : option Z) (w : world) : outcome unit :=
  if negb (_is_connected (self w))
  then Return tt (with_self
         {| _board_number := _board_number (self w);
            _ip4_address := _ip4_address (self w);
            _port := new_port; _default_units := _default_units (self w);
            _is_connected := _is_connected (self w) |} w)
  else Raise (Exn AttributeError) w.

(** [number_temp_channels] *)
Definition number_temp_channels (w : world) : outcome Z :=
  match get_config NUMTEMPCHANS (_board_number (self w)) 0 (ul w) with
  | Gives n => Return n w
  | Fails e => Raise e w
  end.

(** [MCC_Device.get_temp]; [filter_on_off] is [FILTER] when [averaged]. *)
Definition get_temp (channel_n : Z) (units : option str) (averaged : bool)
    (w : world) : outcome reading :=
  let filter_on_off := averaged in
  let units := match units with None => _default_units (self w) | Some _ => units end in
  match units with
  | None => Raise (Exn AttributeError) w
  | Some u =>
      match get_TempScale_unit (lower u) with
      | Fails e => Raise e w
      | Gives sc =>
          match t_in (_board_number (self w)) channel_n sc filter_on_off (ul w) with
          | (Gives out, l) => Return out (with_ul l w)
          | (Fails e, l) => Raise e (with_ul l w)
          end
      end
  end.

Definition could_not_read (channel : Z) : str :=
  (lit "ERROR: Could not read from channel " ++ int_text channel
     ++ lit ". Appending None.")%list.

(** The loop of [get_temp_all_channels] and [get_temp_scan]:
    [try: out.append(self.get_temp(..)) except ul.ULError: ..
     out.append(None)]. *)
Fixpoint scan (channels : list Z) (units : option str) (averaged : bool)
    (out : list (option reading)) (w : world) : outcome (list (option reading)) :=
  match channels with
  | [] => Return out w
  | channel :: rest =>
      match get_temp channel units averaged w with
      | Return t w1 => scan rest units averaged (out ++ [Some t]) w1
      | Raise ULError w1 =>
          scan rest units averaged (out ++ [None]) (print (could_not_read channel) w1)
      | Raise e w1 => Raise e w1
      end
  end.

(** [MCC_Device.get_temp_all_channels] *)
Definition get_temp_all_channels (units : option str) (averaged : bool)
    (w : world) : outcome (list (option reading)) :=
  let units := match units with None => _default_units (self w) | Some _ => units end in
  match number_temp_channels w with
  | Raise e w1 => Raise e w1
  | Return n w1 => scan (range 0 n) units averaged [] w1
  end.

(** [MCC_Device.get_temp_scan] *)
Definition get_temp_scan (low_channel high_channel : Z) (units : option str)
    (averaged : bool) (w : world) : outcome (list (option reading)) :=
  let units := match units with None => _default_units (self w) | Some _ => units end in
  scan (range low_channel (high_channel + 1)) units averaged [] w.

(** [if not (0 <= channel <= self.number_temp_channels): raise
    ValueError(..)]: the comparison is chained, so the board is only
    asked for its number of channels when [0 <= channel]. *)
Definition check_channel (channel : Z) (w : world) : outcome unit :=
  if (0 <=? channel)%Z
  then
    match number_temp_channels w with
    | Raise e w1 => Raise e w1
    | Return n w1 =>
        if (channel <=? n)%Z then Return tt w1 else Raise (Exn ValueError) w1
    end
  else Raise (Exn ValueError) w.

(** [MCC_Device.get_thermocouple_type] *)
Definition get_thermocouple_type (channel : Z) (w : world) : outcome str :=
  match check_channel channel w with
  | Raise e w1 => Raise e w1
  | Return _ w1 =>
      match get_config CHANTCTYPE (_board_number (self w1)) channel (ul w1) with
      | Fails e => Raise e w1
      | Gives tc_int =>
          match lookup_int tc_int tc_letter_dict with
          | Some letter => Return letter w1
          | None => Raise (Exn KeyError) w1
          end
      end
  end.

(** [MCC_Device.set_thermocuple_type] *)
Definition set_thermocuple_type (channel : Z) (new_tc_type : str) (w : world)
  : outcome unit :=
  match check_channel channel w with
  | Raise e w1 => Raise e w1
  | Return _ w1 =>
      if negb (has_key new_tc_type tc_code_dict) then Raise (Exn ValueError) w1
      else
        match lookup (upper new_tc_type) tc_code_dict with
        | None => Raise (Exn KeyError) w1
        | Some val =>
            match set_config CHANTCTYPE (_board_number (self w1)) channel val (ul w1) with
            | Fails e => Raise e w1
            | Gives l' => Return tt (with_ul l' w1)
            end
        end
  end.

(** What a client does with a device; an exception a call raises is
    caught by the client. *)
Inductive action : Type :=
| Connect (ip : option str) (port : option Z)
| Disconnect
| SetBoardNumber (new_num : Z)
| SetAddress (new_ip : option str)
| SetPort (new_port : option Z)
| SetThermocouple (channel : Z) (new_tc_type : str)
| Scan (low_channel high_channel : Z) (units : option str) (averaged : bool).

Definition perform (a : action) (w : world) : world :=
  match a with
  | Connect ip port => after (connect ip port w)
  | Disconnect => after (disconnect w)
  | SetBoardNumber n => after (board_number_setter n w)
  | SetAddress ip => after (ip4_address_setter ip w)
  | SetPort p => after (port_setter p w)
  | SetThermocouple channel t => after (set_thermocuple_type channel t w)
  | Scan low high units averaged => after (get_temp_scan low high units averaged w)
  end.

Definition run (acts : list action) (w : world) : world :=
  fold_left (fun w a => perform a w) acts w.

Definition is_disconnect (a : action) : bool :=
  match a with
  | Disconnect => true
  | _ => false
  end.

End Device.

Arguments world lib : clear implicits.
Arguments outcome lib A : clear implicits.
Arguments Return {lib A} a w.
Arguments Raise {lib A} e w.

(** A board for examples: four temperature channels, the thermocouple
    code of each channel, and a channel that cannot be read. *)
Record test_board : Set := {
  tc_codes : list (Z * Z);
  broken_channel : Z
}.

Definition test_config (item : BoardInfo) (dev_num : Z) (b : test_board) : attempt Z :=
  match item with
  | NUMTEMPCHANS => Gives 4%Z
  | CHANTCTYPE =>
      match lookup_int dev_num (tc_codes b) with
      | Some code => Gives code
      | None => Gives 0%Z
      end
  end.

#[export] Instance test_library : UniversalLibrary test_board := {
  descriptor := unit;
  reading := Z;
  scale := Z;
  ignore_instacal := fun b => b;
  get_net_device_descriptor := fun host _ _ _ =>
    match host with
    | Some _ => Gives tt
    | None => Fails (Exn AttributeError)
    end;
  create_daq_device := fun _ _ b => Gives b;
  release_daq_device := fun _ b => Gives b;
  get_config := fun item _ dev_num b => test_config item dev_num b;
  set_config := fun item _ dev_num val b =>
    match item with
    | CHANTCTYPE =>
        Gives {| tc_codes := (dev_num, val) :: tc_codes b;
                 broken_channel := broken_channel b |}
    | NUMTEMPCHANS => Fails ULError
    end;
  t_in := fun _ channel _ _ b =>
    if (channel =? broken_channel b)%Z then (Fails ULError, b)
    else (Gives (20 + channel)%Z, b);
  get_TempScale_unit := fun units =>
    if str_eqb units (lit "celsius") then Gives 0%Z else Fails (Exn ValueError)
}.

(** A connected device on that board, channel 2 broken. *)
Definition test_device : world test_board :=
  after (__init__ 0 (Some (lit "10.0.0.7")) (Some 54211%Z) (Some (lit "Celsius"))
           {| tc_codes := []; broken_channel := 2 |}).

End MCC_Device.

(* ================================================================== *)
(** ** The Linux temperature DAQ ([device_type.py]) *)
(* ================================================================== *)

Module MCC_Device_Linux.
Import Py.

(** The Python objects that reach [units]: [None], a text, and the
    bound method [s.lower] of a text [s]. *)
Inductive object : Set :=
| ONone
| OStr (s : str)
| OLower (s : str).

(** [o.lower]: only a text has the attribute. *)
Definition getattr_lower (o : object) : result object :=
  match o with
  | OStr s => Ok (OLower s)
  | _ => Err AttributeError
  end.

(** [o()] *)
Definition call (o : object) : result object :=
  match o with
  | OLower s => Ok (OStr (lower s))
  | _ => Err TypeError
  end.

Definition units_dict : list (str * Z) :=
  [(lit "celsius", 1); (lit "fahrenheit", 2); (lit "kelvin", 3);
   (lit "volts", 4); (lit "raw", 5)]%Z.

Definition tc_type_dict : list (str * Z) :=
  [(lit "J", 1); (lit "K", 2); (lit "T", 3); (lit "E", 4);
   (lit "R", 5); (lit "S", 6); (lit "B", 7); (lit "N", 8)]%Z.

(** [MCC_Device_Linux.get_TempScale_unit]:
    [units_dict[units.lower()]]. *)
Definition get_TempScale_unit (units : object) : result Z :=
  m <- getattr_lower units ;;
  key <- call m ;;
  match key with
  | OStr k => of_option KeyError (lookup k units_dict)
  | _ => Err KeyError
  end.

(** The analog-input device [self.get_ai_device()] and its
    configuration, from [uldaq]. *)
Class AiDevice (ai : Type) : Type := {
  reading : Type;
  t_in : Z -> Z -> ai -> attempt reading * ai;
  t_in_list : Z -> Z -> Z -> ai -> attempt (list reading) * ai;
  set_chan_tc_type : Z -> Z -> ai -> attempt unit * ai
}.

Section Device.
Context {ai : Type} {AI : AiDevice ai}.

(** The instance: [_default_units] and the analog-input device. *)
Record world : Type := {
  _default_units : object;
  ai_device : ai
}.

Inductive outcome (A : Type) : Type :=
| Return (a : A) (w : world)
| Raise (e : error) (w : world).
Arguments Return {A} a w.
Arguments Raise {A} e w.

Definition with_ai (a : ai) (w : world) : world :=
  {| _default_units := _default_units w; ai_device := a |}.

Definition is_none (o : object) : bool :=
  match o with
  | ONone => true
  | _ => false
  end.

(** [MCC_Device_Linux.get_temp] *)
Definition get_temp (channel_n : Z) (units : object) (w : world) : outcome reading :=
  let units := if is_none units then _default_units w else units in
  match (m <- getattr_lower units ;; lowered <- call m ;; get_TempScale_unit lowered) with
  | Err e => Raise (Exn e) w
  | Ok sc =>
      match t_in channel_n sc (ai_device w) with
      | (Gives out, a) => Return out (with_ai a w)
      | (Fails e, a) => Raise e (with_ai a w)
      end
  end.

(** [MCC_Device_Linux.get_temp_scan]: the argument of
    [get_TempScale_unit] is [units.lower], the method itself. *)
Definition get_temp_scan (low_channel high_channel : Z) (units : object)
    (w : world) : outcome (list reading) :=
  let units := if is_none units then _default_units w else units in
  match (m <- getattr_lower units ;; get_TempScale_unit m) with
  | Err e => Raise (Exn e) w
  | Ok sc =>
      match t_in_list low_channel high_channel sc (ai_device w) with
      | (Gives out, a) => Return out (with_ai a w)
      | (Fails e, a) => Raise e (with_ai a w)
      end
  end.

(** [MCC_Device_Linux.set_thermocouple_type] *)
Definition set_thermocouple_type (channel : Z) (new_tc_type : str) (w : world)
  : outcome unit :=
  match lookup (upper new_tc_type) tc_type_dict with
  | None => Raise (Exn KeyError) w
  | Some val =>
      match set_chan_tc_type channel val (ai_device w) with
      | (Gives _, a) => Return tt (with_ai a w)
      | (Fails e, a) => Raise e (with_ai a w)
      end
  end.

End Device.

Arguments world ai : clear implicits.
Arguments outcome ai A : clear implicits.
Arguments Return {ai A} a w.
Arguments Raise {ai A} e w.

(** An input device for examples: it counts the calls made on it. *)
#[export] Instance counting_device : AiDevice nat := {
  reading := Z;
  t_in := fun channel _ n => (Gives (20 + channel)%Z, S n);
  t_in_list := fun low high _ n => (Gives (range low (high + 1)), S n);
  set_chan_tc_type := fun _ _ n => (Gives tt, S n)
}.

End MCC_Device_Linux.

(* ================================================================== *)
(** ** Ethernet devices ([connection_type.py]) *)
(* ================================================================== *)

Module SocketEthernetDevice.
Import Py.

(** Instance attributes; [sock] is the socket object. *)
Record device (sock : Type) : Type := {
  _ip4_address : option str;
  _port : Z;
  _socket : option sock
}.
Arguments _ip4_address {sock} d.
Arguments _port {sock} d.
Arguments _socket {sock} d.

(** [@ip4_address.setter]; [user_in] is the line [input] returns. *)
Definition ip4_address_setter {sock} (new_ip : option str) (user_in : str)
    (d : device sock) : device sock :=
  if str_eqb (lower user_in) (lit "y")
  then {| _ip4_address := new_ip; _port := _port d; _socket := _socket d |}
  else d.

(** [@port.setter] *)
Definition port_setter {sock} (new_port : Z) (user_in : str)
    (d : device sock) : device sock :=
  if str_eqb (lower user_in) (lit "y")
  then {| _ip4_address := _ip4_address d; _port := new_port; _socket := _socket d |}
  else d.

End SocketEthernetDevice.

(* ================================================================== *)
(** ** The power-supply base class ([device_type.py]) *)
(* ================================================================== *)

Module PowerSupply.
Import Py.

(** Instance attributes.  A limit is a number or [None]. *)
Record supply : Set := {
  _MAX_voltage_limit : option Q;
  _MAX_current_limit : option Q;
  _channel_voltage_limits : option (list (option Q));
  _channel_current_limits : option (list (option Q));
  _number_of_channels : Z;
  stdout : list (str * option Q)
}.

(** [[x] * n] *)
Definition list_times {A} (x : A) (n : Z) : list A := repeat x (Z.to_nat n).

(** [PowerSupply.__init__] *)
Definition __init__ (MAX_voltage_limit MAX_current_limit : option Q)
    (channel_voltage_limits channel_current_limits : option (list (option Q)))
    (number_of_channels : Z) : supply :=
  {| _MAX_voltage_limit := MAX_voltage_limit;
     _MAX_current_limit := MAX_current_limit;
     _channel_voltage_limits :=
       match channel_voltage_limits, MAX_voltage_limit with
       | None, Some _ => Some (list_times MAX_voltage_limit number_of_channels)
       | _, _ => channel_voltage_limits
       end;
     _channel_current_limits :=
       match channel_current_limits, MAX_current_limit with
       | None, Some _ => Some (list_times MAX_current_limit number_of_channels)
       | _, _ => channel_current_limits
       end;
     _number_of_channels := number_of_channels;
     stdout := [] |}.

(** The two-argument [print] calls of the setters: the text and the
    value printed after it. *)
Definition print (text : string) (v : option Q) (ps : supply) : supply :=
  {| _MAX_voltage_limit := _MAX_voltage_limit ps;
     _MAX_current_limit := _MAX_current_limit ps;
     _channel_voltage_limits := _channel_voltage_limits ps;
     _channel_current_limits := _channel_current_limits ps;
     _number_of_channels := _number_of_channels ps;
     stdout := stdout ps ++ [(lit text, v)] |}.

Definition assign_MAX_voltage_limit (v : option Q) (ps : supply) : supply :=
  {| _MAX_voltage_limit := v;
     _MAX_current_limit := _MAX_current_limit ps;
     _channel_voltage_limits := _channel_voltage_limits ps;
     _channel_current_limits := _channel_current_limits ps;
     _number_of_channels := _number_of_channels ps;
     stdout := stdout ps |}.

(** [@MAX_voltage_limit.setter] *)
Definition MAX_voltage_limit_setter (new_MAX_voltage : option Q) (ps : supply) : supply :=
  let ps := print
    "CAUTION: The MAX voltage limit should always match the hardware limitation of the power supply."
    None ps in
  let ps := print "Setting MAX voltage limit to" new_MAX_voltage ps in
  assign_MAX_voltage_limit new_MAX_voltage ps.

(** [@MAX_current_limit.setter]: the assignment is to
    [self._MAX_voltage_limit]. *)
Definition MAX_current_limit_setter (new_MAX_current : option Q) (ps : supply) : supply :=
  let ps := print
    "CAUTION: The MAX current limit should always match the hardware limitation of the power supply."
    None ps in
  let ps := print "Setting MAX voltage limit to" new_MAX_current ps in
  assign_MAX_voltage_limit new_MAX_current ps.

(** The calls [zero_all_channels] makes on the methods a model of power
    supply rewrites. *)
Inductive request : Set :=
| set_set_voltage (channel : Z) (volts : option Q)
| set_set_current (channel : Z) (amps : option Q)
| set_channel_voltage_limit (channel : Z) (volts : option Q)
| set_channel_current_limit (channel : Z) (amps : option Q).

(** [PowerSupply.zero_all_channels], as the requests it makes in order. *)
Definition zero_all_channels (ps : supply) : list request :=
  let max_v := _MAX_voltage_limit ps in
  let max_c := _MAX_current_limit ps in
  flat_map (fun chan =>
              [set_set_voltage chan (Some 0%Q);
               set_set_current chan (Some 0%Q);
               set_channel_voltage_limit chan max_v;
               set_channel_current_limit chan max_c])
           (range 1 (_number_of_channels ps + 1)).

End PowerSupply.

(* ================================================================== *)
(** * Properties *)
(* ================================================================== *)

(** ** Decoding a payload *)

Module DecoderFacts.
Import Py Hex Num GM3.

Example hex_example : hex [x02; x00; xff; x0a] = lit "0200ff0a".
Proof. reflexivity. Qed.

Example fromhex_example :
  fromhex (str_repeat (lit "03") 6) = Ok [x03; x03; x03; x03; x03; x03].
Proof. reflexivity. Qed.

Example int16_example : int16 (lit "0000ff0A") = Ok 65290%Z.
Proof. reflexivity. Qed.

(** Three sections: 7, then -12345 scaled by [10 ** -2], then 3 scaled by
    [10 ** -1]. *)
Example decode_example :
  decode [x00; x00; x00; x00; x00; x07;
          x00; x0a; x00; x00; x30; x39;
          x00; x01; x00; x00; x00; x03]
  = Ok [PyInt 7; PyFloat (-0x1.edccccccccccdp+6); PyFloat 0x1.3333333333334p-2].
Proof. reflexivity. Qed.

Lemma hex_length : forall bs, List.length (hex bs) = 2 * List.length bs.
Proof.
  induction bs as [|b bs IH]; simpl; [reflexivity|]. rewrite IH. lia.
Qed.

Lemma skipn_hex : forall k bs, skipn (2 * k) (hex bs) = hex (skipn k bs).
Proof.
  induction k as [|k IH]; intros bs; [reflexivity|].
  destruct bs as [|b bs]; [reflexivity|].
  replace (2 * S k) with (S (S (2 * k))) by lia. simpl skipn at 2.
  change (hex (b :: bs)) with (hex_char (Byte.to_N b / 16) :: hex_char (Byte.to_N b mod 16) :: hex bs).
  simpl skipn. apply IH.
Qed.

Lemma firstn_hex : forall k bs, firstn (2 * k) (hex bs) = hex (firstn k bs).
Proof.
  induction k as [|k IH]; intros bs; [reflexivity|].
  destruct bs as [|b bs]; [reflexivity|].
  replace (2 * S k) with (S (S (2 * k))) by lia.
  change (hex (b :: bs)) with (hex_char (Byte.to_N b / 16) :: hex_char (Byte.to_N b mod 16) :: hex bs).
  simpl firstn.
  change (hex (b :: firstn k bs)) with (hex_char (Byte.to_N b / 16) :: hex_char (Byte.to_N b mod 16) :: hex (firstn k bs)).
  now rewrite IH.
Qed.

Lemma slice_hex : forall a b bs,
  slice (2 * a) (2 * b) (hex bs) = hex (firstn (b - a) (skipn a bs)).
Proof.
  intros. unfold slice. rewrite skipn_hex.
  replace (2 * b - 2 * a) with (2 * (b - a)) by lia. apply firstn_hex.
Qed.

Lemma digit_val_hex_char : forall b,
  digit_val (hex_char (Byte.to_N b / 16)) = Some (byte_Z b / 16)%Z /\
  digit_val (hex_char (Byte.to_N b mod 16)) = Some (byte_Z b mod 16)%Z.
Proof. destruct b; vm_compute; split; reflexivity. Qed.

Lemma int16_acc_byte : forall b acc s,
  int16_acc acc (hex_of_byte b ++ s) = int16_acc (256 * acc + byte_Z b) s.
Proof.
  intros b acc s. unfold hex_of_byte.
  destruct (digit_val_hex_char b) as [Hh Hl].
  cbn [app int16_acc]. rewrite Hh, Hl. f_equal.
  pose proof (Z.div_mod (byte_Z b) 16). lia.
Qed.

Lemma int16_acc_hex : forall bs acc, int16_acc acc (hex bs) = Some (big_endian acc bs).
Proof.
  induction bs as [|b bs IH]; intros acc; [reflexivity|].
  change (hex (b :: bs)) with (hex_of_byte b ++ hex bs).
  rewrite int16_acc_byte. apply IH.
Qed.

Lemma int16_hex : forall b bs, int16 (hex (b :: bs)) = Ok (big_endian 0 (b :: bs)).
Proof.
  intros. unfold int16.
  change (hex (b :: bs)) with (hex_char (Byte.to_N b / 16) :: hex_char (Byte.to_N b mod 16) :: hex bs) at 1.
  cbv iota beta.
  change (hex_char (Byte.to_N b / 16) :: hex_char (Byte.to_N b mod 16) :: hex bs) with (hex (b :: bs)).
  now rewrite int16_acc_hex.
Qed.

Lemma sign_of_byte : forall b1,
  (if (Z.land (byte_Z b1) 8 =? 0)%Z then 1%Z else (-1)%Z) = section_sign b1.
Proof. destruct b1; reflexivity. Qed.

Lemma pow10_of_byte : forall b1,
  pow10 (-1 * Z.land (byte_Z b1) 7) =
  if (section_exponent b1 =? 0)%Z then PyInt 1
  else PyFloat (PrimFloat.div PrimFloat.one (float_of_int (10 ^ section_exponent b1))).
Proof. destruct b1; reflexivity. Qed.

Lemma big_endian_digits : forall b2 b3 b4 b5,
  big_endian 0 [b2; b3; b4; b5] = section_digits b2 b3 b4 b5.
Proof. intros. unfold section_digits. cbn [big_endian]. lia. Qed.

Lemma section_split : forall (payload : bytes) i,
  6 * (i + 1) <= List.length payload ->
  exists b0 b1 b2 b3 b4 b5 rest,
    skipn (6 * i) payload = b0 :: b1 :: b2 :: b3 :: b4 :: b5 :: rest.
Proof.
  intros payload i H.
  assert (L : 6 <= List.length (skipn (6 * i) payload)) by (rewrite length_skipn; lia).
  destruct (skipn (6 * i) payload) as [|b0 [|b1 [|b2 [|b3 [|b4 [|b5 rest]]]]]];
    cbn in L; try lia.
  now exists b0, b1, b2, b3, b4, b5, rest.
Qed.

Lemma decode_measurable_at : forall payload i b0 b1 b2 b3 b4 b5 rest,
  skipn (6 * i) payload = b0 :: b1 :: b2 :: b3 :: b4 :: b5 :: rest ->
  decode_measurable (hex payload) i = Ok (section_number b1 b2 b3 b4 b5).
Proof.
  intros payload i b0 b1 b2 b3 b4 b5 rest E. unfold decode_measurable.
  replace (i * 12 + 2) with (2 * (6 * i + 1)) by lia.
  replace (i * 12 + 4) with (2 * (6 * i + 2)) by lia.
  replace (i * 12 + 12) with (2 * (6 * i + 6)) by lia.
  rewrite !slice_hex.
  replace (6 * i + 2 - (6 * i + 1)) with 1 by lia.
  replace (6 * i + 6 - (6 * i + 2)) with 4 by lia.
  replace (6 * i + 1) with (1 + 6 * i) by lia.
  replace (6 * i + 2) with (2 + 6 * i) by lia.
  rewrite <- !skipn_skipn, E. cbn [skipn firstn].
  rewrite !int16_hex. cbn [bind].
  rewrite big_endian_digits.
  replace (big_endian 0 [b1]) with (byte_Z b1) by (cbn [big_endian]; lia).
  rewrite sign_of_byte, pow10_of_byte. unfold section_number.
  destruct (section_exponent b1 =? 0)%Z; cbn [mul]; [|reflexivity].
  now rewrite Z.mul_1_r.
Qed.

Lemma number_at_section : forall payload i b0 b1 b2 b3 b4 b5 rest,
  skipn (6 * i) payload = b0 :: b1 :: b2 :: b3 :: b4 :: b5 :: rest ->
  number_at payload i = section_number b1 b2 b3 b4 b5.
Proof. intros * E. unfold number_at. now rewrite E. Qed.

Lemma decode_loop_sections : forall payload count i out,
  6 * (i + count) <= List.length payload ->
  decode_loop (hex payload) i count out =
  Ok (out ++ map (number_at payload) (seq i count)).
Proof.
  intros payload count. induction count as [|count IH]; intros i out H.
  - cbn. now rewrite app_nil_r.
  - destruct (section_split payload i) as (b0 & b1 & b2 & b3 & b4 & b5 & rest & E); [lia|].
    cbn [decode_loop]. rewrite (@decode_measurable_at payload i b0 b1 b2 b3 b4 b5 rest E). cbn [bind].
    rewrite IH by lia. cbn [seq map].
    rewrite (@number_at_section payload i b0 b1 b2 b3 b4 b5 rest E), <- app_assoc. reflexivity.
Qed.

Lemma decode_sections : forall payload,
  decode payload = Ok (map (number_at payload) (seq 0 (List.length payload / 6))).
Proof.
  intros payload. unfold decode. rewrite hex_length.
  replace (2 * List.length payload / 2) with (List.length payload)
    by (rewrite Nat.mul_comm, Nat.div_mul; lia).
  rewrite decode_loop_sections; [reflexivity|].
  cbn [Nat.add]. apply Nat.Div0.mul_div_le.
Qed.

(** [get_instantenous_data] is [query('STREAM_DATA')] followed by the
    decoding step. *)
Lemma get_instantenous_data_decodes :
  forall port (line : Serial port) fuel self (w w' : world port) payload,
    query fuel self (lit "STREAM_DATA") w = Returned payload w' ->
    get_instantenous_data fuel self w
    = Returned (map (number_at payload) (seq 0 (List.length payload / 6))) w'.
Proof.
  intros port line fuel self w w' payload H. unfold get_instantenous_data.
  now rewrite H, decode_sections.
Qed.

(** C2 (amended).  Decoding never fails: for every payload it returns
    exactly [length / 6] samples, the integer quotient.  A payload whose
    length is a multiple of 6 gives one sample per section; otherwise the
    bytes after the last whole section are ignored. *)
Theorem decode_length : forall payload : bytes,
  exists out, decode payload = Ok out /\ List.length out = List.length payload / 6.
Proof.
  intros payload. eexists. split; [apply decode_sections|].
  now rewrite length_map, length_seq.
Qed.

(** C2, as stated, fails: a 7-byte payload is not a multiple of 6 bytes
    long, and decoding it succeeds, with one sample. *)
Lemma decode_misaligned_counterexample :
  List.length [x02; x00; x00; x00; x00; x64; xff] mod 6 <> 0 /\
  decode [x02; x00; x00; x00; x00; x64; xff] = Ok [PyInt 100].
Proof. split; [discriminate|reflexivity]. Qed.

(** C3 (amended).  For every whole 6-byte section [b0 .. b5] of a payload,
    the sample decoded at that position is [section_number]: with the sign
    negative iff bit 3 of byte 1 is set, the exponent in bits 0-2 of byte 1
    and the digits the big-endian value of bytes 2-5, it is the integer
    [sign * digits] when the exponent is 0, which is exact, and else the
    binary64 product of [sign * digits] with the double [10 ** -exponent]. *)
Theorem decode_section : forall payload i b0 b1 b2 b3 b4 b5,
  firstn 6 (skipn (6 * i) payload) = [b0; b1; b2; b3; b4; b5] ->
  exists out, decode payload = Ok out /\
    nth_error out i = Some (section_number b1 b2 b3 b4 b5) /\
    (section_exponent b1 = 0%Z ->
       exact (section_number b1 b2 b3 b4 b5)
       = Some (inject_Z (section_sign b1 * section_digits b2 b3 b4 b5))).
Proof.
  intros payload i b0 b1 b2 b3 b4 b5 E.
  assert (S6 : skipn (6 * i) payload = [b0; b1; b2; b3; b4; b5] ++ skipn 6 (skipn (6 * i) payload)).
  { rewrite <- E. symmetry. apply firstn_skipn. }
  assert (L : 6 * i + 6 <= List.length payload).
  { apply (f_equal (@List.length _)) in S6. rewrite length_app, length_skipn in S6.
    cbn [List.length] in S6. lia. }
  exists (map (number_at payload) (seq 0 (List.length payload / 6))).
  split; [apply decode_sections|]. split.
  - assert (I : i < List.length payload / 6).
    { apply Nat.div_le_lower_bound with (b := 6) (q := S i); lia. }
    rewrite nth_error_map, nth_error_seq.
    destruct (Nat.ltb_spec i (List.length payload / 6)); [|lia]. cbn.
    f_equal. eapply number_at_section. exact S6.
  - intros E0. unfold section_number. now rewrite E0.
Qed.

(** The section [02 00 00 00 00 64] decodes to 100. *)
Lemma decode_section_witness :
  firstn 6 (skipn (6 * 0) [x02; x00; x00; x00; x00; x64]) = [x02; x00; x00; x00; x00; x64] /\
  exists out, decode [x02; x00; x00; x00; x00; x64] = Ok out /\
    nth_error out 0 = Some (PyInt 100) /\
    (section_exponent x00 = 0%Z -> exact (PyInt 100) = Some (inject_Z 100)).
Proof.
  split; [reflexivity|].
  exact (@decode_section [x02; x00; x00; x00; x00; x64] 0 x02 x00 x00 x00 x00 x64 eq_refl).
Defined.

(** C3, as stated, fails: the section [00 01 00 00 00 03] has sign +1,
    digits 3 and exponent 1, and the decoded sample is the double
    0.30000000000000004, which is not 3/10. *)
Lemma decode_exact_counterexample :
  exists v q,
    decode [x00; x01; x00; x00; x00; x03] = Ok [v] /\
    exact v = Some q /\
    ~ (q == section_value x01 x00 x00 x00 x03)%Q.
Proof.
  eexists. eexists. split; [reflexivity|]. split; [vm_compute; reflexivity|].
  vm_compute. discriminate.
Qed.

End DecoderFacts.

(** ** The query protocol and the error counter *)

Module ProtocolFacts.
Import Py Hex Num GM3.

Section Protocol.
Context {port : Type} {line : Serial port}.
Implicit Types (w : world port) (self fuel : nat).

Lemma bytes_eqb_eq : forall a b, bytes_eqb a b = true <-> a = b.
Proof.
  intros a b. unfold bytes_eqb. destruct (list_eq_dec Byte.byte_eq_dec a b); split; congruence.
Qed.

Lemma bytes_eqb_neq : forall a b, bytes_eqb a b = false <-> a <> b.
Proof.
  intros a b. unfold bytes_eqb. destruct (list_eq_dec Byte.byte_eq_dec a b); split; congruence.
Qed.

Lemma exchange_effect : forall self opcode n w r ack w',
  exchange self opcode n w = (r, ack, w') ->
  trace w' = trace w ++ exchange_events self opcode n r ack /\
  error_count w' = error_count w.
Proof.
  intros self opcode n w r ack w'. unfold exchange, read, write. cbn [ports trace error_count].
  destruct (serial_read n _) as [d1 p1].
  destruct (serial_read 1 _) as [d2 p2].
  intros E. inversion E; subst; clear E. cbn [trace error_count].
  split; [|reflexivity]. now rewrite <- !app_assoc.
Qed.

Lemma request_loop_done : forall fuel self qry n ack r w,
  ack = [x08] -> request_loop fuel self qry n ack r w = Returned (r, ack) w.
Proof. intros. subst. now destruct fuel. Qed.

Lemma request_loop_step : forall fuel self qry n ack r w opcode,
  ack <> [x08] ->
  fromhex (str_repeat qry 6) = Ok opcode ->
  request_loop (S fuel) self qry n ack r w =
  let '(r', ack', w') := exchange self opcode n w in
  request_loop fuel self qry n ack' r'
    (if negb (bytes_eqb ack' [x08]) then count_error w' else w').
Proof.
  intros fuel self qry n ack r w opcode Hack Hop.
  apply bytes_eqb_neq in Hack. cbn [request_loop]. rewrite Hack, Hop. cbn [negb].
  unfold exchange.
  destruct (read self n (write self opcode w)) as [r1 w1].
  destruct (read self 1 w1) as [a1 w2]. reflexivity.
Qed.

Lemma request_loop_restart : forall fuel self qry n ack r w,
  ack <> [x08] ->
  request_loop fuel self qry n ack r w = request_loop fuel self qry n [] [] w.
Proof.
  intros fuel self qry n ack r w Hack. apply bytes_eqb_neq in Hack.
  destruct fuel; cbn [request_loop]; rewrite Hack; reflexivity.
Qed.

Lemma continue_loop_done : forall fuel self n ack r w,
  ack = [x07] -> continue_loop fuel self n ack r w = Returned r w.
Proof. intros. subst. now destruct fuel. Qed.

Lemma continue_loop_step : forall fuel self n ack r w,
  ack <> [x07] ->
  continue_loop (S fuel) self n ack r w =
  let '(chunk, ack', w') := exchange self continue_opcode n w in
  continue_loop fuel self n ack' (r ++ chunk) w'.
Proof.
  intros fuel self n ack r w Hack.
  apply bytes_eqb_neq in Hack. cbn [continue_loop]. rewrite Hack. cbn [negb].
  change (fromhex (str_repeat (lit "08") 6)) with (Ok continue_opcode).
  cbv iota beta. unfold exchange.
  destruct (read self n (write self continue_opcode w)) as [r1 w1].
  destruct (read self 1 w1) as [a1 w2]. reflexivity.
Qed.

Lemma query_stream_data : forall fuel self w,
  query fuel self (lit "STREAM_DATA") w =
  match request_loop fuel self (lit "03") 30 [] [] w with
  | Returned (r, _) w' => Returned r w'
  | Raised e w' => Raised e w'
  | Diverged w' => Diverged w'
  end.
Proof.
  intros. unfold query.
  replace (lookup (lit "STREAM_DATA") qry_dict) with (Some (lit "03")) by reflexivity.
  replace (lookup (lit "03") number_of_bytes_dict) with (Some 30) by reflexivity.
  replace (str_eqb (lit "03") (lit "03") || str_eqb (lit "03") (lit "04")) with true by reflexivity.
  destruct (request_loop fuel self (lit "03") 30 [] [] w) as [[r a] w'|e w'|w']; reflexivity.
Qed.


Lemma exchanges_app : forall a b, exchanges a -> exchanges b -> exchanges (a ++ b).
Proof.
  intros a b Ha Hb. induction Ha as [|self opcode size payload ack rest _ IH]; [exact Hb|].
  rewrite <- app_assoc. now constructor.
Qed.

Lemma exchanges_one : forall self opcode size payload ack,
  exchanges (exchange_events self opcode size payload ack).
Proof.
  intros. rewrite <- (app_nil_r (exchange_events _ _ _ _ _)). constructor. constructor.
Qed.

Lemma failed_requests_cons : forall self opcode size payload ack rest,
  failed_requests (exchange_events self opcode size payload ack ++ rest) =
  ((if negb (bytes_eqb opcode continue_opcode) && negb (bytes_eqb ack [x08]) then 1 else 0)
   + failed_requests rest)%Z.
Proof. reflexivity. Qed.

Lemma failed_requests_app : forall a b,
  exchanges a -> failed_requests (a ++ b) = (failed_requests a + failed_requests b)%Z.
Proof.
  intros a b Ha. induction Ha as [|self opcode size payload ack rest _ IH]; [reflexivity|].
  rewrite <- app_assoc, !failed_requests_cons, IH. lia.
Qed.

Lemma failed_requests_nonneg : forall a, exchanges a -> (0 <= failed_requests a)%Z.
Proof.
  intros a Ha. induction Ha as [|self opcode size payload ack rest _ IH]; [reflexivity|].
  rewrite failed_requests_cons.
  destruct (negb (bytes_eqb opcode continue_opcode) && negb (bytes_eqb ack [x08])); lia.
Qed.

Lemma accounted_refl : forall w, accounted w w.
Proof.
  intros w. exists []. split; [constructor|]. rewrite app_nil_r. cbn. split; [reflexivity|lia].
Qed.

Lemma accounted_trans : forall w1 w2 w3,
  accounted w1 w2 -> accounted w2 w3 -> accounted w1 w3.
Proof.
  intros w1 w2 w3 (e1 & X1 & T1 & C1) (e2 & X2 & T2 & C2).
  exists (e1 ++ e2). split; [now apply exchanges_app|].
  rewrite T2, T1, C2, C1, app_assoc, failed_requests_app by assumption.
  split; [reflexivity|lia].
Qed.

Lemma accounted_monotone : forall w w', accounted w w' -> (error_count w <= error_count w')%Z.
Proof.
  intros w w' (evs & X & _ & C). pose proof (failed_requests_nonneg X). lia.
Qed.

Lemma request_exchange_accounted : forall self opcode n w r ack w',
  opcode <> continue_opcode ->
  exchange self opcode n w = (r, ack, w') ->
  accounted w (if negb (bytes_eqb ack [x08]) then count_error w' else w').
Proof.
  intros self opcode n w r ack w' Hop E.
  destruct (exchange_effect _ _ _ _ E) as [T C].
  exists (exchange_events self opcode n r ack). split; [apply exchanges_one|].
  apply bytes_eqb_neq in Hop.
  rewrite <- (app_nil_r (exchange_events _ _ _ _ _)) at 2.
  rewrite failed_requests_cons, Hop. cbn [negb andb failed_requests].
  destruct (negb (bytes_eqb ack [x08])); cbn [trace error_count count_error];
    (split; [assumption|lia]).
Qed.

Lemma continue_exchange_accounted : forall self n w r ack w',
  exchange self continue_opcode n w = (r, ack, w') ->
  accounted w w' /\ error_count w' = error_count w.
Proof.
  intros self n w r ack w' E.
  destruct (exchange_effect _ _ _ _ E) as [T C]. split; [|exact C].
  exists (exchange_events self continue_opcode n r ack). split; [apply exchanges_one|].
  split; [exact T|]. rewrite C. cbn. lia.
Qed.

Lemma request_loop_accounted : forall fuel self qry n opcode ack r w,
  fromhex (str_repeat qry 6) = Ok opcode ->
  opcode <> continue_opcode ->
  accounted w (final (request_loop fuel self qry n ack r w)).
Proof.
  induction fuel as [|fuel IH]; intros self qry n opcode ack r w Hop Hne.
  - cbn [request_loop]. destruct (negb (bytes_eqb ack [x08])); apply accounted_refl.
  - destruct (list_eq_dec Byte.byte_eq_dec ack [x08]) as [Hack|Hack].
    + rewrite request_loop_done by assumption. apply accounted_refl.
    + rewrite request_loop_step with (opcode := opcode) by assumption.
      destruct (exchange self opcode n w) as [[r' ack'] w'] eqn:E.
      eapply accounted_trans; [eapply request_exchange_accounted; eassumption|].
      eapply IH; eassumption.
Qed.

Lemma continue_loop_accounted : forall fuel self n ack r w,
  accounted w (final (continue_loop fuel self n ack r w)) /\
  error_count (final (continue_loop fuel self n ack r w)) = error_count w.
Proof.
  induction fuel as [|fuel IH]; intros self n ack r w.
  - cbn [continue_loop]. destruct (negb (bytes_eqb ack [x07])); split;
      (apply accounted_refl || reflexivity).
  - destruct (list_eq_dec Byte.byte_eq_dec ack [x07]) as [Hack|Hack].
    + rewrite continue_loop_done by assumption. split; [apply accounted_refl|reflexivity].
    + rewrite continue_loop_step by assumption.
      destruct (exchange self continue_opcode n w) as [[chunk ack'] w'] eqn:E.
      destruct (continue_exchange_accounted _ _ _ E) as [A C].
      destruct (IH self n ack' (r ++ chunk) w') as [A' C'].
      split; [eapply accounted_trans; eassumption|congruence].
Qed.

Lemma qry_dict_values : forall command qry,
  lookup command qry_dict = Some qry ->
  exists n opcode,
    lookup qry number_of_bytes_dict = Some n /\
    fromhex (str_repeat qry 6) = Ok opcode /\
    opcode <> continue_opcode.
Proof.
  intros command qry H. unfold qry_dict in H. cbn [lookup] in H.
  repeat match type of H with
         | (if str_eqb ?a ?b then _ else _) = _ => destruct (str_eqb a b)
         end;
    inversion H; subst; clear H;
    eexists; eexists; (split; [reflexivity|split; [reflexivity|discriminate]]).
Qed.

Lemma query_accounted : forall fuel self command w,
  accounted w (final (query fuel self command w)).
Proof.
  intros fuel self command w. unfold query.
  destruct (lookup command qry_dict) as [qry|] eqn:Hq; [|apply accounted_refl].
  destruct (@qry_dict_values command qry Hq) as (n & opcode & Hn & Hop & Hne). rewrite Hn.
  pose proof (@request_loop_accounted fuel self qry n opcode [] [] w Hop Hne) as A.
  destruct (request_loop fuel self qry n [] [] w) as [[r ack] w1|e w1|w1]; cbn [final] in *;
    try assumption.
  destruct (str_eqb qry (lit "03") || str_eqb qry (lit "04")); [exact A|].
  eapply accounted_trans; [exact A|]. apply continue_loop_accounted.
Qed.

Lemma session_accounted : forall fuel calls w, accounted w (session fuel calls w).
Proof.
  intros fuel calls. induction calls as [|[self command] calls IH]; intros w.
  - apply accounted_refl.
  - cbn [session]. pose proof (query_accounted fuel self command w) as A.
    destruct (query fuel self command w) as [r w1|e w1|w1]; cbn [final] in A;
      try (eapply accounted_trans; [exact A|apply IH]). exact A.
Qed.


Lemma request_loop_returns_ack : forall fuel self qry n ack r w r0 ack0 w0,
  request_loop fuel self qry n ack r w = Returned (r0, ack0) w0 -> ack0 = [x08].
Proof.
  induction fuel as [|fuel IH]; intros self qry n ack r w r0 ack0 w0.
  - cbn [request_loop]. destruct (bytes_eqb ack [x08]) eqn:E; cbn [negb]; [|discriminate].
    intros H. inversion H; subst. now apply bytes_eqb_eq.
  - cbn [request_loop]. destruct (bytes_eqb ack [x08]) eqn:E; cbn [negb].
    + intros H. inversion H; subst. now apply bytes_eqb_eq.
    + destruct (fromhex (str_repeat qry 6)); [|discriminate].
      destruct (read self n _) as [r1 w1]. destruct (read self 1 w1) as [a1 w2].
      apply IH.
Qed.

Lemma continuation_step : forall k self n w,
  continuation (S k) self n w =
  let '(chunk, ack, w1) := exchange self continue_opcode n w in
  let (rest, w2) := continuation k self n w1 in
  ((chunk, ack) :: rest, w2).
Proof. reflexivity. Qed.

Lemma continue_loop_chunks : forall k fuel self n ack r w chunks wk,
  ack <> [x07] ->
  continuation (S k) self n w = (chunks, wk) ->
  Forall (fun ca => snd ca <> [x07]) (firstn k chunks) ->
  snd (nth k chunks ([], [])) = [x07] ->
  S k <= fuel ->
  continue_loop fuel self n ack r w = Returned (r ++ List.concat (map fst chunks)) wk /\
  trace wk = trace w ++
    flat_map (fun ca => exchange_events self continue_opcode n (fst ca) (snd ca)) chunks.
Proof.
  induction k as [|k IH]; intros fuel self n ack r w chunks wk Hack Hc Hmid Hlast Hfuel;
    (destruct fuel as [|fuel]; [lia|]);
    rewrite continue_loop_step by assumption;
    rewrite continuation_step in Hc;
    destruct (exchange self continue_opcode n w) as [[chunk a1] w1] eqn:E;
    destruct (exchange_effect _ _ _ _ E) as [T _].
  - cbn [continuation] in Hc. inversion Hc; subst; clear Hc. cbn in Hlast. subst a1.
    rewrite continue_loop_done by reflexivity. cbn [map List.concat flat_map fst snd].
    now rewrite !app_nil_r.
  - destruct (continuation (S k) self n w1) as [rest w2] eqn:Ec.
    inversion Hc; subst; clear Hc.
    cbn [firstn] in Hmid. apply Forall_cons_iff in Hmid. destruct Hmid as [Ha1 Hrest].
    cbn [nth] in Hlast. cbn [snd] in Ha1.
    destruct (IH fuel self n a1 (r ++ chunk) w1 rest wk Ha1 Ec Hrest Hlast ltac:(lia)) as [Q Tk].
    rewrite Q, Tk, T. cbn [map List.concat flat_map fst snd].
    now rewrite <- !app_assoc.
Qed.

(** C4.  Let one exchange of the stream opcode [03 x 6] with a 30-byte
    read and a 1-byte read give payload [r] and acknowledgment [ack]; these
    three I/O operations are all the exchange adds to the trace.  If [ack]
    is [08], [query('STREAM_DATA')] returns [r] right after that exchange
    with the counter untouched.  Otherwise it counts one error and goes on
    exactly as the same query started afresh would, the world differing in
    the counter alone, and the next thing on the line is the same request
    once more. *)
Theorem query_stream_data_cycle :
  forall fuel self w r ack w',
    exchange self [x03; x03; x03; x03; x03; x03] 30 w = (r, ack, w') ->
    trace w' = trace w ++ exchange_events self [x03; x03; x03; x03; x03; x03] 30 r ack /\
    (ack = [x08] ->
       query (S fuel) self (lit "STREAM_DATA") w = Returned r w' /\
       error_count w' = error_count w) /\
    (ack <> [x08] ->
       query (S fuel) self (lit "STREAM_DATA") w
       = query fuel self (lit "STREAM_DATA") (count_error w') /\
       error_count (count_error w') = (error_count w + 1)%Z /\
       ports (count_error w') = ports w' /\
       forall r2 ack2 w2,
         exchange self [x03; x03; x03; x03; x03; x03] 30 (count_error w') = (r2, ack2, w2) ->
         exists rest,
           trace (final (query (S (S fuel)) self (lit "STREAM_DATA") w))
           = trace w' ++ exchange_events self [x03; x03; x03; x03; x03; x03] 30 r2 ack2 ++ rest).
Proof.
  intros fuel self w r ack w' E.
  destruct (exchange_effect _ _ _ _ E) as [T C].
  assert (Hop : fromhex (str_repeat (lit "03") 6) = Ok [x03; x03; x03; x03; x03; x03])
    by reflexivity.
  assert (Hnil : @nil byte <> [x08]) by discriminate.
  assert (Hne : [x03; x03; x03; x03; x03; x03] <> continue_opcode) by discriminate.
  assert (Step : forall f w1 r1 a1 w1',
             exchange self [x03; x03; x03; x03; x03; x03] 30 w1 = (r1, a1, w1') ->
             a1 <> [x08] ->
             query (S f) self (lit "STREAM_DATA") w1
             = query f self (lit "STREAM_DATA") (count_error w1')).
  { intros f w1 r1 a1 w1' E1 Ha1. rewrite !query_stream_data.
    rewrite request_loop_step with (opcode := [x03; x03; x03; x03; x03; x03]) by assumption.
    rewrite E1. apply bytes_eqb_neq in Ha1. rewrite Ha1. cbn [negb].
    apply bytes_eqb_neq in Ha1. now rewrite request_loop_restart by assumption. }
  split; [exact T|]. split.
  - intros ->. split; [|exact C].
    rewrite query_stream_data.
    rewrite request_loop_step with (opcode := [x03; x03; x03; x03; x03; x03]) by assumption.
    rewrite E. replace (bytes_eqb [x08] [x08]) with true by reflexivity. cbn [negb].
    now rewrite request_loop_done by reflexivity.
  - intros Hack. split; [exact (Step fuel w r ack w' E Hack)|].
    split; [cbn [count_error error_count]; lia|]. split; [reflexivity|].
    intros r2 ack2 w2 E2.
    rewrite (Step (S fuel) w r ack w' E Hack).
    destruct (exchange_effect _ _ _ _ E2) as [T2 _]. cbn [count_error trace] in T2.
    rewrite query_stream_data.
    rewrite request_loop_step with (opcode := [x03; x03; x03; x03; x03; x03]) by assumption.
    rewrite E2.
    set (w3 := if negb (bytes_eqb ack2 [x08]) then count_error w2 else w2).
    assert (T3 : trace w3 = trace w2) by (unfold w3; now destruct (negb _)).
    destruct (@request_loop_accounted fuel self (lit "03") 30 _ ack2 r2 w3 Hop Hne)
      as (evs & _ & Te & _).
    exists evs.
    destruct (request_loop fuel self (lit "03") 30 ack2 r2 w3) as [[r4 a4] w4|e w4|w4];
      cbn [final] in *; rewrite Te, T3, T2, <- !app_assoc; reflexivity.
Qed.

(** C5.  For a command that maps to [01] or [02], once the request loop
    has returned payload [r0] (its acknowledgment is then [08]), let the
    next [k + 1] continue exchanges give [chunks], the first [k] of them
    acknowledged with something other than [07] and the last with [07].
    Then [query] returns [r0] followed by all the chunks in order, having
    sent the continue opcode [08 x 6] exactly [k + 1] times. *)
Theorem query_multipart_accumulates :
  forall fuel self command qry w r0 ack0 w0 k chunks wk,
    lookup command qry_dict = Some qry ->
    qry = lit "01" \/ qry = lit "02" ->
    request_loop fuel self qry 20 [] [] w = Returned (r0, ack0) w0 ->
    continuation (S k) self 20 w0 = (chunks, wk) ->
    Forall (fun ca => snd ca <> [x07]) (firstn k chunks) ->
    snd (nth k chunks ([], [])) = [x07] ->
    S k <= fuel ->
    ack0 = [x08] /\
    query fuel self command w = Returned (r0 ++ List.concat (map fst chunks)) wk /\
    trace wk = trace w0 ++
      flat_map (fun ca => exchange_events self continue_opcode 20 (fst ca) (snd ca)) chunks.
Proof.
  intros fuel self command qry w r0 ack0 w0 k chunks wk Hq Hqry Hreq Hc Hmid Hlast Hfuel.
  pose proof (request_loop_returns_ack _ _ _ _ _ _ _ Hreq) as Hack0.
  assert (H7 : ack0 <> [x07]) by (subst ack0; discriminate).
  destruct (@continue_loop_chunks k fuel self 20 ack0 r0 w0 chunks wk H7 Hc Hmid Hlast Hfuel)
    as [Q T].
  split; [exact Hack0|]. split; [|exact T].
  unfold query. rewrite Hq.
  destruct Hqry; subst qry;
    (replace (lookup _ number_of_bytes_dict) with (Some 20) by reflexivity);
    rewrite Hreq;
    match goal with
    | |- (if ?c then _ else _) = _ => replace c with false by reflexivity
    end; exact Q.
Qed.

(** C10.  One counter serves every instance: after any sequence of
    queries on any instances, [error_count] has grown by the number of
    request exchanges on the trace that were not acknowledged with [08],
    whichever instance made them; it never decreases; and a query whose
    first exchange is acknowledged with [08] leaves it as it was. *)
Theorem error_count_accounting :
  forall fuel calls w,
    (exists evs,
        trace (session fuel calls w) = trace w ++ evs /\
        error_count (session fuel calls w) = (error_count w + failed_requests evs)%Z) /\
    (error_count w <= error_count (session fuel calls w))%Z /\
    (forall self command qry n opcode r w',
        lookup command qry_dict = Some qry ->
        lookup qry number_of_bytes_dict = Some n ->
        fromhex (str_repeat qry 6) = Ok opcode ->
        exchange self opcode n w = (r, [x08], w') ->
        error_count (final (query fuel self command w)) = error_count w).
Proof.
  intros fuel calls w. pose proof (session_accounted fuel calls w) as A.
  split; [|split].
  - destruct A as (evs & _ & T & C). now exists evs.
  - now apply accounted_monotone.
  - intros self command qry n opcode r w' Hq Hn Hop E.
    unfold query. rewrite Hq, Hn.
    destruct fuel as [|fuel]; [reflexivity|].
    assert (Hnil : @nil byte <> [x08]) by discriminate.
    rewrite request_loop_step with (opcode := opcode) by assumption.
    rewrite E. replace (bytes_eqb [x08] [x08]) with true by reflexivity. cbn [negb].
    rewrite request_loop_done by reflexivity.
    destruct (exchange_effect _ _ _ _ E) as [_ C].
    destruct (str_eqb qry (lit "03") || str_eqb qry (lit "04")); [exact C|].
    destruct (continue_loop_accounted (S fuel) self n [x08] r w') as [_ C'].
    now rewrite C'.
Qed.

End Protocol.


(** A meter that acknowledges at once: one exchange, the payload returned. *)
Lemma query_stream_data_cycle_witness :
  exchange 0 [x03; x03; x03; x03; x03; x03] 30 stream_meter
  = (repeat x01 30, [x08],
     snd (exchange 0 [x03; x03; x03; x03; x03; x03] 30 stream_meter)) /\
  query 1 0 (lit "STREAM_DATA") stream_meter
  = Returned (repeat x01 30)
      (snd (exchange 0 [x03; x03; x03; x03; x03; x03] 30 stream_meter)) /\
  error_count (snd (exchange 0 [x03; x03; x03; x03; x03; x03] 30 stream_meter))
  = error_count stream_meter.
Proof.
  split; [reflexivity|].
  exact (proj1 (proj2 (@query_stream_data_cycle bytes scripted_line 0 0 stream_meter
                         (repeat x01 30) [x08]
                         (snd (exchange 0 [x03; x03; x03; x03; x03; x03] 30 stream_meter))
                         eq_refl))
           eq_refl).
Defined.

(** A meter that sends its properties in three parts. *)
Lemma query_multipart_accumulates_witness :
  lookup (lit "ID_METER_PROP") qry_dict = Some (lit "01") /\
  2 <= 2 /\
  query 2 0 (lit "ID_METER_PROP") properties_meter
  = Returned (repeat x41 20 ++ List.concat [repeat x42 20; repeat x43 20])
      (snd (continuation 2 0 20
              (final (request_loop 2 0 (lit "01") 20 [] [] properties_meter)))).
Proof.
  split; [reflexivity|]. split; [exact (le_n 2)|].
  refine (proj1 (proj2 (@query_multipart_accumulates bytes scripted_line 2 0
            (lit "ID_METER_PROP") (lit "01") properties_meter
            (repeat x41 20) [x08]
            (final (request_loop 2 0 (lit "01") 20 [] [] properties_meter))
            1 [(repeat x42 20, [x08]); (repeat x43 20, [x07])]
            (snd (continuation 2 0 20
                    (final (request_loop 2 0 (lit "01") 20 [] [] properties_meter))))
            eq_refl (or_introl eq_refl) eq_refl eq_refl _ eq_refl (le_n 2)))).
  constructor; [discriminate|constructor].
Defined.

(** Two meters: the first garbles one acknowledgment, the second none, and
    the one counter ends at 1. *)
Lemma error_count_accounting_witness :
  Z.le (error_count two_meters)
    (error_count (session 3 [(0, lit "STREAM_DATA"); (1, lit "STREAM_DATA")] two_meters)) /\
  error_count (session 3 [(0, lit "STREAM_DATA"); (1, lit "STREAM_DATA")] two_meters) = 1%Z /\
  error_count (final (query 3 1 (lit "STREAM_DATA") two_meters)) = error_count two_meters.
Proof.
  pose proof (@error_count_accounting bytes scripted_line 3
                [(0, lit "STREAM_DATA"); (1, lit "STREAM_DATA")] two_meters)
    as (_ & M & Q).
  split; [exact M|]. split; [reflexivity|].
  exact (Q 1 (lit "STREAM_DATA") (lit "03") 30 [x03; x03; x03; x03; x03; x03]
           (repeat x03 30)
           (snd (exchange 1 [x03; x03; x03; x03; x03; x03] 30 two_meters))
           eq_refl eq_refl eq_refl eq_refl).
Defined.

End ProtocolFacts.

(** ** Limits of the power supply *)

Module SupplyFacts.
Import Py SPD3303X.

Example float_3_3_is_the_double :
  exists q, Num.float_Q 0x1.a666666666666p+1 = Some q /\ (q == float_3_3)%Q.
Proof. eexists. split; [vm_compute; reflexivity|]. reflexivity. Qed.

Section Supply.
Context {sock : Type} {net : Socket sock}.
Implicit Types (st : state sock) (v : value).

Lemma _query_reply : forall text st,
  exists reply st',
    _query text st = Return reply st' /\
    (reply = VNone \/ exists s, reply = VStr s) /\
    same_limits st st' /\
    _MAX_voltage_limit st' = _MAX_voltage_limit st /\
    _MAX_current_limit st' = _MAX_current_limit st /\
    wire st' = wire st ++ [text].
Proof.
  intros text st. unfold _query.
  destruct (sendall text (_socket st)) as [s1|].
  - destruct (recv 4096 s1) as [[reply_bytes s2]|].
    + eexists. eexists. split; [reflexivity|]. split; [right; eauto|].
      repeat split.
    + eexists. eexists. split; [reflexivity|]. split; [now left|]. repeat split.
  - eexists. eexists. split; [reflexivity|]. split; [now left|]. repeat split.
Qed.

Lemma lt_number_reply : forall q reply,
  reply = VNone \/ (exists s, reply = VStr s) -> lt (VNum q) reply = Err TypeError.
Proof. intros q reply [->|[s ->]]; reflexivity. Qed.

Lemma qle_bool_false : forall x y, (y < x)%Q -> Qle_bool x y = false.
Proof.
  intros x y H. destruct (Qle_bool x y) eqn:E; [|reflexivity].
  apply Qle_bool_iff in E. exfalso. exact (Qlt_not_le _ _ H E).
Qed.

Lemma gt_numbers : forall x y, gt (VNum x) (VNum y) = Ok (negb (Qle_bool x y)).
Proof. reflexivity. Qed.

Lemma le_numbers : forall x y, le (VNum x) (VNum y) = Ok (Qle_bool x y).
Proof. reflexivity. Qed.

Lemma limit_setter_in_range : forall MAX live store not_allowed too_low q m st text,
  MAX st = VNum m -> (0 < q)%Q -> (q <= m)%Q ->
  live = _query text ->
  exists st',
    limit_setter MAX live store not_allowed too_low (VNum q) st = Raise TypeError st' /\
    same_limits st st' /\
    wire st' = wire st ++ [text].
Proof.
  intros MAX live store not_allowed too_low q m st text HM H0 Hm ->.
  unfold limit_setter. rewrite HM, gt_numbers, le_numbers.
  replace (Qle_bool q m) with true by (symmetry; now apply Qle_bool_iff).
  cbn [negb]. rewrite qle_bool_false by assumption.
  destruct (_query_reply text st) as (reply & st' & -> & Hr & HL & _ & _ & HW).
  rewrite (lt_number_reply q Hr). now exists st'.
Qed.

Lemma limit_setter_out_of_range : forall MAX live store not_allowed too_low q m st,
  MAX st = VNum m -> (m < q)%Q \/ (q <= 0)%Q ->
  limit_setter MAX live store not_allowed too_low (VNum q) st
  = Return VNone (print not_allowed st).
Proof.
  intros MAX live store not_allowed too_low q m st HM H.
  unfold limit_setter. rewrite HM, gt_numbers, le_numbers.
  destruct (Qle_bool q m) eqn:E; cbn [negb]; [|reflexivity].
  destruct H as [H|H].
  - apply Qle_bool_iff in E. exfalso. exact (Qlt_not_le _ _ H E).
  - replace (Qle_bool q 0) with true by (symmetry; now apply Qle_bool_iff). reflexivity.
Qed.

(** C6, on the code.  With the 32 V maximum, [ch1_voltage_limit = q] prints
    its refusal and keeps the limit when [q] is above 32 or not positive.
    For every other [q] the comparison of [q] with the text [_query]
    returns (or with [None], after a socket error) raises [TypeError]: the
    setter accepts no value, and the limit is kept. *)
Theorem ch1_voltage_limit_setter_outcomes :
  forall st q,
    _MAX_voltage_limit st = VNum (32 # 1)%Q ->
    ((32 # 1 < q)%Q \/ (q <= 0)%Q ->
       ch1_voltage_limit_setter (VNum q) st
       = Return VNone (print voltage_not_allowed st)) /\
    ((0 < q)%Q -> (q <= 32 # 1)%Q ->
       exists st',
         ch1_voltage_limit_setter (VNum q) st = Raise TypeError st' /\
         _ch1_voltage_limit st' = _ch1_voltage_limit st).
Proof.
  intros st q HM. split.
  - intros H. now apply limit_setter_out_of_range with (m := (32 # 1)%Q).
  - intros H0 Hm.
    destruct (@limit_setter_in_range _MAX_voltage_limit ch1_set_voltage set_ch1_voltage_limit
                voltage_not_allowed (too_low "Voltage" "ch1 voltage") q (32 # 1)%Q st
                (lit "CH1:voltage?") HM H0 Hm eq_refl) as (st' & E & (L & _) & _).
    now exists st'.
Qed.

Lemma limit_setter_keeps : forall (field : state sock -> value) MAX text store not_allowed too_low v st,
  (forall x s, field (store x s) = field s) ->
  (forall msg s, field (print msg s) = field s) ->
  (forall s, field (after (_query text s)) = field s) ->
  field (after (limit_setter MAX (_query text) store not_allowed too_low v st)) = field st.
Proof.
  intros field MAX text store not_allowed too_low v st Hs Hp Hq. unfold limit_setter.
  destruct (gt v (MAX st)) as [above|e]; [|reflexivity].
  destruct (if above then Ok true else le v (VNum 0)) as [[|]|e]; cbn [after];
    [now rewrite Hp| |reflexivity].
  specialize (Hq st).
  destruct (_query text st) as [present st1|e st1]; cbn [after] in *; [|exact Hq].
  destruct (lt v present) as [[|]|e]; cbn [after];
    [now rewrite Hp|now rewrite Hs|exact Hq].
Qed.

(** C7, on the code.  No call of the [ch2_voltage_limit] setter changes
    channel 2's voltage ceiling, and the check of the [ch2_current_limit]
    setter asks the supply for channel 1's set current. *)
Theorem ch2_setters_touch_channel_1 :
  forall st v,
    _ch2_voltage_limit (after (ch2_voltage_limit_setter v st)) = _ch2_voltage_limit st /\
    (forall q,
        _MAX_current_limit st = VNum float_3_3 ->
        (0 < q)%Q -> (q <= float_3_3)%Q ->
        wire (after (ch2_current_limit_setter (VNum q) st))
        = wire st ++ [lit "CH1:current?"]).
Proof.
  intros st v. split.
  - unfold ch2_voltage_limit_setter, ch2_set_voltage.
    apply limit_setter_keeps with (field := @_ch2_voltage_limit sock); try reflexivity.
    intros s. destruct (_query_reply (lit "CH2:voltage?") s) as (reply & s' & -> & _ & HL & _).
    cbn [after]. apply HL.
  - intros q HM H0 Hm.
    destruct (@limit_setter_in_range _MAX_current_limit ch1_set_current set_ch2_current_limit
                current_not_allowed (too_low "Current" "ch2 current") q float_3_3 st
                (lit "CH1:current?") HM H0 Hm eq_refl) as (st' & E & _ & W).
    unfold ch2_current_limit_setter. rewrite E. exact W.
Qed.

(** C8 (amended).  [_command] always returns [None] and raises nothing,
    whether or not the socket failed.  When a socket call raises [OSError],
    [_command] and [_query] print "ERROR: Socket not found" and return
    [None]; when both calls of [_query] succeed it returns the reply, a
    string, so that only the caller of [_query] can tell the two apart. *)
Theorem socket_errors_are_swallowed :
  forall st text,
    (exists st', _command text st = Return VNone st') /\
    (sendall text (_socket st) = None ->
       _command text st
       = Return VNone (print socket_error (with_socket (_socket st) [text] st)) /\
       _query text st
       = Return VNone (print socket_error (with_socket (_socket st) [text] st))) /\
    (forall s1,
        sendall text (_socket st) = Some s1 -> recv 4096 s1 = None ->
        _query text st = Return VNone (print socket_error (with_socket s1 [text] st))) /\
    (forall s1 reply s2,
        sendall text (_socket st) = Some s1 -> recv 4096 s1 = Some (reply, s2) ->
        _query text st = Return (VStr (strip reply)) (with_socket s2 [text] st)).
Proof.
  intros st text. unfold _command, _query. repeat split.
  - destruct (sendall text (_socket st)); eexists; reflexivity.
  - now rewrite H.
  - now rewrite H.
  - intros s1 H1 H2. now rewrite H1, H2.
  - intros s1 reply s2 H1 H2. now rewrite H1, H2.
Qed.

End Supply.


(** On a live supply set to 10 V, 40 V is refused with a message, and
    both 20 V and 5 V end in [TypeError] with the 32 V limit kept. *)
Lemma ch1_voltage_limit_setter_outcomes_witness :
  (ch1_voltage_limit_setter (VNum (40 # 1)) live_supply
   = Return VNone (print voltage_not_allowed live_supply)) /\
  (exists st', ch1_voltage_limit_setter (VNum (20 # 1)) live_supply = Raise TypeError st' /\
               _ch1_voltage_limit st' = VNum (32 # 1)) /\
  (exists st', ch1_voltage_limit_setter (VNum (5 # 1)) live_supply = Raise TypeError st' /\
               _ch1_voltage_limit st' = VNum (32 # 1)).
Proof.
  split; [|split].
  - exact (proj1 (@ch1_voltage_limit_setter_outcomes test_socket test_socket_calls
                    live_supply (40 # 1)%Q eq_refl) (or_introl eq_refl)).
  - apply (proj2 (@ch1_voltage_limit_setter_outcomes test_socket test_socket_calls
                    live_supply (20 # 1)%Q eq_refl)); [reflexivity|discriminate].
  - apply (proj2 (@ch1_voltage_limit_setter_outcomes test_socket test_socket_calls
                    live_supply (5 # 1)%Q eq_refl)); [reflexivity|discriminate].
Defined.

(** On a live supply, [ch2_voltage_limit = 20] leaves channel 2's ceiling
    at 32, and [ch2_current_limit = 2] queries channel 1. *)
Lemma ch2_setters_touch_channel_1_witness :
  _ch2_voltage_limit (after (ch2_voltage_limit_setter (VNum (20 # 1)) live_supply))
  = VNum (32 # 1) /\
  wire (after (ch2_current_limit_setter (VNum (2 # 1)) live_supply))
  = [lit "CH1:current?"].
Proof.
  pose proof (@ch2_setters_touch_channel_1 test_socket test_socket_calls
                live_supply (VNum (20 # 1))) as [V C].
  split; [exact V|].
  apply (C (2 # 1)%Q); [reflexivity|reflexivity|discriminate].
Defined.

(** A command sent over a lost connection. *)
Lemma socket_errors_are_swallowed_witness :
  sendall (lit "Output CH1,ON") (_socket lost_supply) = None /\
  _command (lit "Output CH1,ON") lost_supply
  = Return VNone
      (print socket_error (with_socket (_socket lost_supply) [lit "Output CH1,ON"] lost_supply)).
Proof.
  split; [reflexivity|].
  exact (proj1 (proj1 (proj2 (@socket_errors_are_swallowed test_socket test_socket_calls
                                 lost_supply (lit "Output CH1,ON"))) eq_refl)).
Defined.

(** C8, as stated, fails: on a lost connection [sendall] raises [OSError],
    and [_command] returns [None] without raising, as it does on a live
    connection. *)
Lemma command_failure_counterexample :
  sendall (lit "Output CH1,ON") (_socket lost_supply) = None /\
  (exists st', _command (lit "Output CH1,ON") lost_supply = Return VNone st') /\
  (exists st', _command (lit "Output CH1,ON") live_supply = Return VNone st').
Proof.
  split; [reflexivity|]. split; eexists; reflexivity.
Qed.

End SupplyFacts.

(** ** The oven loop *)

Module OvenFacts.
Import Py Oven.

(** A cold reading saturates the output at the 12 V channel limit; a tick
    within the sample time repeats it; a hot reading later gives 0. *)
Example saturated_oven :
  map snd (written (self (run [Tick 5; Tick 6; Tick 9]
                            (example_assembly [Gives (Finite (-1000));
                                               Gives (Finite 500);
                                               Gives (Finite 500)]))))
  = [Finite 12; Finite 12; Finite 0].
Proof. vm_compute. reflexivity. Qed.

(** A reading that raises leaves the supply alone. *)
Example failed_reading :
  map snd (written (self (run [Tick 5; Tick 9]
                            (example_assembly [Fails ULError;
                                               Gives (Finite (-1000))]))))
  = [Finite 12].
Proof. vm_compute. reflexivity. Qed.

Section Controller.
Context {supply : Type} {bench : PowerSupply supply}.
Local Open Scope Q_scope.

Lemma qltb_true : forall x y, Oven.qltb x y = true -> x < y.
Proof.
  intros x y H. unfold Oven.qltb in H. apply negb_true_iff in H.
  apply Qnot_le_lt. intros L. apply Qle_bool_iff in L. congruence.
Qed.

Lemma qltb_false : forall x y, Oven.qltb x y = false -> y <= x.
Proof.
  intros x y H. unfold Oven.qltb in H. apply negb_false_iff in H.
  now apply Qle_bool_iff.
Qed.

Lemma qltb_of_lt : forall x y, x < y -> Oven.qltb x y = true.
Proof.
  intros x y H. unfold Oven.qltb. apply negb_true_iff.
  destruct (Qle_bool y x) eqn:E; [|reflexivity].
  apply Qle_bool_iff in E. exfalso. exact (Qlt_not_le _ _ H E).
Qed.

Lemma qltb_of_le : forall x y, y <= x -> Oven.qltb x y = false.
Proof.
  intros x y H. unfold Oven.qltb. apply negb_false_iff. now apply Qle_bool_iff.
Qed.

Lemma clamp_within : forall x lower upper,
  lower <= upper -> lower <= clamp x (Some lower, Some upper) <= upper.
Proof.
  intros x lower upper H. unfold clamp.
  destruct (Oven.qltb upper x) eqn:U.
  - split; [exact H|apply Qle_refl].
  - destruct (Oven.qltb x lower) eqn:L.
    + split; [apply Qle_refl|exact H].
    + split; [now apply qltb_false|now apply qltb_false].
Qed.

Lemma py_min_below : forall a b, py_min a b <= a /\ py_min a b <= b.
Proof.
  intros a b. unfold py_min. destruct (Oven.qltb b a) eqn:E.
  - split; [apply Qlt_le_weak; now apply qltb_true|apply Qle_refl].
  - split; [apply Qle_refl|now apply qltb_false].
Qed.

Lemma PID_update_bounded : forall M p measurement now,
  0 <= M -> pid_bounded M p ->
  0 <= fst (PID_update p measurement now) <= M /\
  pid_bounded M (snd (PID_update p measurement now)).
Proof.
  intros M p measurement now HM [HL HO]. unfold PID_update. cbn [fst snd].
  rewrite HL.
  match goal with |- context [clamp ?x _] => pose proof (clamp_within x HM) as C end.
  split; [exact C|]. split; [reflexivity|].
  cbn [last_output]. intros v Hv. inversion Hv; subst. exact C.
Qed.

Lemma PID_step_bounded : forall M p measurement now,
  0 <= M -> pid_bounded M p ->
  0 <= fst (PID_step p measurement now) <= M /\
  pid_bounded M (snd (PID_step p measurement now)).
Proof.
  intros M p measurement now HM HP. unfold PID_step.
  destruct (last_output p) as [previous|] eqn:E.
  - destruct (Oven.qltb (now - last_sample_time p) (sample_time p)).
    + cbn [fst snd]. split; [|exact HP]. destruct HP as [_ HO]. now apply HO.
    + now apply PID_update_bounded.
  - now apply PID_update_bounded.
Qed.

Lemma assign_setpoint_bounded : forall M v p,
  pid_bounded M p -> pid_bounded M (assign_setpoint v p).
Proof. intros M v p [HL HO]. split; [exact HL|exact HO]. Qed.

Lemma assign_sample_time_bounded : forall M v p,
  pid_bounded M p -> pid_bounded M (assign_sample_time v p).
Proof. intros M v p [HL HO]. split; [exact HL|exact HO]. Qed.

Lemma init_bounded : forall ps ch heater now,
  oven_bounded (py_min (MAX_volts heater) (get_voltage_limit ps ch))
    (__init__ (ps, ch) (Some heater) now).
Proof.
  intros. split; [|constructor]. split; [reflexivity|]. cbn. discriminate.
Qed.


End Controller.

Section Assembly.
Context {supply : Type} {bench : PowerSupply supply}.
Context {daq : Type} {thermometer : TemperatureDaq daq}.
Context {controller : PIDObject}.
Local Open Scope Q_scope.
Implicit Types (a : assembly supply daq) (act : action supply).

Lemma current_temp_effect : forall a,
  self (snd (current_temp a)) = self a /\
  pid_memory (snd (current_temp a)) = pid_memory a /\
  snd (daq_and_channel (snd (current_temp a))) = snd (daq_and_channel a) /\
  readings (snd (current_temp a)) = readings a ++ [fst (current_temp a)].
Proof.
  intros a. unfold current_temp.
  destruct (get_temp (snd (daq_and_channel a)) (fst (daq_and_channel a))) as [r d].
  cbn. auto.
Qed.

(** [update_supply] has no clamp of its own: what it writes is the
    output of the PID object, and it writes nothing when the reading
    raises. *)
Lemma update_supply_forwards : forall now a,
  (forall e a1, current_temp a = (Fails e, a1) ->
     update_supply now a = Raised e a1 /\ self a1 = self a) /\
  (forall t a1, current_temp a = (Gives t, a1) ->
     exists a2,
       update_supply now a
       = Returned (fst (fst (pid_call (_pid (self a)) (pid_memory a) t now))) a2 /\
       written (self a2)
       = written (self a)
           ++ [(snd (_supply_and_channel (self a)),
                fst (fst (pid_call (_pid (self a)) (pid_memory a) t now)))] /\
       _pid (self a2) = snd (fst (pid_call (_pid (self a)) (pid_memory a) t now)) /\
       _heater (self a2) = _heater (self a) /\
       snd (_supply_and_channel (self a2)) = snd (_supply_and_channel (self a)) /\
       readings a2 = readings a1).
Proof.
  intros now a. pose proof (current_temp_effect a) as (S & M & _ & _).
  unfold update_supply. split.
  - intros e a1 E. rewrite E in *. cbn [snd] in S. auto.
  - intros t a1 E. rewrite E in *. cbn [snd] in S, M. rewrite S, M.
    destruct (pid_call (_pid (self a)) (pid_memory a) t now) as [[v p] m].
    eexists. split; [reflexivity|]. cbn. auto.
Qed.

Lemma update_supply_readings : forall now a,
  readings (ended (update_supply now a)) = readings a ++ [fst (current_temp a)].
Proof.
  intros now a. pose proof (current_temp_effect a) as (_ & _ & _ & R).
  destruct (update_supply_forwards now a) as [F G].
  destruct (current_temp a) as [[t|e] a1] eqn:E; cbn [fst snd] in *.
  - destruct (G t a1 eq_refl) as (a2 & -> & _ & _ & _ & _ & R2). cbn [ended]. congruence.
  - destruct (F e a1 eq_refl) as [-> _]. exact R.
Qed.

Lemma update_supply_bounded : forall M now a,
  0 <= M -> follows_PIDLoop -> oven_bounded M (self a) ->
  finite_or_failed (fst (current_temp a)) ->
  oven_bounded M (self (ended (update_supply now a))).
Proof.
  intros M now a HM HS [HP HW] HF.
  destruct (update_supply_forwards now a) as [F G].
  destruct (current_temp a) as [[t|e] a1] eqn:E; cbn [fst] in HF.
  - destruct t as [q| | |]; try contradiction.
    destruct (G (Finite q) a1 eq_refl) as (a2 & -> & W & P & _). cbn [ended].
    destruct (HS (_pid (self a)) (pid_memory a) q now) as [m' C].
    rewrite C in W, P. cbn [fst snd] in W, P.
    pose proof (PID_step_bounded q now HM HP) as [Hv Hp].
    split; [now rewrite P|]. rewrite W. apply Forall_app. split; [exact HW|].
    constructor; [|constructor]. cbn [snd]. eexists. split; [reflexivity|exact Hv].
  - destruct (F e a1 eq_refl) as [-> S]. cbn [ended]. rewrite S. now split.
Qed.

Lemma perform_readings : forall act a,
  exists R, readings (perform act a) = readings a ++ R.
Proof.
  intros act a. destruct act as [now|t|st|ps]; cbn [perform].
  - eexists. apply update_supply_readings.
  - exists []. now rewrite app_nil_r.
  - exists []. now rewrite app_nil_r.
  - exists []. now rewrite app_nil_r.
Qed.

Lemma run_readings : forall acts a,
  exists R, readings (run acts a) = readings a ++ R.
Proof.
  induction acts as [|act acts IH]; intros a.
  - exists []. cbn. now rewrite app_nil_r.
  - cbn [run fold_left]. fold (run acts (perform act a)).
    destruct (IH (perform act a)) as [R1 E1]. destruct (perform_readings act a) as [R0 E0].
    exists (R0 ++ R1). now rewrite E1, E0, app_assoc.
Qed.

Lemma perform_bounded : forall M act a,
  0 <= M -> follows_PIDLoop -> oven_bounded M (self a) ->
  Forall finite_or_failed (readings (perform act a)) ->
  oven_bounded M (self (perform act a)).
Proof.
  intros M act a HM HS HB HF. destruct act as [now|t|st|ps]; cbn [perform] in *.
  - apply update_supply_bounded; try assumption.
    rewrite update_supply_readings in HF. apply Forall_app in HF.
    destruct HF as [_ HF]. now inversion HF.
  - cbn [with_oven self]. unfold set_temperature_setter.
    destruct (Oven.qltb (MAX_temp (_heater (self a))) t); cbn [after].
    + exact HB.
    + destruct HB as [HP HW]. split; [now apply assign_setpoint_bounded|exact HW].
  - cbn [with_oven self]. destruct HB as [HP HW].
    split; [now apply assign_sample_time_bounded|exact HW].
  - exact HB.
Qed.

Lemma run_bounded : forall acts M a,
  0 <= M -> follows_PIDLoop -> oven_bounded M (self a) ->
  Forall finite_or_failed (readings (run acts a)) ->
  oven_bounded M (self (run acts a)).
Proof.
  induction acts as [|act acts IH]; intros M a HM HS HB HF; [exact HB|].
  cbn [run fold_left] in *. fold (run acts (perform act a)) in *.
  apply IH; try assumption. apply perform_bounded; try assumption.
  destruct (run_readings acts (perform act a)) as [R E]. rewrite E in HF.
  apply Forall_app in HF. tauto.
Qed.


End Assembly.

Lemma PIDLoop_follows : @follows_PIDLoop PIDLoop.
Proof.
  intros p m t now. exists tt. cbn [pid_call PIDLoop].
  destruct (PID_step p t now) as [v p']. reflexivity.
Defined.




End OvenFacts.

(* ================================================================== *)
(** * Further properties *)
(* ================================================================== *)

(** ** The gaussmeter: commands, frames and decoding *)

Module MeterFacts.
Import Py Hex Num GM3 DecoderFacts ProtocolFacts.

Lemma str_eqb_eq : forall a b, str_eqb a b = true <-> a = b.
Proof.
  intros a b. unfold str_eqb. destruct (list_eq_dec ascii_dec a b); split; congruence.
Qed.

Lemma lookup_none : forall V (d : list (str * V)) key,
  lookup key d = None <-> ~ In key (map fst d).
Proof.
  intros V d key. induction d as [|[k v] d IH]; cbn [lookup map fst In].
  - tauto.
  - destruct (str_eqb key k) eqn:E.
    + apply str_eqb_eq in E. subst. split; [discriminate|]. intros H. exfalso. apply H. now left.
    + assert (N : k <> key).
      { intros <-. assert (T : str_eqb k k = true) by now apply str_eqb_eq. congruence. }
      rewrite IH. tauto.
Qed.

Section Meter.
Context {port : Type} {line : Serial port}.
Implicit Types (w : world port) (self fuel : nat).

Lemma request_loop_raises_not : forall fuel self qry n opcode ack r w e w',
  fromhex (str_repeat qry 6) = Ok opcode ->
  request_loop fuel self qry n ack r w <> Raised e w'.
Proof.
  induction fuel as [|fuel IH]; intros self qry n opcode ack r w e w' Hop.
  - cbn [request_loop]. destruct (negb (bytes_eqb ack [x08])); discriminate.
  - destruct (list_eq_dec Byte.byte_eq_dec ack [x08]) as [Hack|Hack].
    + rewrite request_loop_done by assumption. discriminate.
    + rewrite request_loop_step with (opcode := opcode) by assumption.
      destruct (exchange self opcode n w) as [[r1 a1] w1]. now apply IH with (opcode := opcode).
Qed.

Lemma continue_loop_raises_not : forall fuel self n ack r w e w',
  continue_loop fuel self n ack r w <> Raised e w'.
Proof.
  induction fuel as [|fuel IH]; intros self n ack r w e w'.
  - cbn [continue_loop]. destruct (negb (bytes_eqb ack [x07])); discriminate.
  - destruct (list_eq_dec Byte.byte_eq_dec ack [x07]) as [Hack|Hack].
    + rewrite continue_loop_done by assumption. discriminate.
    + rewrite continue_loop_step by assumption.
      destruct (exchange self continue_opcode n w) as [[r1 a1] w1]. apply IH.
Qed.

(** X1.  [query] raises for the commands that are not keys of [qry_dict],
    and for no others: an unknown command gives [KeyError] before any I/O,
    with the counter untouched, and a known one never raises. *)
Theorem query_raises_for_unknown_only :
  forall fuel self command w,
    (~ In command (map fst qry_dict) ->
       query fuel self command w = Raised KeyError w) /\
    (forall e w', query fuel self command w = Raised e w' ->
       ~ In command (map fst qry_dict)).
Proof.
  intros fuel self command w. split.
  - intros H. apply lookup_none in H. unfold query. now rewrite H.
  - intros e w' H. apply lookup_none. unfold query in H.
    destruct (lookup command qry_dict) as [qry|] eqn:Hq; [exfalso|reflexivity].
    destruct (@qry_dict_values command qry Hq) as (n & opcode & Hn & Hop & _).
    rewrite Hn in H.
    pose proof (@request_loop_raises_not fuel self qry n opcode [] [] w) as R.
    destruct (request_loop fuel self qry n [] [] w) as [[r ack] w1|e1 w1|w1].
    + destruct (str_eqb qry (lit "03") || str_eqb qry (lit "04")); [discriminate|].
      exact (continue_loop_raises_not _ _ _ _ _ _ H).
    + exact (R e1 w1 Hop eq_refl).
    + discriminate.
Qed.

(** X2.  [command] is fire-and-forget: for a key of [cmd_dict] it writes
    the six bytes [ff] once, reads nothing and leaves the counter and the
    other instances' lines alone; for any other name it raises [KeyError]
    and does nothing. *)
Theorem command_writes_once :
  forall self name w,
    (In name (map fst cmd_dict) ->
       exists w', command self name w = Returned tt w' /\
         trace w' = trace w ++ [EvWrite self [xff; xff; xff; xff; xff; xff]] /\
         error_count w' = error_count w /\
         forall other, other <> self -> ports w' other = ports w other) /\
    (~ In name (map fst cmd_dict) -> command self name w = Raised KeyError w).
Proof.
  intros self name w. split.
  - intros H. unfold command.
    destruct (lookup name cmd_dict) as [cmd|] eqn:E.
    + assert (C : cmd = lit "FF").
      { unfold cmd_dict in E. cbn [lookup] in E.
        repeat match type of E with
               | (if str_eqb ?a ?b then _ else _) = _ => destruct (str_eqb a b)
               end; congruence. }
      subst cmd. replace (fromhex (str_repeat (lit "FF") 6))
        with (Ok [xff; xff; xff; xff; xff; xff]) by reflexivity.
      eexists. split; [reflexivity|]. cbn [write trace error_count ports].
      split; [reflexivity|]. split; [reflexivity|].
      intros other Ho. unfold set_port.
      destruct (Nat.eqb_spec other self); [contradiction|reflexivity].
    + apply lookup_none in E. contradiction.
  - intros H. apply lookup_none in H. unfold command. now rewrite H.
Qed.

Lemma by_self_refl : forall self w, by_self self w w.
Proof.
  intros self w. split; [reflexivity|]. exists []. now rewrite app_nil_r.
Qed.

Lemma by_self_trans : forall self w1 w2 w3,
  by_self self w1 w2 -> by_self self w2 w3 -> by_self self w1 w3.
Proof.
  intros self w1 w2 w3 [P1 (e1 & T1 & F1)] [P2 (e2 & T2 & F2)]. split.
  - intros other H. now rewrite P2, P1.
  - exists (e1 ++ e2). rewrite T2, T1, app_assoc. split; [reflexivity|].
    apply Forall_app. now split.
Qed.

Lemma exchange_by_self : forall self opcode n w r ack w',
  exchange self opcode n w = (r, ack, w') -> by_self self w w'.
Proof.
  intros self opcode n w r ack w' E.
  destruct (exchange_effect _ _ _ _ E) as [T _]. split.
  - revert E. unfold exchange, read, write. cbn [ports].
    destruct (serial_read n _) as [d1 p1]. destruct (serial_read 1 _) as [d2 p2].
    intros E. inversion E; subst; clear E. cbn [ports]. intros other H. unfold set_port.
    destruct (Nat.eqb_spec other self); [contradiction|reflexivity].
  - exists (exchange_events self opcode n r ack). split; [exact T|].
    repeat constructor.
Qed.

Lemma counted_by_self : forall self (b : bool) w,
  by_self self w (if b then count_error w else w).
Proof.
  intros self b w. destruct b; [|apply by_self_refl].
  split; [reflexivity|]. exists []. cbn [count_error trace]. now rewrite app_nil_r.
Qed.

Lemma request_loop_by_self : forall fuel self qry n ack r w,
  by_self self w (final (request_loop fuel self qry n ack r w)).
Proof.
  induction fuel as [|fuel IH]; intros self qry n ack r w.
  - cbn [request_loop]. destruct (negb (bytes_eqb ack [x08])); apply by_self_refl.
  - cbn [request_loop]. destruct (negb (bytes_eqb ack [x08])); [|apply by_self_refl].
    destruct (fromhex (str_repeat qry 6)) as [opcode|e]; [|apply by_self_refl].
    pose proof (@exchange_by_self self opcode n w) as X. unfold exchange in X.
    destruct (read self n (write self opcode w)) as [r1 w1].
    destruct (read self 1 w1) as [a1 w2].
    eapply by_self_trans; [exact (X r1 a1 w2 eq_refl)|].
    eapply by_self_trans; [apply counted_by_self|]. apply IH.
Qed.

Lemma continue_loop_by_self : forall fuel self n ack r w,
  by_self self w (final (continue_loop fuel self n ack r w)).
Proof.
  induction fuel as [|fuel IH]; intros self n ack r w.
  - cbn [continue_loop]. destruct (negb (bytes_eqb ack [x07])); apply by_self_refl.
  - destruct (list_eq_dec Byte.byte_eq_dec ack [x07]) as [Hack|Hack].
    + rewrite continue_loop_done by assumption. apply by_self_refl.
    + rewrite continue_loop_step by assumption.
      destruct (exchange self continue_opcode n w) as [[chunk a1] w1] eqn:E.
      eapply by_self_trans; [exact (exchange_by_self _ _ _ _ E)|]. apply IH.
Qed.

(** X3.  A query is the business of the instance that makes it: it leaves
    the serial line of every other instance as it was, and every I/O event
    it adds to the trace is its own. *)
Theorem query_touches_own_line_only :
  forall fuel self command w,
    (forall other, other <> self ->
       ports (final (query fuel self command w)) other = ports w other) /\
    exists evs,
      trace (final (query fuel self command w)) = trace w ++ evs /\
      Forall (fun ev => event_self ev = self) evs.
Proof.
  intros fuel self command w. change (by_self self w (final (query fuel self command w))).
  unfold query.
  destruct (lookup command qry_dict) as [qry|]; [|apply by_self_refl].
  destruct (lookup qry number_of_bytes_dict) as [n|]; [|apply by_self_refl].
  pose proof (request_loop_by_self fuel self qry n [] [] w) as R.
  destruct (request_loop fuel self qry n [] [] w) as [[r ack] w1|e w1|w1];
    cbn [final] in *; try exact R.
  destruct (str_eqb qry (lit "03") || str_eqb qry (lit "04")); [exact R|].
  eapply by_self_trans; [exact R|]. apply continue_loop_by_self.
Qed.

Lemma request_loop_returns_last : forall fuel self qry n opcode ack r w r' a' w',
  fromhex (str_repeat qry 6) = Ok opcode ->
  ack <> [x08] ->
  request_loop fuel self qry n ack r w = Returned (r', a') w' ->
  exists tries : list (bytes * bytes),
    Forall (fun t => snd t <> [x08]) tries /\
    trace w' = trace w
      ++ flat_map (fun t => exchange_events self opcode n (fst t) (snd t)) tries
      ++ exchange_events self opcode n r' [x08] /\
    error_count w' = (error_count w + Z.of_nat (List.length tries))%Z.
Proof.
  induction fuel as [|fuel IH]; intros self qry n opcode ack r w r' a' w' Hop Hack H.
  - cbn [request_loop] in H. apply bytes_eqb_neq in Hack. rewrite Hack in H. discriminate.
  - rewrite request_loop_step with (opcode := opcode) in H by assumption.
    destruct (exchange self opcode n w) as [[r1 a1] w1] eqn:E.
    destruct (exchange_effect _ _ _ _ E) as [T C].
    destruct (list_eq_dec Byte.byte_eq_dec a1 [x08]) as [A|A].
    + subst a1. replace (bytes_eqb [x08] [x08]) with true in H by reflexivity.
      cbn [negb] in H. rewrite request_loop_done in H by reflexivity.
      inversion H; subst; clear H. exists []. split; [constructor|].
      cbn [flat_map app List.length]. split; [exact T|]. rewrite C. cbn. lia.
    + pose proof A as A'. apply bytes_eqb_neq in A'. rewrite A' in H. cbn [negb] in H.
      destruct (IH self qry n opcode a1 r1 (count_error w1) r' a' w' Hop A H)
        as (tries & F & T' & C').
      exists ((r1, a1) :: tries). split; [constructor; assumption|].
      cbn [flat_map fst snd List.length]. cbn [count_error trace error_count] in T', C'.
      split.
      * rewrite T', T, <- !app_assoc. reflexivity.
      * rewrite C', C. lia.
Qed.

(** X4.  When a single-shot query ([STREAM_DATA], [RESET_TIME] and their
    aliases) returns, the payload it returns is the one read in the last
    exchange on the trace, the only one acknowledged with [08]; every
    exchange before it was answered with another acknowledgment, its
    payload was dropped, and each of them added one to the counter. *)
Theorem query_returns_acknowledged_payload :
  forall fuel self command qry n opcode w r w',
    lookup command qry_dict = Some qry ->
    qry = lit "03" \/ qry = lit "04" ->
    lookup qry number_of_bytes_dict = Some n ->
    fromhex (str_repeat qry 6) = Ok opcode ->
    query fuel self command w = Returned r w' ->
    exists tries : list (bytes * bytes),
      Forall (fun t => snd t <> [x08]) tries /\
      trace w' = trace w
        ++ flat_map (fun t => exchange_events self opcode n (fst t) (snd t)) tries
        ++ exchange_events self opcode n r [x08] /\
      error_count w' = (error_count w + Z.of_nat (List.length tries))%Z.
Proof.
  intros fuel self command qry n opcode w r w' Hq Hs Hn Hop H.
  unfold query in H. rewrite Hq, Hn in H.
  destruct (request_loop fuel self qry n [] [] w) as [[r1 a1] w1|e w1|w1] eqn:R;
    try discriminate.
  replace (str_eqb qry (lit "03") || str_eqb qry (lit "04")) with true in H
    by (destruct Hs; subst qry; reflexivity).
  inversion H; subst; clear H.
  assert (Hnil : @nil byte <> [x08]) by discriminate.
  eapply request_loop_returns_last; eassumption.
Qed.

Lemma request_loop_payload_bound : forall fuel self qry n ack r w r' a' w',
  (forall size p, List.length (fst (serial_read size p)) <= size) ->
  ack <> [x08] ->
  request_loop fuel self qry n ack r w = Returned (r', a') w' ->
  List.length r' <= n.
Proof.
  induction fuel as [|fuel IH]; intros self qry n ack r w r' a' w' B Hack H.
  - cbn [request_loop] in H. apply bytes_eqb_neq in Hack. rewrite Hack in H. discriminate.
  - cbn [request_loop] in H. pose proof Hack as Hb. apply bytes_eqb_neq in Hb.
    rewrite Hb in H. cbn [negb] in H.
    destruct (fromhex (str_repeat qry 6)) as [opcode|e]; [|discriminate].
    assert (L : List.length (fst (read self n (write self opcode w))) <= n).
    { unfold read. pose proof (B n (ports (write self opcode w) self)) as Bn.
      destruct (serial_read n _) as [d p]. exact Bn. }
    destruct (read self n (write self opcode w)) as [r1 w1]. cbn [fst] in L.
    destruct (read self 1 w1) as [a1 w2].
    destruct (list_eq_dec Byte.byte_eq_dec a1 [x08]) as [A|A].
    + subst a1. replace (bytes_eqb [x08] [x08]) with true in H by reflexivity.
      cbn [negb] in H. rewrite request_loop_done in H by reflexivity.
      inversion H; subst. exact L.
    + eapply IH; [exact B|exact A|exact H].
Qed.

Lemma single_shot_outcome : forall fuel self command n w,
  lookup command qry_dict = Some (lit "03") /\ n = 30 \/
  lookup command qry_dict = Some (lit "04") /\ n = 31 ->
  (forall size p, List.length (fst (serial_read size p)) <= size) ->
  (forall e w', query fuel self command w <> Raised e w') /\
  (forall r w', query fuel self command w = Returned r w' -> List.length r <= n).
Proof.
  intros fuel self command n w H B.
  assert (X : exists qry opcode,
             lookup command qry_dict = Some qry /\
             lookup qry number_of_bytes_dict = Some n /\
             fromhex (str_repeat qry 6) = Ok opcode /\
             str_eqb qry (lit "03") || str_eqb qry (lit "04") = true).
  { destruct H as [[H ->]|[H ->]]; eexists; eexists;
      (split; [exact H|]); repeat split. }
  destruct X as (qry & opcode & Hq & Hn & Hop & Hs). unfold query. rewrite Hq, Hn, Hs.
  pose proof (@request_loop_raises_not fuel self qry n opcode [] [] w) as NR.
  pose proof (@request_loop_payload_bound fuel self qry n [] [] w) as PB.
  destruct (request_loop fuel self qry n [] [] w) as [[r1 a1] w1|e w1|w1]; split;
    try discriminate.
  - intros r w' E. inversion E; subst.
    assert (Hnil : @nil byte <> [x08]) by discriminate.
    eapply PB; [exact B|exact Hnil|reflexivity].
  - intros e' w' E. inversion E; subst. exact (NR e' w' Hop eq_refl).
Qed.

(** X5.  On a serial line whose reads never return more than they were
    asked for, [get_instantenous_data] and [get_instantenous_data_t0]
    never raise, and when they return they return at most five numbers
    (the 31st byte of the reset reply belongs to no section). *)
Theorem instantenous_data_at_most_five :
  forall fuel self w,
    (forall size p, List.length (fst (serial_read size p)) <= size) ->
    (forall e w', get_instantenous_data fuel self w <> Raised e w') /\
    (forall out w', get_instantenous_data fuel self w = Returned out w' ->
                    List.length out <= 5) /\
    (forall e w', get_instantenous_data_t0 fuel self w <> Raised e w') /\
    (forall out w', get_instantenous_data_t0 fuel self w = Returned out w' ->
                    List.length out <= 5).
Proof.
  intros fuel self w B.
  destruct (@single_shot_outcome fuel self (lit "STREAM_DATA") 30 w
              (or_introl (conj eq_refl eq_refl)) B) as [N1 L1].
  destruct (@single_shot_outcome fuel self (lit "RESET_TIME") 31 w
              (or_intror (conj eq_refl eq_refl)) B) as [N2 L2].
  unfold get_instantenous_data, get_instantenous_data_t0.
  destruct (query fuel self (lit "STREAM_DATA") w) as [p1 w1|e1 w1|w1];
    destruct (query fuel self (lit "RESET_TIME") w) as [p2 w2|e2 w2|w2];
    try rewrite (decode_sections p1); try rewrite (decode_sections p2);
    repeat split; try discriminate;
    try (intros e w' E; inversion E; subst; first [now apply (N1 e w')|now apply (N2 e w')]);
    intros out w' E; inversion E; subst; rewrite length_map, length_seq.
  all: first [ specialize (L1 _ _ eq_refl);
               apply Nat.Div0.div_le_mono with (c := 6) in L1; exact L1
             | specialize (L2 _ _ eq_refl);
               apply Nat.Div0.div_le_mono with (c := 6) in L2; exact L2 ].
Qed.

End Meter.

(** [kill] is not a command name. *)
Lemma command_writes_once_witness :
  In (lit "0xFF") (map fst cmd_dict) /\
  ~ In (lit "kill") (map fst cmd_dict) /\
  command 0 (lit "kill") stream_meter = Raised KeyError stream_meter /\
  exists w', command 0 (lit "0xFF") stream_meter = Returned tt w'.
Proof.
  assert (K : In (lit "0xFF") (map fst cmd_dict)) by (cbn; tauto).
  assert (U : ~ In (lit "kill") (map fst cmd_dict)).
  { cbn. intros H. repeat destruct H as [H|H]; try discriminate H. exact H. }
  split; [exact K|]. split; [exact U|].
  pose proof (@command_writes_once bytes scripted_line 0 (lit "0xFF") stream_meter) as [Y _].
  pose proof (@command_writes_once bytes scripted_line 0 (lit "kill") stream_meter) as [_ N].
  split; [exact (N U)|]. destruct (Y K) as (w' & E & _). now exists w'.
Defined.

(** An unknown name, and a known one on a meter that never answers. *)
Lemma query_raises_for_unknown_only_witness :
  ~ In (lit "stream") (map fst qry_dict) /\
  query 5 0 (lit "stream") stream_meter = Raised KeyError stream_meter.
Proof.
  assert (U : ~ In (lit "stream") (map fst qry_dict)).
  { cbn. intros H. repeat destruct H as [H|H]; try discriminate H. exact H. }
  split; [exact U|].
  exact (proj1 (@query_raises_for_unknown_only bytes scripted_line 5 0 (lit "stream")
                  stream_meter) U).
Defined.

(** The first meter of the bench garbles one acknowledgment: one try is
    dropped and counted, and the second payload is returned. *)
Lemma query_returns_acknowledged_payload_witness :
  query 3 0 (lit "STREAM_DATA") two_meters
  = Returned (repeat x02 30) (final (query 3 0 (lit "STREAM_DATA") two_meters)) /\
  exists tries : list (bytes * bytes),
    Forall (fun t => snd t <> [x08]) tries /\
    trace (final (query 3 0 (lit "STREAM_DATA") two_meters))
    = trace two_meters
        ++ flat_map (fun t => exchange_events 0 [x03; x03; x03; x03; x03; x03] 30
                                (fst t) (snd t)) tries
        ++ exchange_events 0 [x03; x03; x03; x03; x03; x03] 30 (repeat x02 30) [x08] /\
    error_count (final (query 3 0 (lit "STREAM_DATA") two_meters))
    = (error_count two_meters + Z.of_nat (List.length tries))%Z.
Proof.
  split; [reflexivity|].
  exact (@query_returns_acknowledged_payload bytes scripted_line 3 0
           (lit "STREAM_DATA") (lit "03") 30 [x03; x03; x03; x03; x03; x03]
           two_meters (repeat x02 30) (final (query 3 0 (lit "STREAM_DATA") two_meters))
           eq_refl (or_introl eq_refl) eq_refl eq_refl eq_refl).
Defined.

(** The scripted line never returns more than it is asked for. *)
Lemma instantenous_data_at_most_five_witness :
  (forall size (p : bytes), List.length (fst (serial_read size p)) <= size) /\
  exists out w',
    get_instantenous_data 1 0 stream_meter = Returned out w' /\ List.length out <= 5.
Proof.
  assert (B : forall size (p : bytes), List.length (fst (serial_read size p)) <= size)
    by (intros size p; apply firstn_le_length).
  split; [exact B|].
  destruct (@instantenous_data_at_most_five bytes scripted_line 1 0 stream_meter B)
    as (_ & L & _).
  eexists. eexists. split; [reflexivity|]. eapply L. reflexivity.
Defined.

(** ** Decoding: what it composes with and what it never reads *)

Lemma number_at_app_left : forall (a b : bytes) i,
  6 * (i + 1) <= List.length a -> number_at (a ++ b) i = number_at a i.
Proof.
  intros a b i H. unfold number_at.
  rewrite skipn_app. replace (6 * i - List.length a) with 0 by lia.
  cbn [skipn]. rewrite firstn_app, length_skipn.
  replace (6 - (List.length a - 6 * i)) with 0 by lia.
  cbn [firstn]. now rewrite app_nil_r.
Qed.

Lemma number_at_app_right : forall (a b : bytes) k j,
  List.length a = 6 * k -> number_at (a ++ b) (k + j) = number_at b j.
Proof.
  intros a b k j H. unfold number_at.
  rewrite skipn_app. rewrite skipn_all2 by lia.
  replace (6 * (k + j) - List.length a) with (6 * j) by lia. reflexivity.
Qed.

Lemma seq_offset : forall k start len,
  seq (k + start) len = map (Nat.add k) (seq start len).
Proof.
  intros k start len. revert start. induction len as [|len IH]; intros start; [reflexivity|].
  cbn [seq map]. f_equal. rewrite <- IH. f_equal. lia.
Qed.

(** X6.  Decoding works section by section: for a payload [a] of whole
    sections, the samples of [a ++ b] are those of [a] followed by those
    of [b]; and fewer than six trailing bytes add nothing. *)
Theorem decode_app :
  forall (a b : bytes) k,
    List.length a = 6 * k ->
    exists la lb,
      decode a = Ok la /\ decode b = Ok lb /\ decode (a ++ b) = Ok (la ++ lb) /\
      (List.length b < 6 -> decode (a ++ b) = decode a).
Proof.
  intros a b k H.
  assert (Q : List.length (a ++ b) / 6 = k + List.length b / 6).
  { rewrite length_app, H, Nat.mul_comm, Nat.div_add_l by lia. reflexivity. }
  assert (Qa : List.length a / 6 = k).
  { rewrite H, Nat.mul_comm, Nat.div_mul by lia. reflexivity. }
  assert (E : map (number_at (a ++ b)) (seq 0 (k + List.length b / 6))
              = map (number_at a) (seq 0 k)
                ++ map (number_at b) (seq 0 (List.length b / 6))).
  { rewrite seq_app, map_app. f_equal.
    - apply map_ext_in. intros i Hi. apply in_seq in Hi.
      apply number_at_app_left. lia.
    - cbn [Nat.add]. rewrite <- (Nat.add_0_r k) at 1. rewrite seq_offset, map_map.
      apply map_ext. intros j. now apply number_at_app_right. }
  exists (map (number_at a) (seq 0 k)), (map (number_at b) (seq 0 (List.length b / 6))).
  rewrite !decode_sections, Q, Qa, E. repeat split.
  intros L. rewrite Nat.div_small by exact L. cbn [seq map]. now rewrite app_nil_r.
Qed.

Lemma decode_app_witness :
  List.length [x00; x00; x00; x00; x00; x07] = 6 * 1 /\
  decode ([x00; x00; x00; x00; x00; x07] ++ [x00; x08; x00; x00; x00; x09; xff])
  = Ok ([PyInt 7] ++ [PyInt (-9)]).
Proof.
  split; [reflexivity|].
  destruct (@decode_app [x00; x00; x00; x00; x00; x07]
              [x00; x08; x00; x00; x00; x09; xff] 1 eq_refl)
    as (la & lb & Ea & Eb & E & _).
  rewrite E. inversion Ea; subst. inversion Eb; subst. reflexivity.
Defined.

Lemma section_fields_low_nibble : forall b b',
  Z.land (byte_Z b) 15 = Z.land (byte_Z b') 15 ->
  section_sign b = section_sign b' /\ section_exponent b = section_exponent b'.
Proof.
  intros b b' H. unfold section_sign, section_exponent. split.
  - assert (T : forall x, Z.testbit (byte_Z x) 3 = Z.testbit (Z.land (byte_Z x) 15) 3).
    { intros x. rewrite Z.land_spec. change (Z.testbit 15 3) with true.
      now rewrite andb_true_r. }
    now rewrite (T b), (T b'), H.
  - assert (T : forall x, Z.land (byte_Z x) 7 = Z.land (Z.land (byte_Z x) 15) 7).
    { intros x. now rewrite <- Z.land_assoc. }
    now rewrite (T b), (T b'), H.
Qed.

Lemma section_number_low_nibble : forall b1 b1' b2 b3 b4 b5,
  Z.land (byte_Z b1) 15 = Z.land (byte_Z b1') 15 ->
  section_number b1 b2 b3 b4 b5 = section_number b1' b2 b3 b4 b5.
Proof.
  intros b1 b1' b2 b3 b4 b5 H. destruct (section_fields_low_nibble _ _ H) as [S E].
  unfold section_number. now rewrite S, E.
Qed.

(** X7.  Decoding never reads the first byte of a section, nor the upper
    four bits of its second byte: two payloads of the same length that
    agree everywhere else decode to the same samples. *)
Theorem decode_ignores_tag_bits :
  forall p p' : bytes,
    List.length p = List.length p' ->
    (forall i b b',
        nth_error p i = Some b -> nth_error p' i = Some b' ->
        i mod 6 = 0 \/
        (i mod 6 = 1 /\ Z.land (byte_Z b) 15 = Z.land (byte_Z b') 15) \/
        b = b') ->
    decode p = decode p'.
Proof.
  intros p p' L H. rewrite !decode_sections, <- L. f_equal.
  apply map_ext_in. intros i Hi. apply in_seq in Hi.
  assert (B : 6 * (i + 1) <= List.length p).
  { destruct Hi as [_ Hi]. cbn [Nat.add] in Hi.
    pose proof (Nat.Div0.mul_div_le (List.length p) 6). nia. }
  destruct (section_split p i B) as (b0 & b1 & b2 & b3 & b4 & b5 & rest & E).
  assert (B' : 6 * (i + 1) <= List.length p') by lia.
  destruct (section_split p' i B') as (c0 & c1 & c2 & c3 & c4 & c5 & rest' & E').
  rewrite (@number_at_section p i b0 b1 b2 b3 b4 b5 rest E).
  rewrite (@number_at_section p' i c0 c1 c2 c3 c4 c5 rest' E').
  assert (N : forall j b c,
             nth_error (b0 :: b1 :: b2 :: b3 :: b4 :: b5 :: rest) j = Some b ->
             nth_error (c0 :: c1 :: c2 :: c3 :: c4 :: c5 :: rest') j = Some c ->
             j < 6 ->
             j = 0 \/ (j = 1 /\ Z.land (byte_Z b) 15 = Z.land (byte_Z c) 15) \/ b = c).
  { intros j b c Hb Hc Hj. rewrite <- E, nth_error_skipn in Hb.
    rewrite <- E', nth_error_skipn in Hc.
    assert (M : (6 * i + j) mod 6 = j).
    { rewrite Nat.add_comm, Nat.mul_comm, Nat.Div0.mod_add. now apply Nat.mod_small. }
    specialize (H _ _ _ Hb Hc). rewrite M in H. exact H. }
  assert (N1 : Z.land (byte_Z b1) 15 = Z.land (byte_Z c1) 15).
  { destruct (N 1 b1 c1 eq_refl eq_refl ltac:(lia)) as [X|[[_ X]|X]];
      [discriminate|exact X|now subst]. }
  assert (N2 : b2 = c2).
  { destruct (N 2 b2 c2 eq_refl eq_refl ltac:(lia)) as [X|[[X _]|X]];
      [discriminate|discriminate|exact X]. }
  assert (N3 : b3 = c3).
  { destruct (N 3 b3 c3 eq_refl eq_refl ltac:(lia)) as [X|[[X _]|X]];
      [discriminate|discriminate|exact X]. }
  assert (N4 : b4 = c4).
  { destruct (N 4 b4 c4 eq_refl eq_refl ltac:(lia)) as [X|[[X _]|X]];
      [discriminate|discriminate|exact X]. }
  assert (N5 : b5 = c5).
  { destruct (N 5 b5 c5 eq_refl eq_refl ltac:(lia)) as [X|[[X _]|X]];
      [discriminate|discriminate|exact X]. }
  subst. now apply section_number_low_nibble.
Qed.

(** Two sections that differ in their first byte and in bit 4 of their
    second. *)
Lemma decode_ignores_tag_bits_witness :
  List.length [x02; x09; x00; x00; x01; x00] = List.length [xa5; x19; x00; x00; x01; x00] /\
  decode [x02; x09; x00; x00; x01; x00] = decode [xa5; x19; x00; x00; x01; x00].
Proof.
  split; [reflexivity|].
  apply decode_ignores_tag_bits; [reflexivity|].
  intros i b b' Hb Hc.
  destruct i as [|[|[|[|[|[|i]]]]]]; cbn in Hb, Hc.
  - now left.
  - inversion Hb; inversion Hc; subst. right. left. split; reflexivity.
  - inversion Hb; inversion Hc; subst. right. right. reflexivity.
  - inversion Hb; inversion Hc; subst. right. right. reflexivity.
  - inversion Hb; inversion Hc; subst. right. right. reflexivity.
  - inversion Hb; inversion Hc; subst. right. right. reflexivity.
  - destruct i; discriminate Hb.
Defined.

End MeterFacts.


(** ** The channels of the power supply *)

Module ChannelFacts.
Import Py Hex SPD3303X SupplyFacts.

Lemma nth_rev_bin_pos : forall p k,
  nth k (rev (bin_pos p)) "0"%char
  = if Pos.testbit_nat p k then "1"%char else "0"%char.
Proof.
  induction p as [p IH|p IH|]; intros k; cbn [bin_pos].
  - rewrite rev_app_distr. cbn [rev app]. destruct k; [reflexivity|]. cbn. apply IH.
  - rewrite rev_app_distr. cbn [rev app]. destruct k; [reflexivity|]. cbn. apply IH.
  - destruct k as [|[|k]]; reflexivity.
Qed.

Lemma rev_repeat_same : forall (A : Type) (a : A) n, rev (repeat a n) = repeat a n.
Proof.
  intros A a n. induction n as [|n IH]; [reflexivity|].
  cbn [repeat rev]. rewrite IH. clear IH.
  induction n as [|n IH]; [reflexivity|]. cbn [repeat app]. now rewrite IH.
Qed.

Lemma nth_app_fill : forall (A : Type) (d : A) l m k,
  nth k (l ++ repeat d m) d = nth k l d.
Proof.
  intros A d l m k. destruct (Nat.lt_ge_cases k (List.length l)) as [H|H].
  - now apply app_nth1.
  - rewrite app_nth2 by exact H. rewrite nth_repeat. symmetry. now apply nth_overflow.
Qed.

Lemma bin_pos_length : forall p, 1 <= List.length (bin_pos p).
Proof.
  induction p; cbn [bin_pos]; try rewrite length_app; cbn [List.length]; lia.
Qed.

Lemma format_0_10b_length : forall n, 10 <= List.length (format_0_10b n).
Proof.
  intros n. unfold format_0_10b. rewrite length_app, repeat_length. lia.
Qed.

Lemma testbit_small : forall k p, Z.testbit (Z.pos p) (Z.of_nat k) = Pos.testbit_nat p k.
Proof.
  induction k as [|k IH]; intros p.
  - now destruct p.
  - rewrite Nat2Z.inj_succ, <- Z.div2_bits by lia.
    rewrite <- ?Z.div2_div.
    destruct p as [p|p|]; cbn [Z.div2 Pos.div2 Pos.testbit_nat]; try apply IH.
    apply Z.testbit_0_l.
Qed.

(** The character [k + 1] places from the end of the status text is
    the binary digit of weight [2^k]. *)
Lemma from_end_format : forall n k,
  (0 <= n)%Z -> k < 10 ->
  from_end (S k) (format_0_10b n)
  = Some (if Z.testbit n (Z.of_nat k) then "1"%char else "0"%char).
Proof.
  intros n k Hn Hk. unfold from_end.
  pose proof (format_0_10b_length n) as HL.
  replace (Nat.leb 1 (S k)) with true by reflexivity.
  replace (Nat.leb (S k) (List.length (format_0_10b n))) with true
    by (symmetry; apply Nat.leb_le; lia).
  cbn [andb].
  rewrite (nth_error_nth' _ "0"%char) by lia. f_equal.
  rewrite <- rev_nth by lia.
  unfold format_0_10b. rewrite rev_app_distr, rev_repeat_same, nth_app_fill.
  destruct n as [|p|p]; cbn [bin].
  - rewrite Z.testbit_0_l. destruct k as [|k]; [reflexivity|]. cbn. now destruct k.
  - rewrite nth_rev_bin_pos. now rewrite testbit_small.
  - lia.
Qed.

Section Channels.
Context {sock : Type} {net : Socket sock}.
Implicit Types (st : state sock) (v : value).

Lemma _command_effect : forall text st,
  exists st',
    _command text st = Return VNone st' /\
    wire st' = wire st ++ [text] /\
    same_limits st st'.
Proof.
  intros text st. unfold _command.
  destruct (sendall text (_socket st)); eexists; (split; [reflexivity|]); repeat split.
Qed.

Lemma limit_setter_never_stores :
  forall MAX text store not_allowed too_low v st,
    same_limits st
      (after (limit_setter MAX (_query text) store not_allowed too_low v st)).
Proof.
  intros MAX text store not_allowed too_low v st. unfold limit_setter.
  destruct (gt v (MAX st)) as [above|e]; [|repeat split].
  destruct (if above then Ok true else le v (VNum 0)) as [[|]|e] eqn:E;
    [repeat split| |repeat split].
  destruct (_query_reply text st) as (reply & st' & -> & Hr & HL & _).
  assert (exists q, v = VNum q) as [q ->].
  { destruct above; [discriminate|]. destruct v; try discriminate. eauto. }
  rewrite (lt_number_reply q Hr). exact HL.
Qed.

(** X8.  No value handed to any of the four limit setters is ever
    stored: a value outside the supply's range is refused with a
    message, every other one ends in an exception, so after any call
    the four channel limits are the ones the supply was constructed
    with. *)
Theorem limit_setters_never_store : forall v st,
  same_limits st (after (ch1_voltage_limit_setter v st)) /\
  same_limits st (after (ch1_current_limit_setter v st)) /\
  same_limits st (after (ch2_voltage_limit_setter v st)) /\
  same_limits st (after (ch2_current_limit_setter v st)).
Proof.
  intros v st. repeat split; apply limit_setter_never_stores.
Qed.

Section SetPoints.
Variable number_text : Q -> str.

Lemma set_point_setter_ceiling : forall limit prefix refused,
  keeps_to_ceiling number_text (set_point_setter number_text limit prefix refused)
    limit prefix.
Proof.
  intros limit prefix refused st q l HL. unfold set_point_setter. rewrite HL, le_numbers.
  split; intros H.
  - replace (Qle_bool q l) with true by (symmetry; now apply Qle_bool_iff).
    cbn [py_str]. apply _command_effect.
  - rewrite qle_bool_false by exact H. eexists. reflexivity.
Qed.

(** X9.  The software ceiling of the four set-point setters: a voltage
    or current not above the channel's own limit goes out as exactly one
    command, [CHn:voltage <text>] or [CHn:current <text>], whether or
    not the socket works; one above the limit is answered with a printed
    message and nothing is sent.  The limits are not changed. *)
Theorem set_point_setters_keep_to_ceiling :
  keeps_to_ceiling number_text (ch1_set_voltage_setter number_text)
    _ch1_voltage_limit (lit "CH1:voltage ") /\
  keeps_to_ceiling number_text (ch2_set_voltage_setter number_text)
    _ch2_voltage_limit (lit "CH2:voltage ") /\
  keeps_to_ceiling number_text (ch1_set_current_setter number_text)
    _ch1_current_limit (lit "CH1:current ") /\
  keeps_to_ceiling number_text (ch2_set_current_setter number_text)
    _ch2_current_limit (lit "CH2:current ").
Proof.
  split; [|split; [|split]]; apply set_point_setter_ceiling.
Qed.

(** X10.  A set-point setter has no lower bound: every number at or
    below zero is sent to the supply as long as the channel limit is
    not negative. *)
Theorem set_point_setters_accept_negative : forall st q l,
  _ch1_voltage_limit st = VNum l -> (0 <= l)%Q -> (q <= 0)%Q ->
  wire (after (ch1_set_voltage_setter number_text (VNum q) st))
  = wire st ++ [lit "CH1:voltage " ++ number_text q].
Proof.
  intros st q l HL H0 Hq.
  destruct (proj1 (@set_point_setter_ceiling _ch1_voltage_limit (lit "CH1:voltage ")
                     (not_set "CH1" "voltage") st q l HL)) as (st' & E & W & _).
  - now apply Qle_trans with 0%Q.
  - unfold ch1_set_voltage_setter. rewrite E. exact W.
Qed.

(** X11.  [reset_channels] with channel voltage limits that are not
    negative: it returns, and what it sends is, in this order, the two
    output-off commands and the two commands that set the voltages to
    zero, whatever the socket does; it ends with its message.  The
    limits are kept. *)
Theorem reset_channels_commands : forall st l1 l2,
  _ch1_voltage_limit st = VNum l1 -> _ch2_voltage_limit st = VNum l2 ->
  (0 <= l1)%Q -> (0 <= l2)%Q ->
  exists st',
    reset_channels number_text st = Return VNone st' /\
    wire st' = wire st ++ [lit "Output CH1,OFF"; lit "Output CH2,OFF";
                           lit "CH1:voltage " ++ number_text 0;
                           lit "CH2:voltage " ++ number_text 0] /\
    same_limits st st' /\
    last (stdout st') [] = lit "Both channels set to 0 and turned off".
Proof.
  intros st l1 l2 H1 H2 P1 P2. unfold reset_channels.
  unfold ch1_state_setter, ch2_state_setter, state_setter.
  replace (upper (lit "OFF")) with (lit "OFF") by reflexivity.
  destruct (_command_effect (lit "Output CH1," ++ lit "OFF") st) as (sa & -> & Wa & La).
  cbn [and_then].
  destruct (_command_effect (lit "Output CH2," ++ lit "OFF") sa) as (sb & -> & Wb & Lb).
  cbn [and_then].
  assert (H1b : _ch1_voltage_limit sb = VNum l1).
  { destruct La as (A & _), Lb as (B & _). congruence. }
  destruct (proj1 (@set_point_setter_ceiling _ch1_voltage_limit (lit "CH1:voltage ")
                     (not_set "CH1" "voltage") sb 0%Q l1 H1b) P1) as (sc & Ec & Wc & Lc).
  unfold ch1_set_voltage_setter. rewrite Ec. cbn [and_then].
  assert (H2c : _ch2_voltage_limit sc = VNum l2).
  { destruct La as (_ & _ & A & _), Lb as (_ & _ & B & _), Lc as (_ & _ & C & _).
    congruence. }
  destruct (proj1 (@set_point_setter_ceiling _ch2_voltage_limit (lit "CH2:voltage ")
                     (not_set "CH2" "voltage") sc 0%Q l2 H2c) P2) as (sd & Ed & Wd & Ld).
  unfold ch2_set_voltage_setter. rewrite Ed.
  eexists. split; [reflexivity|]. split; [|split].
  - cbn [print wire]. rewrite Wd, Wc, Wb, Wa. rewrite <- !app_assoc. reflexivity.
  - destruct La as (A1 & A2 & A3 & A4), Lb as (B1 & B2 & B3 & B4),
             Lc as (C1 & C2 & C3 & C4), Ld as (D1 & D2 & D3 & D4).
    unfold same_limits. cbn [print _ch1_voltage_limit _ch1_current_limit
                               _ch2_voltage_limit _ch2_current_limit].
    repeat split; congruence.
  - cbn [print stdout]. apply last_last.
Qed.

End SetPoints.

(** X12.  When the supply answers the status query with the
    hexadecimal text of a number [n >= 0], [ch1_state] is bit 4 of [n]
    and [ch2_state] is bit 5. *)
Theorem channel_states_are_status_bits : forall st s1 reply s2 n,
  sendall (lit "system:status?") (_socket st) = Some s1 ->
  recv 4096 s1 = Some (reply, s2) ->
  int_base16 (strip reply) = Ok n -> (0 <= n)%Z ->
  ch1_state st = Answer (Z.testbit n 4) (with_socket s2 [lit "system:status?"] st) /\
  ch2_state st = Answer (Z.testbit n 5) (with_socket s2 [lit "system:status?"] st).
Proof.
  intros st s1 reply s2 n H1 H2 Hn P.
  assert (S : system_status st
              = Answer (format_0_10b n) (with_socket s2 [lit "system:status?"] st)).
  { unfold system_status, _query. now rewrite H1, H2, Hn. }
  unfold ch1_state, ch2_state, status_digit. rewrite S.
  rewrite (@from_end_format n 4 P) by lia. rewrite (@from_end_format n 5 P) by lia.
  change (Z.of_nat 4) with 4%Z. change (Z.of_nat 5) with 5%Z.
  split; [destruct (Z.testbit n 4)|destruct (Z.testbit n 5)]; reflexivity.
Qed.

(** X13.  After a socket error (the send or the receive raises
    [OSError]) [_query] has returned [None], and [system_status],
    [ch1_state] and [ch2_state] end in the [TypeError] of
    [int(None, 16)]. *)
Theorem channel_state_after_socket_error : forall st,
  (sendall (lit "system:status?") (_socket st) = None \/
   exists s1, sendall (lit "system:status?") (_socket st) = Some s1 /\ recv 4096 s1 = None) ->
  exists st',
    system_status st = Failure (Exn TypeError) st' /\
    ch1_state st = Failure (Exn TypeError) st' /\
    ch2_state st = Failure (Exn TypeError) st' /\
    last (stdout st') [] = socket_error.
Proof.
  intros st H. unfold ch1_state, ch2_state, status_digit, system_status, _query.
  destruct H as [H|(s1 & H1 & H2)].
  - rewrite H. eexists. repeat split. cbn [print stdout]. apply last_last.
  - rewrite H1, H2. eexists. repeat split. cbn [print stdout]. apply last_last.
Qed.

End Channels.

(** With the 32 V limit of channel 1, 12 V is sent and 40 V is refused. *)
Lemma set_point_setters_keep_to_ceiling_witness :
  (exists st',
      ch1_set_voltage_setter whole_number_text (VNum (12 # 1)) live_supply
      = Return VNone st' /\
      wire st' = [lit "CH1:voltage 12"]) /\
  (exists msg,
      ch1_set_voltage_setter whole_number_text (VNum (40 # 1)) live_supply
      = Return VNone (print msg live_supply)).
Proof.
  pose proof (proj1 (@set_point_setters_keep_to_ceiling test_socket test_socket_calls
                       whole_number_text)) as K.
  split.
  - destruct (proj1 (K live_supply (12 # 1)%Q (32 # 1)%Q eq_refl) ltac:(discriminate))
      as (st' & E & W & _).
    exists st'. split; [exact E|exact W].
  - exact (proj2 (K live_supply (40 # 1)%Q (32 # 1)%Q eq_refl) eq_refl).
Defined.

(** With the 32 V limit, -5 V is sent. *)
Lemma set_point_setters_accept_negative_witness :
  wire (after (ch1_set_voltage_setter whole_number_text (VNum (-5 # 1)) live_supply))
  = [lit "CH1:voltage -5"].
Proof.
  exact (@set_point_setters_accept_negative test_socket test_socket_calls
           whole_number_text live_supply (-5 # 1)%Q (32 # 1)%Q eq_refl
           ltac:(discriminate) ltac:(discriminate)).
Defined.

(** The start-up reset on a lost connection still returns. *)
Lemma reset_channels_commands_witness :
  exists st',
    reset_channels whole_number_text lost_supply = Return VNone st' /\
    wire st' = [lit "Output CH1,OFF"; lit "Output CH2,OFF";
                lit "CH1:voltage 0"; lit "CH2:voltage 0"] /\
    same_limits lost_supply st' /\
    last (stdout st') [] = lit "Both channels set to 0 and turned off".
Proof.
  exact (@reset_channels_commands test_socket test_socket_calls whole_number_text
           lost_supply (32 # 1)%Q (32 # 1)%Q eq_refl eq_refl
           ltac:(discriminate) ltac:(discriminate)).
Defined.

(** Status word [0x30]: both outputs are on. *)
Lemma channel_states_are_status_bits_witness :
  ch1_state status_supply
  = Answer true (with_socket (_socket status_supply) [lit "system:status?"] status_supply) /\
  ch2_state status_supply
  = Answer true (with_socket (_socket status_supply) [lit "system:status?"] status_supply).
Proof.
  exact (@channel_states_are_status_bits test_socket test_socket_calls status_supply
           (_socket status_supply) (lit "0x30") (_socket status_supply) 48%Z
           eq_refl eq_refl eq_refl ltac:(discriminate)).
Defined.

Lemma channel_state_after_socket_error_witness :
  exists st', ch1_state lost_supply = Failure (Exn TypeError) st'.
Proof.
  destruct (@channel_state_after_socket_error test_socket test_socket_calls lost_supply
              (or_introl eq_refl)) as (st' & _ & H & _).
  exists st'. exact H.
Defined.

End ChannelFacts.


(** ** The oven between construction and disposal *)

Module ControllerFacts.
Import Py Oven OvenFacts.

Section Assembly.
Context {supply : Type} {bench : PowerSupply supply}.
Context {daq : Type} {thermometer : TemperatureDaq daq}.
Context {controller : PIDObject}.
Implicit Types (a : assembly supply daq) (act : action supply).

(** What one action adds: a call of [update_supply] takes one reading,
    and writes once on the oven's channel if the reading was delivered;
    the other actions read and write nothing.  The channel and the heater
    stay. *)
Lemma perform_fields : forall act a,
  exists R,
    readings (perform act a) = readings a ++ R /\
    List.length R = (if is_tick act then 1 else 0) /\
    map fst (written (self (perform act a)))
    = map fst (written (self a))
        ++ repeat (snd (_supply_and_channel (self a)))
                  (List.length (filter delivered R)) /\
    snd (_supply_and_channel (self (perform act a)))
    = snd (_supply_and_channel (self a)) /\
    _heater (self (perform act a)) = _heater (self a).
Proof.
  intros act a. destruct act as [now|t|st|ps]; cbn [perform is_tick].
  - exists [fst (current_temp a)]. rewrite update_supply_readings.
    split; [reflexivity|]. split; [reflexivity|].
    destruct (update_supply_forwards now a) as [F G].
    destruct (current_temp a) as [[t|e] a1] eqn:E; cbn [fst filter delivered List.length repeat].
    + destruct (G t a1 eq_refl) as (a2 & -> & W & _ & H & C & _). cbn [ended].
      rewrite W, map_app. cbn [map fst]. auto.
    + destruct (F e a1 eq_refl) as [-> S]. cbn [ended]. rewrite S, app_nil_r. auto.
  - exists []. cbn [with_oven self filter List.length repeat]. rewrite !app_nil_r.
    unfold set_temperature_setter.
    destruct (Oven.qltb (MAX_temp (_heater (self a))) t); cbn [after _supply_and_channel
      _heater written]; auto.
  - exists []. cbn [with_oven self filter List.length repeat]. rewrite !app_nil_r.
    cbn. auto.
  - exists []. cbn [with_oven self filter List.length repeat]. rewrite !app_nil_r.
    cbn. auto.
Qed.

Lemma run_fields : forall acts a,
  exists R,
    readings (run acts a) = readings a ++ R /\
    List.length R = List.length (filter is_tick acts) /\
    map fst (written (self (run acts a)))
    = map fst (written (self a))
        ++ repeat (snd (_supply_and_channel (self a)))
                  (List.length (filter delivered R)) /\
    snd (_supply_and_channel (self (run acts a)))
    = snd (_supply_and_channel (self a)) /\
    _heater (self (run acts a)) = _heater (self a).
Proof.
  induction acts as [|act acts IH]; intros a.
  - exists []. cbn. rewrite !app_nil_r. auto.
  - cbn [run fold_left]. fold (run acts (perform act a)).
    destruct (IH (perform act a)) as (R1 & E1 & L1 & W1 & C1 & H1).
    destruct (perform_fields act a) as (R0 & E0 & L0 & W0 & C0 & H0).
    exists (R0 ++ R1). rewrite E1, E0, W1, W0, C1, C0, H1, H0.
    split; [now rewrite app_assoc|]. split.
    + rewrite length_app, L0, L1. cbn [filter]. destruct (is_tick act); reflexivity.
    + split; [|auto]. rewrite <- app_assoc. f_equal.
      rewrite filter_app, length_app, repeat_app. reflexivity.
Qed.


End Assembly.


End ControllerFacts.


(** ** The temperature DAQs *)

Module DaqFacts.
Import Py MCC_Device MeterFacts.

Lemma has_key_in : forall V (d : list (str * V)) key,
  has_key key d = true <-> In key (map fst d).
Proof.
  intros V d key. unfold has_key. pose proof (lookup_none d key) as H.
  destruct (lookup key d).
  - split; [|reflexivity]. intros _.
    destruct (in_dec (list_eq_dec ascii_dec) key (map fst d)) as [I|N]; [exact I|].
    apply H in N. discriminate.
  - split; [discriminate|]. intros I. exfalso. now apply (proj1 H).
Qed.

(** The letters and their codes, both ways. *)
Lemma tc_letters : forall t,
  In t (map fst tc_code_dict) ->
  exists val,
    lookup t tc_code_dict = Some val /\ lookup (upper t) tc_code_dict = Some val /\
    (1 <= val <= 8)%Z /\ lookup_int val tc_letter_dict = Some t.
Proof.
  intros t H. cbn in H.
  repeat (destruct H as [<-|H];
          [eexists; repeat split; try reflexivity; lia|]).
  destruct H.
Qed.

Lemma tc_codes_letters : forall code,
  (1 <= code <= 8)%Z ->
  exists letter, lookup_int code tc_letter_dict = Some letter /\
                 lookup letter tc_code_dict = Some code.
Proof.
  intros code H.
  assert (C : (code = 1 \/ code = 2 \/ code = 3 \/ code = 4 \/ code = 5 \/ code = 6
               \/ code = 7 \/ code = 8)%Z) by lia.
  repeat (destruct C as [->|C]; [eexists; split; reflexivity|]).
  subst. eexists; split; reflexivity.
Qed.

Lemma tc_codes_unknown : forall code,
  (code < 1 \/ 8 < code)%Z -> lookup_int code tc_letter_dict = @None str.
Proof.
  intros code H. cbn [lookup_int tc_letter_dict].
  repeat match goal with
         | |- context [(code =? ?k)%Z] =>
             replace (code =? k)%Z with false by (symmetry; apply Z.eqb_neq; lia)
         end.
  reflexivity.
Qed.

Section Device.
Context {lib : Type} {UL : UniversalLibrary lib}.
Implicit Types (w : world lib).

Lemma channel_found : forall channel w n,
  get_config NUMTEMPCHANS (_board_number (self w)) 0 (ul w) = Gives n ->
  (0 <= channel <= n)%Z -> check_channel channel w = Return tt w.
Proof.
  intros channel w n Hn H. unfold check_channel, number_temp_channels. rewrite Hn.
  replace (0 <=? channel)%Z with true by (symmetry; apply Z.leb_le; lia).
  replace (channel <=? n)%Z with true by (symmetry; apply Z.leb_le; lia).
  reflexivity.
Qed.

Lemma channel_missing : forall channel w n,
  get_config NUMTEMPCHANS (_board_number (self w)) 0 (ul w) = Gives n ->
  (channel < 0 \/ n < channel)%Z -> check_channel channel w = Raise (Exn ValueError) w.
Proof.
  intros channel w n Hn H. unfold check_channel, number_temp_channels. rewrite Hn.
  destruct (0 <=? channel)%Z eqn:E; [|reflexivity].
  apply Z.leb_le in E.
  replace (channel <=? n)%Z with false by (symmetry; apply Z.leb_gt; lia).
  reflexivity.
Qed.

Lemma check_channel_world : forall channel w r w',
  check_channel channel w = Return r w' ->
  w' = w /\
  exists n, get_config NUMTEMPCHANS (_board_number (self w)) 0 (ul w) = Gives n /\
            (0 <= channel <= n)%Z.
Proof.
  intros channel w r w'. unfold check_channel, number_temp_channels.
  destruct (0 <=? channel)%Z eqn:E0; [|discriminate].
  destruct (get_config NUMTEMPCHANS (_board_number (self w)) 0 (ul w)) as [n|e];
    [|discriminate].
  destruct (channel <=? n)%Z eqn:E1; [|discriminate].
  intros H. inversion H; subst. split; [reflexivity|].
  exists n. split; [reflexivity|]. apply Z.leb_le in E0, E1. lia.
Qed.

Lemma check_channel_self : forall channel w,
  match check_channel channel w with
  | Return _ w1 => w1 = w
  | Raise _ w1 => w1 = w
  end.
Proof.
  intros channel w. unfold check_channel, number_temp_channels.
  destruct (0 <=? channel)%Z; [|reflexivity].
  destruct (get_config NUMTEMPCHANS (_board_number (self w)) 0 (ul w)); [|reflexivity].
  destruct (channel <=? a)%Z; reflexivity.
Qed.

(** X16.  [set_thermocuple_type] on a channel from 0 to the number of
    temperature channels: the eight capital letters J, K, T, E, R, S, B
    and N are passed on to the board as the codes 1 to 8, and every
    other text, the lower-case letters included, raises [ValueError]
    with nothing written. *)
Theorem set_thermocuple_type_accepts_capitals_only :
  forall channel new_tc_type w n,
    get_config NUMTEMPCHANS (_board_number (self w)) 0 (ul w) = Gives n ->
    (0 <= channel <= n)%Z ->
    (In new_tc_type (map fst tc_code_dict) ->
       exists val,
         lookup new_tc_type tc_code_dict = Some val /\ (1 <= val <= 8)%Z /\
         set_thermocuple_type channel new_tc_type w
         = match set_config CHANTCTYPE (_board_number (self w)) channel val (ul w) with
           | Gives l' => Return tt (with_ul l' w)
           | Fails e => Raise e w
           end) /\
    (~ In new_tc_type (map fst tc_code_dict) ->
       set_thermocuple_type channel new_tc_type w = Raise (Exn ValueError) w).
Proof.
  intros channel t w n Hn Hc. unfold set_thermocuple_type.
  rewrite (@channel_found channel w n Hn Hc). split; intros H.
  - destruct (tc_letters H) as (val & L & U & R & _).
    exists val. split; [exact L|]. split; [exact R|].
    replace (has_key t tc_code_dict) with true by (symmetry; now apply has_key_in).
    cbn [negb]. rewrite U. reflexivity.
  - replace (has_key t tc_code_dict) with false; [reflexivity|].
    symmetry. destruct (has_key t tc_code_dict) eqn:E; [|reflexivity].
    apply has_key_in in E. contradiction.
Qed.

(** X17.  On a board that keeps what is written to it (a thermocouple
    code written for a channel is the code read back, and the number of
    channels is not affected), a thermocouple type that
    [set_thermocuple_type] has set is the one [get_thermocouple_type]
    returns for that channel. *)
Theorem thermocouple_type_round_trip :
  forall channel new_tc_type w w',
    (forall b dev val l l',
        set_config CHANTCTYPE b dev val l = Gives l' ->
        get_config CHANTCTYPE b dev l' = Gives val /\
        get_config NUMTEMPCHANS b 0 l' = get_config NUMTEMPCHANS b 0 l) ->
    set_thermocuple_type channel new_tc_type w = Return tt w' ->
    get_thermocouple_type channel w' = Return new_tc_type w'.
Proof.
  intros channel t w w' Law. unfold set_thermocuple_type.
  destruct (check_channel channel w) as [u w1|e w1] eqn:Hc; [|discriminate].
  destruct (@check_channel_world _ _ _ _ Hc) as (-> & n & Hn & Hr).
  destruct (has_key t tc_code_dict) eqn:Hk; cbn [negb]; [|discriminate].
  apply has_key_in in Hk. destruct (tc_letters Hk) as (val & _ & U & _ & Back).
  rewrite U.
  destruct (set_config CHANTCTYPE (_board_number (self w)) channel val (ul w))
    as [l'|e] eqn:Hs; [|discriminate].
  intros E. inversion E; subst w'. clear E.
  destruct (Law _ _ _ _ _ Hs) as (G & N).
  unfold get_thermocouple_type.
  rewrite (@channel_found channel (with_ul l' w) n); [|cbn [with_ul self ul]; congruence|exact Hr].
  cbn [with_ul self ul]. rewrite G, Back. reflexivity.
Qed.

(** X18.  [get_thermocouple_type] with [n] temperature channels: a
    channel below 0 or above [n] raises [ValueError], while channel [n]
    itself, one past the last channel, is let through to the board; a
    code from 1 to 8 read from the board gives its letter, and any other
    code, such as the 0 of a channel that was never configured, ends in
    [KeyError]. *)
Theorem get_thermocouple_type_outcomes :
  forall channel w n,
    get_config NUMTEMPCHANS (_board_number (self w)) 0 (ul w) = Gives n ->
    ((channel < 0 \/ n < channel)%Z ->
       get_thermocouple_type channel w = Raise (Exn ValueError) w) /\
    (forall code,
        (0 <= channel <= n)%Z ->
        get_config CHANTCTYPE (_board_number (self w)) channel (ul w) = Gives code ->
        ((1 <= code <= 8)%Z ->
           exists letter, get_thermocouple_type channel w = Return letter w /\
                          lookup letter tc_code_dict = Some code) /\
        ((code < 1 \/ 8 < code)%Z ->
           get_thermocouple_type channel w = Raise (Exn KeyError) w)).
Proof.
  intros channel w n Hn. unfold get_thermocouple_type. split.
  - intros H. now rewrite (@channel_missing channel w n Hn H).
  - intros code Hc Hg. rewrite (@channel_found channel w n Hn Hc), Hg. split; intros H.
    + destruct (tc_codes_letters H) as (letter & L & B). rewrite L. now exists letter.
    + now rewrite (tc_codes_unknown H).
Qed.

Lemma get_temp_outcomes : forall channel u averaged w sc,
  get_TempScale_unit (lower u) = Gives sc ->
  get_temp channel (Some u) averaged w
  = match t_in (_board_number (self w)) channel sc averaged (ul w) with
    | (Gives out, l) => Return out (with_ul l w)
    | (Fails e, l) => Raise e (with_ul l w)
    end.
Proof. intros channel u averaged w sc H. unfold get_temp. now rewrite H. Qed.

Lemma missing_app : forall A (a b : list (option A)),
  missing (a ++ b) = missing a + missing b.
Proof. intros A a b. unfold missing. now rewrite filter_app, length_app. Qed.

Lemma scan_entries : forall channels u averaged sc out w,
  get_TempScale_unit (lower u) = Gives sc ->
  (forall b channel filter l e l',
      t_in b channel sc filter l = (Fails e, l') -> e = ULError) ->
  exists out' w',
    scan channels (Some u) averaged out w = Return (out ++ out') w' /\
    List.length out' = List.length channels /\
    self w' = self w /\
    List.length (stdout w') = List.length (stdout w) + missing out'.
Proof.
  induction channels as [|channel rest IH]; intros u averaged sc out w Hu Hlib.
  - exists [], w. cbn. rewrite app_nil_r. auto.
  - cbn [scan]. rewrite get_temp_outcomes with (sc := sc) by exact Hu.
    destruct (t_in (_board_number (self w)) channel sc averaged (ul w)) as [[t|e] l] eqn:Ht.
    + destruct (IH u averaged sc (out ++ [Some t]) (with_ul l w) Hu Hlib)
        as (out' & w' & E & L & S & P).
      exists (Some t :: out'), w'. rewrite E, <- app_assoc. cbn [app List.length].
      split; [reflexivity|]. split; [now rewrite L|]. split; [exact S|].
      rewrite P. reflexivity.
    + rewrite (Hlib _ _ _ _ _ _ Ht).
      destruct (IH u averaged sc (out ++ [None])
                  (print (could_not_read channel) (with_ul l w)) Hu Hlib)
        as (out' & w' & E & L & S & P).
      exists (None :: out'), w'. rewrite E, <- app_assoc. cbn [app List.length].
      split; [reflexivity|]. split; [now rewrite L|]. split; [exact S|].
      rewrite P. cbn [print stdout with_ul]. rewrite length_app. cbn [List.length].
      change (None :: out') with ([@None reading] ++ out'). rewrite missing_app.
      cbn. lia.
Qed.

Lemma range_length : forall low stop, List.length (range low stop) = Z.to_nat (stop - low).
Proof. intros low stop. unfold range. now rewrite length_map, length_seq. Qed.


Lemma scan_self : forall channels units averaged out w,
  self (after (scan channels units averaged out w)) = self w.
Proof.
  induction channels as [|channel rest IH]; intros units averaged out w; [reflexivity|].
  cbn [scan].
  assert (G : self (after (get_temp channel units averaged w)) = self w).
  { unfold get_temp.
    destruct (match units with None => _default_units (self w) | Some _ => units end);
      [|reflexivity].
    destruct (get_TempScale_unit (lower s)); [|reflexivity].
    destruct (t_in _ _ _ _ _) as [[t|e] l]; reflexivity. }
  destruct (get_temp channel units averaged w) as [t w1|e w1]; cbn [after] in G.
  - now rewrite IH.
  - destruct e; try exact G. now rewrite IH.
Qed.

Lemma perform_identity : forall a w,
  _is_connected (self w) = true -> is_disconnect a = false ->
  self (perform a w) = self w.
Proof.
  intros a w Hc Ha. destruct a; cbn [perform]; try discriminate Ha.
  - unfold connect.
    assert (K : forall w0 : world lib,
              self w0 = self w ->
              self (after
                (let w1 := with_ul (ignore_instacal (ul w0)) w0 in
                 let found :=
                   match get_net_device_descriptor ip port 2000 (ul w1) with
                   | Fails (Exn AttributeError) =>
                       get_net_device_descriptor (_ip4_address (self w1)) port 20000 (ul w1)
                   | r => r
                   end in
                 match found with
                 | Fails e => Raise e w1
                 | Gives dscrptr =>
                     match create_daq_device (_board_number (self w1)) dscrptr (ul w1) with
                     | Fails e => Raise e w1
                     | Gives l' => Return tt (with_self (connected (self w1)) (with_ul l' w1))
                     end
                 end)) = self w).
    { intros w0 E. cbv zeta.
      destruct (match get_net_device_descriptor ip port 2000 _ with
                | Fails (Exn AttributeError) => _ | r => r end) as [d|e];
        [|exact E].
      destruct (create_daq_device _ d _) as [l'|e]; [|exact E].
      cbn [after with_self self with_ul]. rewrite E.
      destruct (self w) as [b i p u c]. cbn in Hc. subst c. reflexivity. }
    destruct (_ip4_address (self w)), ip; try (apply K; reflexivity). reflexivity.
  - unfold board_number_setter. now rewrite Hc.
  - unfold ip4_address_setter. now rewrite Hc.
  - unfold port_setter. now rewrite Hc.
  - unfold set_thermocuple_type.
    pose proof (check_channel_self channel w) as K.
    destruct (check_channel channel w) as [u w1|e w1]; subst w1; [|reflexivity].
    destruct (negb (has_key new_tc_type tc_code_dict)); [reflexivity|].
    destruct (lookup (upper new_tc_type) tc_code_dict); [|reflexivity].
    destruct (set_config _ _ _ _ _); reflexivity.
  - unfold get_temp_scan. apply scan_self.
Qed.

(** X20.  While a device is connected its board number, address and
    port cannot be changed: through any sequence of calls without
    [disconnect] (the three setters, which raise [AttributeError],
    [connect] again, thermocouple settings and scans) the device stays
    connected and keeps the three values it was connected with. *)
Theorem connected_identity_is_fixed :
  forall (acts : list action) w,
    _is_connected (self w) = true ->
    forallb (fun a => negb (is_disconnect a)) acts = true ->
    self (run acts w) = self w.
Proof.
  induction acts as [|a acts IH]; intros w Hc Ha; [reflexivity|].
  cbn [forallb] in Ha. apply andb_true_iff in Ha. destruct Ha as [Ha Hr].
  apply negb_true_iff in Ha.
  cbn [run fold_left]. fold (run acts (perform a w)).
  pose proof (perform_identity a w Hc Ha) as E.
  rewrite IH; [exact E| |exact Hr]. now rewrite E.
Qed.

End Device.

(** On the test board the letter K is written as code 2 and k is
    refused. *)
Lemma set_thermocuple_type_accepts_capitals_only_witness :
  (exists val,
      lookup (lit "K") tc_code_dict = Some val /\ (1 <= val <= 8)%Z /\
      set_thermocuple_type 1 (lit "K") test_device
      = match set_config CHANTCTYPE (_board_number (self test_device)) 1 val
                (ul test_device) with
        | Gives l' => Return tt (with_ul l' test_device)
        | Fails e => Raise e test_device
        end) /\
  set_thermocuple_type 1 (lit "k") test_device = Raise (Exn ValueError) test_device.
Proof.
  pose proof (@set_thermocuple_type_accepts_capitals_only test_board test_library
                1%Z (lit "K") test_device 4%Z eq_refl ltac:(lia)) as [A _].
  pose proof (@set_thermocuple_type_accepts_capitals_only test_board test_library
                1%Z (lit "k") test_device 4%Z eq_refl ltac:(lia)) as [_ B].
  split.
  - apply A. cbn. auto.
  - apply B. cbn. intros H.
    repeat (destruct H as [H|H]; [discriminate H|]). exact H.
Defined.

Lemma test_library_keeps : forall b dev val (l l' : test_board),
  set_config CHANTCTYPE b dev val l = Gives l' ->
  get_config CHANTCTYPE b dev l' = Gives val /\
  get_config NUMTEMPCHANS b 0 l' = get_config NUMTEMPCHANS b 0 l.
Proof.
  intros b dev val l l' H. cbn in H. inversion H; subst l'. clear H.
  cbn. now rewrite Z.eqb_refl.
Defined.

(** Type T set on channel 3 of the test board is read back. *)
Lemma thermocouple_type_round_trip_witness :
  get_thermocouple_type 3 (after (set_thermocuple_type 3 (lit "T") test_device))
  = Return (lit "T") (after (set_thermocuple_type 3 (lit "T") test_device)).
Proof.
  apply (@thermocouple_type_round_trip test_board test_library 3%Z (lit "T")
           test_device _ test_library_keeps).
  reflexivity.
Defined.

(** The test board has four channels: channel 4 is let through, and its
    unset code 0 ends in [KeyError]; channel 5 is refused. *)
Lemma get_thermocouple_type_outcomes_witness :
  get_thermocouple_type 5 test_device = Raise (Exn ValueError) test_device /\
  get_thermocouple_type 4 test_device = Raise (Exn KeyError) test_device.
Proof.
  pose proof (@get_thermocouple_type_outcomes test_board test_library 5%Z test_device
                4%Z eq_refl) as [A _].
  pose proof (@get_thermocouple_type_outcomes test_board test_library 4%Z test_device
                4%Z eq_refl) as [_ B].
  split.
  - apply A. right. reflexivity.
  - apply (proj2 (B 0%Z ltac:(lia) eq_refl)). left. reflexivity.
Defined.

Lemma test_library_fails_with_ULError :
  forall b channel filter (l : test_board) e l',
    t_in b channel 0%Z filter l = (Fails e, l') -> e = ULError.
Proof.
  intros b channel filter l e l'. cbn.
  destruct (channel =? broken_channel l)%Z; intros H; inversion H; reflexivity.
Defined.


(** The connected test device keeps board number 0 and its address. *)
Lemma connected_identity_is_fixed_witness :
  self (run [SetBoardNumber 7; SetAddress None; Connect None (Some 54211%Z);
             SetPort (Some 80%Z); Scan 0 3 None true]
          test_device)
  = self test_device.
Proof.
  apply (@connected_identity_is_fixed test_board test_library); reflexivity.
Defined.

End DaqFacts.


(** ** The Linux DAQ, Ethernet devices and the power-supply base class *)

Module LinuxFacts.
Import Py MCC_Device_Linux.

Section Device.
Context {ai : Type} {AI : AiDevice ai}.
Implicit Types (w : world ai).

(** X21.  [MCC_Device_Linux.get_temp_scan] hands the method
    [units.lower], not its result, to [get_TempScale_unit]: whatever
    the channels and the units, given or default, the call ends in
    [AttributeError] and the input device is never asked for a
    reading. *)
Theorem linux_get_temp_scan_always_raises :
  forall low_channel high_channel units w,
    get_temp_scan low_channel high_channel units w = Raise (Exn AttributeError) w.
Proof.
  intros low high units w. unfold get_temp_scan.
  destruct units as [|s|s]; cbn [is_none]; try reflexivity.
  destruct (_default_units w) as [|s|s]; reflexivity.
Qed.

Lemma lower_char_idem : forall c, lower_char (lower_char c) = lower_char c.
Proof.
  intros c. destruct c as [[] [] [] [] [] [] [] []]; reflexivity.
Qed.

Lemma lower_idem : forall s, lower (lower s) = lower s.
Proof.
  intros s. unfold lower. rewrite map_map. apply map_ext. apply lower_char_idem.
Qed.

Lemma upper_lower_char : forall c, upper_char (lower_char c) = upper_char c.
Proof.
  intros c. destruct c as [[] [] [] [] [] [] [] []]; reflexivity.
Qed.

Lemma upper_lower : forall s, upper (lower s) = upper s.
Proof.
  intros s. unfold upper, lower. rewrite map_map. apply map_ext. apply upper_lower_char.
Qed.

(** X22.  [MCC_Device_Linux.get_temp] reads a channel exactly when the
    units, lower-cased, are one of [celsius], [fahrenheit], [kelvin],
    [volts] and [raw], in any mix of cases; for every other text, the
    one-letter forms included, it raises [KeyError] without asking the
    device. *)
Theorem linux_get_temp_units :
  forall channel_n u w,
    (forall sc, lookup (lower u) units_dict = Some sc ->
       get_temp channel_n (OStr u) w
       = match t_in channel_n sc (ai_device w) with
         | (Gives out, a) => Return out (with_ai a w)
         | (Fails e, a) => Raise e (with_ai a w)
         end) /\
    (lookup (lower u) units_dict = None ->
       get_temp channel_n (OStr u) w = Raise (Exn KeyError) w).
Proof.
  intros channel_n u w. unfold get_temp, get_TempScale_unit.
  cbn [is_none getattr_lower call Py.bind]. rewrite lower_idem.
  split; [intros sc H|intros H]; rewrite H; reflexivity.
Qed.

End Device.

(** [Kelvin] is read on scale 3; [k] is not a key. *)
Lemma linux_get_temp_units_witness :
  get_temp 2 (OStr (lit "Kelvin")) {| _default_units := ONone; ai_device := 0 |}
  = Return 22%Z {| _default_units := ONone; ai_device := 1 |} /\
  get_temp 2 (OStr (lit "k")) {| _default_units := ONone; ai_device := 0 |}
  = Raise (Exn KeyError) {| _default_units := ONone; ai_device := 0 |}.
Proof.
  pose proof (@linux_get_temp_units nat counting_device 2%Z (lit "Kelvin")
                {| _default_units := ONone; ai_device := 0 |}) as [A _].
  pose proof (@linux_get_temp_units nat counting_device 2%Z (lit "k")
                {| _default_units := ONone; ai_device := 0 |}) as [_ B].
  split; [exact (A 3%Z eq_refl)|exact (B eq_refl)].
Defined.

End LinuxFacts.

Module PlatformFacts.
Import Py MCC_Device MCC_Device_Linux MeterFacts DaqFacts LinuxFacts.

(** X23.  The lower-case thermocouple letters on the two platforms: on
    a channel the board has, [MCC_Device.set_thermocuple_type] refuses
    them with [ValueError], while [MCC_Device_Linux.set_thermocouple_type]
    treats them as the capital letters. *)
Theorem lower_case_thermocouple_letters :
  forall lib (UL : MCC_Device.UniversalLibrary lib) ai (AI : MCC_Device_Linux.AiDevice ai)
         channel t n (w : MCC_Device.world lib) (v : MCC_Device_Linux.world ai),
    In t (map fst MCC_Device.tc_code_dict) ->
    MCC_Device.get_config MCC_Device.NUMTEMPCHANS
      (MCC_Device._board_number (MCC_Device.self w)) 0 (MCC_Device.ul w) = Gives n ->
    (0 <= channel <= n)%Z ->
    MCC_Device.set_thermocuple_type channel (lower t) w
    = MCC_Device.Raise (Exn ValueError) w /\
    MCC_Device_Linux.set_thermocouple_type channel (lower t) v
    = MCC_Device_Linux.set_thermocouple_type channel t v /\
    exists val,
      lookup t MCC_Device_Linux.tc_type_dict = Some val /\
      MCC_Device_Linux.set_thermocouple_type channel t v
      = match MCC_Device_Linux.set_chan_tc_type channel val
                (MCC_Device_Linux.ai_device v) with
        | (Gives _, a) => MCC_Device_Linux.Return tt (MCC_Device_Linux.with_ai a v)
        | (Fails e, a) => MCC_Device_Linux.Raise e (MCC_Device_Linux.with_ai a v)
        end.
Proof.
  intros lib UL ai AI channel t n w v Ht Hn Hc. split; [|split].
  - unfold MCC_Device.set_thermocuple_type.
    rewrite (@channel_found lib UL channel w n Hn Hc).
    replace (has_key (lower t) MCC_Device.tc_code_dict) with false; [reflexivity|].
    cbn in Ht.
    repeat (destruct Ht as [<-|Ht]; [reflexivity|]). destruct Ht.
  - unfold MCC_Device_Linux.set_thermocouple_type. now rewrite upper_lower.
  - destruct (tc_letters Ht) as (val & L & U & _).
    exists val. split; [exact L|].
    unfold MCC_Device_Linux.set_thermocouple_type.
    change MCC_Device_Linux.tc_type_dict with MCC_Device.tc_code_dict.
    now rewrite U.
Qed.

(** The letter k on channel 1. *)
Lemma lower_case_thermocouple_letters_witness :
  MCC_Device.set_thermocuple_type 1 (lit "k") MCC_Device.test_device
  = MCC_Device.Raise (Exn ValueError) MCC_Device.test_device /\
  MCC_Device_Linux.set_thermocouple_type 1 (lit "k")
    {| MCC_Device_Linux._default_units := MCC_Device_Linux.ONone;
       MCC_Device_Linux.ai_device := 0 |}
  = MCC_Device_Linux.Return tt
      {| MCC_Device_Linux._default_units := MCC_Device_Linux.ONone;
         MCC_Device_Linux.ai_device := 1 |}.
Proof.
  destruct (@lower_case_thermocouple_letters
              MCC_Device.test_board MCC_Device.test_library
              nat MCC_Device_Linux.counting_device
              1%Z (lit "K") 4%Z MCC_Device.test_device
              {| MCC_Device_Linux._default_units := MCC_Device_Linux.ONone;
                 MCC_Device_Linux.ai_device := 0 |}
              ltac:(cbn; auto) eq_refl ltac:(lia)) as (A & B & val & L & C).
  split; [exact A|].
  change (lower (lit "K")) with (lit "k") in B. rewrite B, C.
  inversion L. reflexivity.
Defined.

End PlatformFacts.

Module EthernetFacts.
Import Py SocketEthernetDevice MeterFacts.

Lemma lower_char_y : forall c,
  lower_char c = "y"%char -> c = "y"%char \/ c = "Y"%char.
Proof.
  intros c. destruct c as [[] [] [] [] [] [] [] []]; vm_compute; intros H;
    try discriminate H; auto.
Qed.

Lemma lower_is_y : forall s,
  str_eqb (lower s) (lit "y") = true <-> s = lit "y" \/ s = lit "Y".
Proof.
  intros s. rewrite str_eqb_eq. split.
  - destruct s as [|c [|c' s]]; try discriminate.
    intros H. cbn in H. inversion H as [Hc].
    destruct (lower_char_y c Hc) as [->| ->]; auto.
  - intros [->| ->]; reflexivity.
Qed.

(** X24.  The [ip4_address] and [port] setters of an Ethernet device
    store the new value exactly when the line typed at the prompt is
    [y] or [Y]; after any other answer, [yes] or a padded [y ] included,
    the device is what it was. *)
Theorem setters_need_a_typed_y :
  forall sock (d : device sock) new_ip new_port user_in,
    (user_in = lit "y" \/ user_in = lit "Y" ->
       _ip4_address (ip4_address_setter new_ip user_in d) = new_ip /\
       _port (port_setter new_port user_in d) = new_port) /\
    (user_in <> lit "y" -> user_in <> lit "Y" ->
       ip4_address_setter new_ip user_in d = d /\
       port_setter new_port user_in d = d).
Proof.
  intros sock d new_ip new_port user_in.
  unfold ip4_address_setter, port_setter. split.
  - intros H. apply lower_is_y in H. now rewrite H.
  - intros H1 H2. destruct (str_eqb (lower user_in) (lit "y")) eqn:E; [|auto].
    apply lower_is_y in E. tauto.
Qed.

(** The answer [yes] changes nothing, [Y] does. *)
Lemma setters_need_a_typed_y_witness :
  port_setter 5025 (lit "yes")
    {| _ip4_address := None; _port := 50000; _socket := @None unit |}
  = {| _ip4_address := None; _port := 50000; _socket := None |} /\
  _port (port_setter 5025 (lit "Y")
           {| _ip4_address := None; _port := 50000; _socket := @None unit |})
  = 5025%Z.
Proof.
  pose proof (@setters_need_a_typed_y unit
                {| _ip4_address := None; _port := 50000; _socket := None |}
                None 5025%Z (lit "yes")) as [_ A].
  pose proof (@setters_need_a_typed_y unit
                {| _ip4_address := None; _port := 50000; _socket := None |}
                None 5025%Z (lit "Y")) as [B _].
  split.
  - apply A; discriminate.
  - apply B. right. reflexivity.
Defined.

End EthernetFacts.

Module BaseSupplyFacts.
Import Py PowerSupply.

Lemma flat_map_length_const : forall A B (f : A -> list B) k l,
  (forall a, List.length (f a) = k) -> List.length (flat_map f l) = k * List.length l.
Proof.
  intros A B f k l H. induction l as [|a l IH]; cbn [flat_map List.length]; [lia|].
  rewrite length_app, H, IH. lia.
Qed.

(** X25.  Assigning [MAX_current_limit] on the base class leaves the
    maximum current what it was and replaces the maximum voltage
    instead.  A [zero_all_channels] that follows makes four requests
    for each channel, and asks for every channel's voltage limit to be
    the value meant as a current and for its current limit to be the
    old maximum current. *)
Theorem MAX_current_limit_setter_replaces_the_voltage :
  forall (new_MAX_current : option Q) (ps : supply),
    let ps' := MAX_current_limit_setter new_MAX_current ps in
    _MAX_current_limit ps' = _MAX_current_limit ps /\
    _MAX_voltage_limit ps' = new_MAX_current /\
    List.length (zero_all_channels ps') = 4 * Z.to_nat (_number_of_channels ps) /\
    Forall (fun r =>
              match r with
              | set_channel_voltage_limit _ volts => volts = new_MAX_current
              | set_channel_current_limit _ amps => amps = _MAX_current_limit ps
              | set_set_voltage _ volts => volts = Some 0%Q
              | set_set_current _ amps => amps = Some 0%Q
              end)
           (zero_all_channels ps').
Proof.
  intros c ps ps'. split; [reflexivity|]. split; [reflexivity|]. split.
  - unfold zero_all_channels.
    rewrite flat_map_length_const with (k := 4) by reflexivity.
    unfold range. rewrite length_map, length_seq. subst ps'.
    cbn [MAX_current_limit_setter assign_MAX_voltage_limit print _number_of_channels].
    replace (_number_of_channels ps + 1 - 1)%Z with (_number_of_channels ps) by lia.
    reflexivity.
  - unfold zero_all_channels. apply Forall_flat_map, Forall_forall.
    intros chan _. repeat constructor.
Qed.

End BaseSupplyFacts.
